(** * Streaming agent orchestration of the code-assistant backend

    A shallow embedding of
    - [app/modules/intelligence/agents/agents/debug_rag_agent.py]
      (the tool-agent runner and its transcript stream extractor),
    - [app/modules/intelligence/agents/chat_agents/debugging_chat_agent.py] and
    - [app/modules/intelligence/agents/chat_agents/code_changes_chat_agent.py]
      (the two response streaming orchestrators),
    followed by the properties of the specification that concern them.

    Python strings are [string]s (each character a code point below 256),
    lists are [list]s, an awaited collaborator is the outcome it returns
    ([inl] an exception, [inr] a value), and an async generator body is a
    computation in the monad [Gen], which records every collaborator call and
    every [yield] in program order. *)

From Stdlib Require Import String Ascii List Bool Arith Lia.
#[local] Set Warnings "-register-all".
Import ListNotations.
Open Scope string_scope.
Open Scope list_scope.

(* ===================================================================== *)
(** * Python string operations used by the sources *)
(* ===================================================================== *)

Module PyStr.

(** ["\n"], ["\r"] and ["\x1b"]. *)
Definition LF : ascii := ascii_of_nat 10.
Definition CR : ascii := ascii_of_nat 13.
Definition ESC : ascii := ascii_of_nat 27.

(** [s.startswith(p)]. *)
Fixpoint startswith (s p : string) : bool :=
  match p, s with
  | EmptyString, _ => true
  | String _ _, EmptyString => false
  | String a p', String b s' => Ascii.eqb a b && startswith s' p'
  end.

(** [p in s]: [p] occurs in [s] as a contiguous substring. *)
Fixpoint contains (p s : string) : bool :=
  startswith s p ||
  match s with
  | EmptyString => false
  | String _ s' => contains p s'
  end.

(** [s.endswith(p)]. *)
Fixpoint endswith (s p : string) : bool :=
  String.eqb s p ||
  match s with
  | EmptyString => false
  | String _ s' => endswith s' p
  end.

(** [s[:k]] for [0 <= k]. *)
Fixpoint take (k : nat) (s : string) : string :=
  match k, s with
  | S k', String a s' => String a (take k' s')
  | _, _ => EmptyString
  end.

(** [s[:-n]] for [0 < n]: everything but the last [n] characters, and the
    empty string when [s] has fewer than [n] characters. *)
Definition slice_to_neg (n : nat) (s : string) : string :=
  take (String.length s - n) s.

(** [not s]. *)
Definition is_empty (s : string) : bool :=
  match s with EmptyString => true | _ => false end.

(** What a file opened in text mode with the default [newline=None]
    delivers of the text written to it (universal newlines): ["\r\n"] and
    a ["\r"] on its own both arrive as ["\n"]. *)
Fixpoint universal_newlines (text : string) : string :=
  match text with
  | EmptyString => EmptyString
  | String c rest =>
      if Ascii.eqb c CR then
        String LF
          match rest with
          | EmptyString => EmptyString
          | String c' rest' =>
              if Ascii.eqb c' LF then universal_newlines rest'
              else universal_newlines rest
          end
      else String c (universal_newlines rest)
  end.

(** A text cut after every ["\n"]: each line keeps its ["\n"], only the
    last may lack one. *)
Fixpoint lines_of (text : string) : list string :=
  match text with
  | EmptyString => []
  | String c rest =>
      if Ascii.eqb c LF then String c EmptyString :: lines_of rest
      else match lines_of rest with
           | [] => [String c EmptyString]
           | l :: ls => String c l :: ls
           end
  end.

(** The lines that iterating over a text-mode file produces: the lines of
    the text as delivered, every line end being ["\n"]. *)
Definition readlines (text : string) : list string :=
  lines_of (universal_newlines text).

End PyStr.

(* ===================================================================== *)
(** * Exceptions and the generator monad *)
(* ===================================================================== *)

(** An instance of [Exception], given by [str(e)]. *)
Inductive exn : Type := Exception (text : string).

Definition str_exn (e : exn) : string := let (t) := e in t.

(** What awaiting a collaborator gives back. *)
Definition outcome (A : Type) : Type := (exn + A)%type.

Section GenMonad.

Variable event : Type.

(** A generator body: the events it performed, in order, and how it ended. *)
Definition Gen (A : Type) : Type := (list event * outcome A)%type.

Definition ret {A} (a : A) : Gen A := ([], inr a).

Definition bind {A B} (m : Gen A) (k : A -> Gen B) : Gen B :=
  match m with
  | (t, inl e) => (t, inl e)
  | (t, inr a) => let (t', r) := k a in (t ++ t', r)
  end.

Definition raise {A} (e : exn) : Gen A := ([], inl e).

Definition emit (ev : event) : Gen unit := ([ev], inr tt).

(** [await c], [c] having been called: an exception of the callee is raised
    at the call site. *)
Definition await {A} (r : outcome A) : Gen A := ([], r).

(** [try: body  except Exception as e: handler(e)]. *)
Definition try_except (body : Gen unit) (handler : exn -> Gen unit) : Gen unit :=
  match body with
  | (t, inl e) => let (t', r) := handler e in (t ++ t', r)
  | (t, inr a) => (t, inr a)
  end.

Definition trace_of {A} (m : Gen A) : list event := fst m.
Definition result_of {A} (m : Gen A) : outcome A := snd m.

End GenMonad.

Arguments ret {event A} a.
Arguments bind {event A B} m k.
Arguments raise {event A} e.
Arguments emit {event} ev.
Arguments await {event A} r.
Arguments try_except {event} body handler.
Arguments trace_of {event A} m.
Arguments result_of {event A} m.

Declare Scope gen_scope.
Delimit Scope gen_scope with gen.
Notation "x <- c1 ;; c2" := (bind c1 (fun x => c2))
  (at level 61, c1 at next level, right associativity) : gen_scope.
Notation "c1 ;; c2" := (bind c1 (fun _ => c2))
  (at level 61, right associativity) : gen_scope.
Notation "' pat <- c1 ;; c2" := (bind c1 (fun x => match x with pat => c2 end))
  (at level 61, pat pattern, c1 at next level, right associativity) : gen_scope.

(* ===================================================================== *)
(** * json.dumps with its default settings *)
(* ===================================================================== *)

Module Json.

(** The JSON values the orchestrators serialise: strings, lists and dicts
    (a dict as its items in insertion order). *)
Inductive value : Type :=
| Str (s : string)
| Arr (items : list value)
| Obj (fields : list (string * value)).

Definition DQUOTE : ascii := ascii_of_nat 34.
Definition BACKSLASH : ascii := ascii_of_nat 92.

(** A lowercase hexadecimal digit, as ['{0:04x}'.format] prints it. *)
Definition hex_digit (n : nat) : ascii :=
  match n with
  | 0 => "0" | 1 => "1" | 2 => "2" | 3 => "3" | 4 => "4" | 5 => "5"
  | 6 => "6" | 7 => "7" | 8 => "8" | 9 => "9" | 10 => "a" | 11 => "b"
  | 12 => "c" | 13 => "d" | 14 => "e" | _ => "f"
  end%char.

Definition backslashed (c : ascii) : string := String BACKSLASH (String c EmptyString).

(** [ESCAPE_DCT] and the [\uXXXX] fallback of [encode_basestring_ascii]
    ([ensure_ascii=True]): the backslash, the double quote and every
    character outside [' '..'~'] are replaced. *)
Definition escape_char (c : ascii) : string :=
  let n := nat_of_ascii c in
  if Nat.eqb n 92 then backslashed BACKSLASH
  else if Nat.eqb n 34 then backslashed DQUOTE
  else if Nat.eqb n 8 then backslashed "b"
  else if Nat.eqb n 12 then backslashed "f"
  else if Nat.eqb n 10 then backslashed "n"
  else if Nat.eqb n 13 then backslashed "r"
  else if Nat.eqb n 9 then backslashed "t"
  else if Nat.leb 32 n && Nat.leb n 126 then String c EmptyString
  else String BACKSLASH
         (String "u" (String "0" (String "0"
            (String (hex_digit (n / 16)) (String (hex_digit (n mod 16)) EmptyString))))).

Fixpoint escape (s : string) : string :=
  match s with
  | EmptyString => EmptyString
  | String c s' => (escape_char c ++ escape s')%string
  end.

(** A string literal: ['"' + escaped + '"']. *)
Definition quote (s : string) : string :=
  String DQUOTE (escape s ++ String DQUOTE EmptyString).

(** [', '.join(parts)]. *)
Fixpoint join (parts : list string) : string :=
  match parts with
  | [] => EmptyString
  | [x] => x
  | x :: rest => (x ++ ", " ++ join rest)%string
  end.

(** [json.dumps(v)]: item separator [", "], key separator [": "]. *)
Fixpoint dumps (v : value) : string :=
  match v with
  | Str s => quote s
  | Arr items => ("[" ++ join (map dumps items) ++ "]")%string
  | Obj fields =>
      ("{" ++ join (map (fun kv => match kv with
                                   | (k, x) => (quote k ++ ": " ++ dumps x)%string
                                   end) fields) ++ "}")%string
  end.

(** The text of one member of a dict. *)
Definition member_text (kv : string * value) : string :=
  match kv with (k, x) => (quote k ++ ": " ++ dumps x)%string end.

(** A value's text starts with a quote or an opening bracket. *)
Definition opens_value (s : string) : Prop :=
  exists c t, s = String c t
              /\ (c = DQUOTE \/ c = "["%char \/ c = "{"%char).

(** ** Reading JSON text back: what a client does with an item ([json.loads]) *)

(** The value of a hexadecimal digit. *)
Definition hex_value (c : ascii) : option nat :=
  let n := nat_of_ascii c in
  if Nat.leb 48 n && Nat.leb n 57 then Some (n - 48)
  else if Nat.leb 97 n && Nat.leb n 102 then Some (n - 87)
  else if Nat.leb 65 n && Nat.leb n 70 then Some (n - 55)
  else None.

(** The character a backslash followed by [c] stands for, [\u] apart. *)
Definition unescape_char (c : ascii) : option ascii :=
  let n := nat_of_ascii c in
  if Nat.eqb n 92 then Some BACKSLASH
  else if Nat.eqb n 34 then Some DQUOTE
  else if Nat.eqb n 47 then Some "/"%char
  else if Nat.eqb n 98 then Some (ascii_of_nat 8)
  else if Nat.eqb n 102 then Some (ascii_of_nat 12)
  else if Nat.eqb n 110 then Some (ascii_of_nat 10)
  else if Nat.eqb n 114 then Some (ascii_of_nat 13)
  else if Nat.eqb n 116 then Some (ascii_of_nat 9)
  else None.

Definition cons_string (c : ascii) (r : option (string * string))
  : option (string * string) :=
  match r with
  | Some (str, rest) => Some (String c str, rest)
  | None => None
  end.

(** A string literal from after its opening quote: the string and the
    text after the closing quote. A raw control character is refused, and so
    is a [\uXXXX] above the code points a [string] holds. *)
Fixpoint read_string (s : string) : option (string * string) :=
  match s with
  | EmptyString => None
  | String c rest =>
      if Ascii.eqb c DQUOTE then Some (EmptyString, rest)
      else if Ascii.eqb c BACKSLASH then
        match rest with
        | EmptyString => None
        | String e rest1 =>
            if Ascii.eqb e "u" then
              match rest1 with
              | String h1 (String h2 (String h3 (String h4 rest2))) =>
                  match hex_value h1, hex_value h2, hex_value h3, hex_value h4 with
                  | Some a, Some b, Some c', Some d =>
                      let n := ((a * 16 + b) * 16 + c') * 16 + d in
                      if Nat.ltb n 256
                      then cons_string (ascii_of_nat n) (read_string rest2)
                      else None
                  | _, _, _, _ => None
                  end
              | _ => None
              end
            else
              match unescape_char e with
              | Some ch => cons_string ch (read_string rest1)
              | None => None
              end
        end
      else if Nat.ltb (nat_of_ascii c) 32 then None
      else cons_string c (read_string rest)
  end.

(** JSON whitespace: space, tab, line feed, carriage return. *)
Definition is_ws (c : ascii) : bool :=
  let n := nat_of_ascii c in
  Nat.eqb n 32 || Nat.eqb n 9 || Nat.eqb n 10 || Nat.eqb n 13.

Fixpoint skip_ws (s : string) : string :=
  match s with
  | EmptyString => EmptyString
  | String c rest => if is_ws c then skip_ws rest else s
  end.

(** The items of a list after the first has been looked for: [read] reads
    one value, [n] bounds the number of items. *)
Fixpoint read_items (read : string -> option (value * string)) (n : nat)
    (s : string) : option (list value * string) :=
  match n with
  | 0 => None
  | S n' =>
      match read s with
      | None => None
      | Some (v, rest) =>
          match skip_ws rest with
          | String c rest1 =>
              if Ascii.eqb c "]" then Some ([v], rest1)
              else if Ascii.eqb c "," then
                match read_items read n' rest1 with
                | Some (vs, rest2) => Some (v :: vs, rest2)
                | None => None
                end
              else None
          | EmptyString => None
          end
      end
  end.

(** The members of a dict, likewise. *)
Fixpoint read_members (read : string -> option (value * string)) (n : nat)
    (s : string) : option (list (string * value) * string) :=
  match n with
  | 0 => None
  | S n' =>
      match skip_ws s with
      | String q rest0 =>
          if Ascii.eqb q DQUOTE then
            match read_string rest0 with
            | None => None
            | Some (k, rest1) =>
                match skip_ws rest1 with
                | String c rest2 =>
                    if Ascii.eqb c ":" then
                      match read rest2 with
                      | None => None
                      | Some (v, rest3) =>
                          match skip_ws rest3 with
                          | String d rest4 =>
                              if Ascii.eqb d "}" then Some ([(k, v)], rest4)
                              else if Ascii.eqb d "," then
                                match read_members read n' rest4 with
                                | Some (kvs, rest5) => Some ((k, v) :: kvs, rest5)
                                | None => None
                                end
                              else None
                          | EmptyString => None
                          end
                      end
                    else None
                | EmptyString => None
                end
            end
          else None
      | EmptyString => None
      end
  end.

(** One value and the text after it; [fuel] bounds the nesting and the
    number of items. *)
Fixpoint read_value (fuel : nat) (s : string) : option (value * string) :=
  match fuel with
  | 0 => None
  | S fuel' =>
      match skip_ws s with
      | EmptyString => None
      | String c rest =>
          if Ascii.eqb c DQUOTE then
            match read_string rest with
            | Some (str, rest1) => Some (Str str, rest1)
            | None => None
            end
          else if Ascii.eqb c "[" then
            match skip_ws rest with
            | String c1 rest1 =>
                if Ascii.eqb c1 "]" then Some (Arr [], rest1)
                else
                  match read_items (read_value fuel') fuel' rest with
                  | Some (vs, rest2) => Some (Arr vs, rest2)
                  | None => None
                  end
            | EmptyString => None
            end
          else if Ascii.eqb c "{" then
            match skip_ws rest with
            | String c1 rest1 =>
                if Ascii.eqb c1 "}" then Some (Obj [], rest1)
                else
                  match read_members (read_value fuel') fuel' rest with
                  | Some (kvs, rest2) => Some (Obj kvs, rest2)
                  | None => None
                  end
            | EmptyString => None
            end
          else None
      end
  end.

(** [json.loads(s)] on the values above: one value and nothing but
    whitespace after it. *)
Definition loads (s : string) : option value :=
  match read_value (String.length s) s with
  | Some (v, rest) =>
      match skip_ws rest with
      | EmptyString => Some v
      | String _ _ => None
      end
  | None => None
  end.

(** The number of values in a value; it bounds the fuel its text needs. *)
Fixpoint size (v : value) : nat :=
  match v with
  | Str _ => 1
  | Arr items => S (list_sum (map size items))
  | Obj fields =>
      S (list_sum (map (fun kv => match kv with (_, x) => size x end) fields))
  end.

End Json.

(* ===================================================================== *)
(** * The data the agents exchange *)
(* ===================================================================== *)

(** [NodeContext] (message_schema): the agents read [node_id] only. *)
Record NodeContext : Type := { node_id : string }.

(** [NodeResponse] and [RAGResponse] of debug_rag_agent.py. *)
Record NodeResponse : Type :=
  { node_name : string; docstring : string; code : string }.

(** [node.model_dump()]. *)
Definition model_dump (n : NodeResponse) : Json.value :=
  Json.Obj [("node_name", Json.Str (node_name n));
            ("docstring", Json.Str (docstring n));
            ("code", Json.Str (code n))].

(** The [pydantic] part of an agent result: [citations] and a [response]
    ([List[NodeResponse]] for the debugging agent). *)
Record Structured (R : Type) : Type :=
  { citations : list string; response : R }.
Arguments citations {R} s.
Arguments response {R} s.

Definition RAGResponse : Type := Structured (list NodeResponse).

(** What a kicked-off agent returns: [pydantic] is [None] when the structured
    parse failed, [raw] is the raw text. *)
Record CrewOutput (R : Type) : Type :=
  { pydantic : option (Structured R); raw : string }.
Arguments pydantic {R} c.
Arguments raw {R} c.

(** Modelled from the spec: the enumeration [ClassificationResult] of
    classification_types, which is not among the sources; the spec gives its
    two values. *)
Inductive ClassificationResult : Type := AGENT_REQUIRED | NO_AGENT.

Definition ClassificationResult_eqb (a b : ClassificationResult) : bool :=
  match a, b with
  | AGENT_REQUIRED, AGENT_REQUIRED | NO_AGENT, NO_AGENT => true
  | _, _ => false
  end.

(** The [content] of a message: text, or the list of dumped nodes the
    debugging agent wraps in a [SystemMessage]. *)
Inductive message_content : Type :=
| Text (s : string)
| Nodes (l : list NodeResponse).

Definition content_json (c : message_content) : Json.value :=
  match c with
  | Text s => Json.Str s
  | Nodes l => Json.Arr (map model_dump l)
  end.

(** langchain messages, by class. *)
Inductive BaseMessage : Type :=
| HumanMessage (content : message_content)
| AIMessage (content : message_content)
| SystemMessage (content : message_content).

Definition content (m : BaseMessage) : message_content :=
  match m with HumanMessage c | AIMessage c | SystemMessage c => c end.

(** [isinstance(msg, HumanMessage)]. *)
Definition is_HumanMessage (m : BaseMessage) : bool :=
  match m with HumanMessage _ => true | _ => false end.

(** An entry of the session history: a bare [str], [int] or [float], given
    by its [str(msg)], or a message object. *)
Inductive history_item : Type :=
| scalar (str_msg : string)
| message (m : BaseMessage).

(** A chunk of the direct chain's stream: one with a [content] attribute, or
    anything else, given by its [str(chunk)]. *)
Inductive stream_chunk : Type :=
| with_content (content : string)
| without_content (str_chunk : string).

(** The [inputs] dict of [_classify_query]. *)
Record ClassifierInputs : Type :=
  { ci_query : string; ci_history : list message_content }.

(** The [inputs] dict of the direct chain. *)
Record ChainInputs : Type :=
  { in_history : list BaseMessage;
    in_tool_results : list BaseMessage;
    in_input : string }.

(** The keyword arguments of the ["combined_task"] prompt of [create_tasks]. *)
Record TaskPromptArgs : Type :=
  { tp_chat_history : list message_content;
    tp_query : string;
    tp_project_id : string;
    tp_node_ids : list NodeContext;
    tp_file_structure : string;
    tp_code_results : list (list (string * string)) }.

(** A system prompt, [PromptResponse.text]. *)
Record PromptResponse : Type := { text : string }.

(** The wire form of a [{citations, message}] chunk. *)
Definition chunk_json (cits : list string) (msg : message_content) : Json.value :=
  Json.Obj [("citations", Json.Arr (map Json.Str cits)); ("message", content_json msg)].

(** ** Events: collaborator calls and yields, in program order *)

Inductive event : Type :=
(* GetCodeFromMultipleNodeIdsTool(...).run_multiple(project_id, node_ids) *)
| run_multiple (project_id : string) (ids : list string)
(* prompt_service.get_prompts("debug_rag_query_agent", ...) *)
| get_agent_prompt
(* prompt_service.get_prompts("combined_task", ..., **kwargs) *)
| get_task_prompt (args : TaskPromptArgs)
(* asyncio.create_task(kickoff()) *)
| create_kickoff_task
(* self._get_prompts(user_id) *)
| get_prompts (user_id : string)
(* history_manager.get_session_history(user_id, conversation_id) *)
| get_session_history (user_id conversation_id : string)
(* get_preferred_llm(user_id) and the classification prompt of the agent *)
| get_classifier_prompt (user_id : string)
(* chain.ainvoke(input=inputs) of the classifier *)
| classifier_ainvoke (inputs : ClassifierInputs)
(* kickoff_debug_rag_agent(query, project_id, chat_history, node_ids, ..., user_id) *)
| call_kickoff_debug_rag_agent
    (query project_id : string) (chat_history : list message_content)
    (node_ids : list NodeContext) (user_id : string)
(* kickoff_blast_radius_agent(query, project_id, node_ids, ..., user_id, ...) *)
| call_kickoff_blast_radius_agent
    (query project_id : string) (node_ids : list NodeContext) (user_id : string)
(* history_manager.add_message_chunk(conversation_id, content, AI_GENERATED, citations=...) *)
| add_message_chunk
    (conversation_id : string) (content : message_content)
    (citations : option (list string))
(* history_manager.flush_message_buffer(conversation_id, AI_GENERATED) *)
| flush_message_buffer (conversation_id : string)
(* agents_service.format_citations(citations) *)
| call_format_citations (citations : list string)
(* self.chain.astream(inputs) *)
| chain_astream (inputs : ChainInputs)
(* yield item *)
| yield (item : string).

Definition G : Type -> Type := Gen event.

(** The items yielded, in order. *)
Fixpoint yields (t : list event) : list string :=
  match t with
  | [] => []
  | yield s :: t' => s :: yields t'
  | _ :: t' => yields t'
  end.

(* ===================================================================== *)
(** * debug_rag_agent.py: the tool-agent runner *)
(* ===================================================================== *)

Module DebugRAGAgent.

Import PyStr.
Local Open Scope gen_scope.

(** ** The transcript loop of [DebugRAGAgent.run] *)

Definition final_answer_marker : string := "## Final Answer:".

(** ["\x1b[00m\n"], six characters. *)
Definition color_reset_line_end : string :=
  String ESC ("[00m" ++ String LF EmptyString).

(** One iteration of [async for line in read_file], from the flag
    [final_answer_streaming] before it: [None] is [break], otherwise the
    fragments yielded and the flag after the iteration. *)
Definition transcript_step (final_answer_streaming : bool) (line : string)
  : option (list string * bool) :=
  if is_empty line then None
  else
    let yielded :=
      if final_answer_streaming then
        if endswith line color_reset_line_end
        then [slice_to_neg 6 line]
        else [line]
      else [] in
    let flag :=
      if contains final_answer_marker line then true
      else final_answer_streaming in
    Some (yielded, flag).

(** The loop over the lines the reader delivers. *)
Fixpoint transcript_loop (final_answer_streaming : bool) (lines : list string)
  : list string :=
  match lines with
  | [] => []
  | line :: rest =>
      match transcript_step final_answer_streaming line with
      | None => []
      | Some (yielded, flag) => yielded ++ transcript_loop flag rest
      end
  end.

(** [final_answer_streaming = False] before the loop. *)
Definition transcript_stream (lines : list string) : list string :=
  transcript_loop false lines.

(** ** The collaborators of the runner *)

Record Self : Type :=
  { (* GetCodeFromMultipleNodeIdsTool(sql_db, user_id).run_multiple *)
    lookup : string -> list string -> outcome (list (list (string * string)));
    (* prompt_service.get_prompts("debug_rag_query_agent", ...) *)
    agent_prompt : outcome string;
    (* prompt_service.get_prompts("combined_task", ...) *)
    task_prompt : TaskPromptArgs -> outcome string;
    (* what the crew run on the task prints, as the lines read from the pipe *)
    crew_stdout : string -> list string;
    (* CodeProviderService(sql_db).get_project_structure_async *)
    project_structure : string -> outcome string }.

Definition create_agents (self : Self) : G string :=
  emit get_agent_prompt ;;
  await (agent_prompt self).

Definition create_tasks (self : Self) (query project_id : string)
    (chat_history : list message_content) (node_ids : list NodeContext)
    (file_structure : string) (code_results : list (list (string * string)))
    (query_agent : string) : G string :=
  let args := {| tp_chat_history := chat_history;
                 tp_query := query;
                 tp_project_id := project_id;
                 tp_node_ids := node_ids;
                 tp_file_structure := file_structure;
                 tp_code_results := code_results |} in
  emit (get_task_prompt args) ;;
  await (task_prompt self args).

Fixpoint yield_each (fragments : list string) : G unit :=
  match fragments with
  | [] => ret tt
  | f :: rest => emit (yield f) ;; yield_each rest
  end.

(** [DebugRAGAgent.run]. *)
Definition run (self : Self) (query project_id : string)
    (chat_history : list message_content) (node_ids : list NodeContext)
    (file_structure : string) : G unit :=
  code_results <-
    (if Nat.ltb 0 (List.length node_ids) then
       emit (run_multiple project_id (map node_id node_ids)) ;;
       await (lookup self project_id (map node_id node_ids))
     else ret []) ;;
  debug_agent <- create_agents self ;;
  debug_task <- create_tasks self query project_id chat_history node_ids
                  file_structure code_results debug_agent ;;
  emit create_kickoff_task ;;
  yield_each (transcript_stream (crew_stdout self debug_task)).

(** [kickoff_debug_rag_agent]: itself an async generator, it yields again
    every chunk of [run]. *)
Definition kickoff_debug_rag_agent (self : Self) (query project_id : string)
    (chat_history : list message_content) (node_ids : list NodeContext)
    : G unit :=
  file_structure <- await (project_structure self project_id) ;;
  run self query project_id chat_history node_ids file_structure.

(** The batched lookups in a trace, each with its arguments. *)
Fixpoint lookups (t : list event) : list (string * list string) :=
  match t with
  | [] => []
  | run_multiple p ids :: t' => (p, ids) :: lookups t'
  | _ :: t' => lookups t'
  end.

(** The [code_results] handed to the task prompt, if the run got there. *)
Fixpoint seeded_code_results (t : list event)
  : list (list (list (string * string))) :=
  match t with
  | [] => []
  | get_task_prompt a :: t' => tp_code_results a :: seeded_code_results t'
  | _ :: t' => seeded_code_results t'
  end.

End DebugRAGAgent.

(* ===================================================================== *)
(** * What the two chat agents share *)
(* ===================================================================== *)

(** The services a chat agent holds and what they answer in one request.
    The writes of the history store, [add_message_chunk] and
    [flush_message_buffer], return nothing; they are events of the trace and
    are taken not to raise. *)
Record Services : Type :=
  { (* self.chain is already built *)
    chain : bool;
    (* self._get_prompts(user_id): the SYSTEM and the HUMAN prompt, if found *)
    _get_prompts : string -> outcome (option PromptResponse * option PromptResponse);
    (* history_manager.get_session_history(user_id, conversation_id) *)
    session_history : string -> string -> outcome (list history_item);
    (* get_preferred_llm(user_id), then prompt_service.get_prompts(<agent>,
       [SYSTEM], preferred_llm): the classification prompt *)
    classifier_prompt : string -> outcome string;
    (* (prompt | llm | parser).ainvoke(inputs), as response.classification *)
    classifier : string -> ClassifierInputs -> outcome ClassificationResult;
    (* self.chain.astream(inputs): the chunks produced, then an exception if
       the stream fails *)
    astream : ChainInputs -> list stream_chunk * option exn;
    (* agents_service.format_citations *)
    format_citations : list string -> list string }.

Module ChatAgent.

Local Open Scope gen_scope.

(** [_create_chain], [agent] being the name in its message. *)
Definition _create_chain (agent : string) (self : Services) (user_id : string)
  : G unit :=
  emit (get_prompts user_id) ;;
  prompts <- await (_get_prompts self user_id) ;;
  match prompts with
  | (Some system_prompt, Some human_prompt) => ret tt
  | _ => raise (Exception ("Required prompts not found for " ++ agent))
  end.

(** [l[-n:]] for [0 < n]. *)
Definition last_n {A : Type} (n : nat) (l : list A) : list A :=
  skipn (List.length l - n) l.

(** [{"query": query, "history": [msg.content for msg in history[-5:]]}]. *)
Definition classifier_inputs (query : string) (history : list BaseMessage)
  : ClassifierInputs :=
  {| ci_query := query; ci_history := map content (last_n 5 history) |}.

(** [_classify_query]. *)
Definition _classify_query (self : Services) (query : string)
    (history : list BaseMessage) (user_id : string) : G ClassificationResult :=
  emit (get_classifier_prompt user_id) ;;
  prompt <- await (classifier_prompt self user_id) ;;
  let inputs := classifier_inputs query history in
  emit (classifier_ainvoke inputs) ;;
  await (classifier self prompt inputs).

(** [HumanMessage(content=str(msg)) if isinstance(msg, (str, int, float)) else msg]. *)
Definition validate (msg : history_item) : BaseMessage :=
  match msg with
  | scalar s => HumanMessage (Text s)
  | message m => m
  end.

(** [chunk.content if hasattr(chunk, "content") else str(chunk)]. *)
Definition chunk_content (chunk : stream_chunk) : string :=
  match chunk with with_content c => c | without_content s => s end.

(** The steps both [run] bodies start with, up to the classification. *)
Definition classify_request (agent : string) (self : Services)
    (query user_id conversation_id : string)
  : G (list BaseMessage * ClassificationResult) :=
  (if chain self then ret tt else _create_chain agent self user_id) ;;
  emit (get_session_history user_id conversation_id) ;;
  history <- await (session_history self user_id conversation_id) ;;
  let validated_history := map validate history in
  classification <- _classify_query self query validated_history user_id ;;
  ret (validated_history, classification).

(** [except Exception as e: ... yield f"An error occurred: {str(e)}"]. *)
Definition on_error (e : exn) : G unit :=
  emit (yield ("An error occurred: " ++ str_exn e)).

End ChatAgent.

(* ===================================================================== *)
(** * debugging_chat_agent.py *)
(* ===================================================================== *)

Module DebuggingChatAgent.

Import ChatAgent.
Local Open Scope gen_scope.

(** What [await kickoff_debug_rag_agent(...)] gives [run], which reads
    [pydantic] and [raw] of the result. The callee is a parameter of [run]:
    the body is written against a coroutine that returns such a result, and
    [await_async_generator] below is what the [await] gives with the
    [kickoff_debug_rag_agent] of debug_rag_agent.py. *)
Definition Kickoff : Type :=
  string -> string -> list message_content -> list NodeContext -> string ->
  outcome (CrewOutput (list NodeResponse)).

(** The [async for] over the direct chain of the debugging agent. *)
Fixpoint stream_loop (conversation_id : string) (citations : list string)
    (chunks : list stream_chunk) : G unit :=
  match chunks with
  | [] => ret tt
  | chunk :: rest =>
      let content := chunk_content chunk in
      emit (add_message_chunk conversation_id (Text content) (Some citations)) ;;
      emit (yield (Json.dumps (chunk_json citations (Text content)))) ;;
      stream_loop conversation_id citations rest
  end.

Definition LFs : string := String PyStr.LF EmptyString.

(** The body of the [try] of [DebuggingChatAgent.run]. *)
Definition run_body (kickoff_debug_rag_agent : Kickoff) (self : Services)
    (query project_id user_id conversation_id : string)
    (node_ids : list NodeContext) (logs stacktrace : string) : G unit :=
  ' (validated_history, classification) <-
      classify_request "DEBUGGING_AGENT" self query user_id conversation_id ;;
  ' (tool_results, citations) <-
      (if ClassificationResult_eqb classification AGENT_REQUIRED then
         let chat_history :=
           map content (filter is_HumanMessage validated_history) in
         emit (call_kickoff_debug_rag_agent
                 query project_id chat_history node_ids user_id) ;;
         rag_result <- await (kickoff_debug_rag_agent
                                query project_id chat_history node_ids user_id) ;;
         let (result, citations) :=
           match pydantic rag_result with
           | Some p => (Nodes (response p), citations p)
           | None => (Text (raw rag_result), [])
           end in
         let tool_results := [SystemMessage result] in
         emit (add_message_chunk conversation_id result (Some citations)) ;;
         emit (flush_message_buffer conversation_id) ;;
         emit (yield (Json.dumps (chunk_json citations result))) ;;
         ret (tool_results, citations)
       else ret ([], [])) ;;
  if negb (ClassificationResult_eqb classification AGENT_REQUIRED) then
    let full_query :=
      ("Query: " ++ query ++ LFs ++ "Project ID: " ++ project_id ++ LFs
       ++ "Logs: " ++ logs ++ LFs ++ "Stacktrace: " ++ stacktrace)%string in
    let inputs := {| in_history := validated_history;
                     in_tool_results := tool_results;
                     in_input := full_query |} in
    emit (call_format_citations citations) ;;
    let citations := format_citations self citations in
    emit (chain_astream inputs) ;;
    stream_loop conversation_id citations (fst (astream self inputs)) ;;
    match snd (astream self inputs) with
    | Some e => raise e
    | None => emit (flush_message_buffer conversation_id)
    end
  else ret tt.

(** [DebuggingChatAgent.run]. *)
Definition run (kickoff_debug_rag_agent : Kickoff) (self : Services)
    (query project_id user_id conversation_id : string)
    (node_ids : list NodeContext) (logs stacktrace : string) : G unit :=
  try_except
    (run_body kickoff_debug_rag_agent self query project_id user_id
              conversation_id node_ids logs stacktrace)
    on_error.

(** [await g] on the async generator object [g] that calling an
    [async def] with a [yield] in its body returns: the body of [g] does
    not start, and the [await] raises [TypeError], here with CPython's
    message for it. *)
Definition await_async_generator : Kickoff :=
  fun _ _ _ _ _ =>
    inl (Exception "object async_generator can't be used in 'await' expression").

End DebuggingChatAgent.

(* ===================================================================== *)
(** * code_changes_chat_agent.py *)
(* ===================================================================== *)

Module CodeChangesChatAgent.

Import ChatAgent.
Local Open Scope gen_scope.

(** What [await kickoff_blast_radius_agent(...)] gives [run]; the
    [response] is given by the text the f-string prints for it. *)
Definition Kickoff : Type :=
  string -> string -> list NodeContext -> string -> outcome (CrewOutput string).

(** The [async for] over the direct chain of the code changes agent. *)
Fixpoint stream_loop (conversation_id : string)
    (classification : ClassificationResult) (citations : list string)
    (chunks : list stream_chunk) : G unit :=
  match chunks with
  | [] => ret tt
  | chunk :: rest =>
      let content := chunk_content chunk in
      emit (add_message_chunk conversation_id (Text content)
              (if ClassificationResult_eqb classification AGENT_REQUIRED
               then Some citations else None)) ;;
      emit (yield (Json.dumps
              (chunk_json
                 (if ClassificationResult_eqb classification AGENT_REQUIRED
                  then citations else [])
                 (Text content)))) ;;
      stream_loop conversation_id classification citations rest
  end.

(** The body of the [try] of [CodeChangesChatAgent.run]. *)
Definition run_body (kickoff_blast_radius_agent : Kickoff) (self : Services)
    (query project_id user_id conversation_id : string)
    (node_ids : list NodeContext) : G unit :=
  ' (validated_history, classification) <-
      classify_request "CODE_CHANGES_AGENT" self query user_id conversation_id ;;
  ' (tool_results, citations) <-
      (if ClassificationResult_eqb classification AGENT_REQUIRED then
         emit (call_kickoff_blast_radius_agent query project_id node_ids user_id) ;;
         blast_radius_result <- await (kickoff_blast_radius_agent
                                         query project_id node_ids user_id) ;;
         let (citations, response) :=
           match pydantic blast_radius_result with
           | Some p => (citations p, response p)
           | None => ([], raw blast_radius_result)
           end in
         ret ([SystemMessage (Text ("Blast Radius Agent result: " ++ response))],
              citations)
       else ret ([], [])) ;;
  let inputs := {| in_history := validated_history;
                   in_tool_results := tool_results;
                   in_input := query |} in
  emit (call_format_citations citations) ;;
  let citations := format_citations self citations in
  emit (chain_astream inputs) ;;
  stream_loop conversation_id classification citations (fst (astream self inputs)) ;;
  match snd (astream self inputs) with
  | Some e => raise e
  | None => emit (flush_message_buffer conversation_id)
  end.

(** [CodeChangesChatAgent.run]. *)
Definition run (kickoff_blast_radius_agent : Kickoff) (self : Services)
    (query project_id user_id conversation_id : string)
    (node_ids : list NodeContext) : G unit :=
  try_except
    (run_body kickoff_blast_radius_agent self query project_id user_id
              conversation_id node_ids)
    on_error.

End CodeChangesChatAgent.

(* ===================================================================== *)
(** * Reading a trace *)
(* ===================================================================== *)

(** The [(content, citations)] of the buffered appends, in call order. *)
Fixpoint appended (t : list event) : list (message_content * option (list string)) :=
  match t with
  | [] => []
  | add_message_chunk _ c cits :: t' => (c, cits) :: appended t'
  | _ :: t' => appended t'
  end.

(** The arguments of the calls of [format_citations], in call order. *)
Fixpoint format_calls (t : list event) : list (list string) :=
  match t with
  | [] => []
  | call_format_citations cits :: t' => cits :: format_calls t'
  | _ :: t' => format_calls t'
  end.

(** The number of flushes. *)
Fixpoint flushes (t : list event) : nat :=
  match t with
  | [] => 0
  | flush_message_buffer _ :: t' => S (flushes t')
  | _ :: t' => flushes t'
  end.

(* ===================================================================== *)
(** * Vocabulary of the properties *)
(* ===================================================================== *)

(** A line that does not hold the marker. *)
Definition unmarked (line : string) : Prop :=
  PyStr.contains DebugRAGAgent.final_answer_marker line = false.

(** The transcript of the specification's example as the text in the pipe:
    its four lines, every one ended by a line end, and the same text when
    nothing follows the colour reset of the last line. *)
Definition example_transcript_unterminated : string :=
  ("thinking..." ++ String PyStr.LF
     ("## Final Answer: " ++ String PyStr.LF
        ("Hello" ++ String PyStr.LF
           ("World" ++ String PyStr.ESC "[00m"))))%string.

Definition example_transcript : string :=
  ("thinking..." ++ String PyStr.LF
     ("## Final Answer: " ++ String PyStr.LF
        ("Hello" ++ String PyStr.LF
           ("World" ++ String PyStr.ESC ("[00m" ++ String PyStr.LF EmptyString)))))%string.

(** The wire form of a [{citations, message}] chunk and of the error item. *)
Definition encode (cits : list string) (msg : message_content) : string :=
  Json.dumps (chunk_json cits msg).

Definition error_item (e : exn) : string :=
  ("An error occurred: " ++ str_exn e)%string.

(** ** What a client reads in an item *)

Fixpoint as_strings (l : list Json.value) : option (list string) :=
  match l with
  | [] => Some []
  | Json.Str s :: rest =>
      match as_strings rest with
      | Some ss => Some (s :: ss)
      | None => None
      end
  | _ :: _ => None
  end.

Definition as_node (v : Json.value) : option NodeResponse :=
  match v with
  | Json.Obj [(k1, Json.Str a); (k2, Json.Str b); (k3, Json.Str c)] =>
      if String.eqb k1 "node_name" && String.eqb k2 "docstring"
         && String.eqb k3 "code"
      then Some {| node_name := a; docstring := b; code := c |}
      else None
  | _ => None
  end.

Fixpoint as_nodes (l : list Json.value) : option (list NodeResponse) :=
  match l with
  | [] => Some []
  | v :: rest =>
      match as_node v, as_nodes rest with
      | Some n, Some ns => Some (n :: ns)
      | _, _ => None
      end
  end.

Definition as_content (v : Json.value) : option message_content :=
  match v with
  | Json.Str s => Some (Text s)
  | Json.Arr l =>
      match as_nodes l with
      | Some ns => Some (Nodes ns)
      | None => None
      end
  | Json.Obj _ => None
  end.

(** A JSON object with exactly the two fields [citations], a list of
    strings, and [message], in either order. *)
Definition as_chunk (v : Json.value) : option (list string * message_content) :=
  match v with
  | Json.Obj [(k1, v1); (k2, v2)] =>
      let read c m :=
        match c with
        | Json.Arr l =>
            match as_strings l, as_content m with
            | Some cits, Some msg => Some (cits, msg)
            | _, _ => None
            end
        | _ => None
        end in
      if String.eqb k1 "citations" && String.eqb k2 "message" then read v1 v2
      else if String.eqb k1 "message" && String.eqb k2 "citations" then read v2 v1
      else None
  | _ => None
  end.

(** The [(citations, message)] an item parses to, if it parses as a chunk. *)
Definition decode (item : string) : option (list string * message_content) :=
  match Json.loads item with
  | Some v => as_chunk v
  | None => None
  end.

(** The chunks among the items, each as [(citations, message)]. *)
Fixpoint chunks_of (items : list string) : list (list string * message_content) :=
  match items with
  | [] => []
  | item :: rest =>
      match decode item with
      | Some c => c :: chunks_of rest
      | None => chunks_of rest
      end
  end.

(** ** The events of the streaming loop *)

(** For every chunk of the chain: the buffered append, then the yield. *)
Definition streamed (conversation_id : string)
    (appended_citations : option (list string)) (yielded_citations : list string)
    (chunks : list stream_chunk) : list event :=
  flat_map (fun chunk =>
              [add_message_chunk conversation_id
                 (Text (ChatAgent.chunk_content chunk)) appended_citations;
               yield (encode yielded_citations
                        (Text (ChatAgent.chunk_content chunk)))])
           chunks.

(** How the loop ends: with the flush, or with the error item when the
    stream raised. *)
Definition stream_end (conversation_id : string) (failure : option exn)
  : list event :=
  match failure with
  | Some e => [yield (error_item e)]
  | None => [flush_message_buffer conversation_id]
  end.

(** The [inputs] of the direct chain in the debugging agent. *)
Definition debugging_inputs (vh : list BaseMessage)
    (query project_id logs stacktrace : string) : ChainInputs :=
  {| in_history := vh;
     in_tool_results := [];
     in_input :=
       ("Query: " ++ query ++ DebuggingChatAgent.LFs ++ "Project ID: " ++ project_id
        ++ DebuggingChatAgent.LFs ++ "Logs: " ++ logs ++ DebuggingChatAgent.LFs
        ++ "Stacktrace: " ++ stacktrace)%string |}.

(** What the debugging agent persists and yields for an agent result. *)
Definition debugging_result (out : CrewOutput (list NodeResponse))
  : message_content * list string :=
  match pydantic out with
  | Some p => (Nodes (response p), citations p)
  | None => (Text (raw out), [])
  end.

(** What the code changes agent takes from an agent result: the citations
    and the tool message. *)
Definition code_changes_result (out : CrewOutput string)
  : list string * list BaseMessage :=
  match pydantic out with
  | Some p =>
      (citations p,
       [SystemMessage (Text ("Blast Radius Agent result: " ++ response p))])
  | None =>
      ([], [SystemMessage (Text ("Blast Radius Agent result: " ++ raw out))])
  end.

(** The calls made up to the classification. *)
Definition is_prelude (ev : event) : bool :=
  match ev with
  | get_prompts _ | get_session_history _ _ | get_classifier_prompt _
  | classifier_ainvoke _ => true
  | _ => false
  end.

(** The request got as far as the classification, which returned [c] on the
    normalised history [vh]. *)
Definition classified (agent : string) (self : Services)
    (query user_id conversation_id : string)
    (vh : list BaseMessage) (c : ClassificationResult) : Prop :=
  result_of (ChatAgent.classify_request agent self query user_id conversation_id)
  = inr (vh, c).

(** The inputs of the classifier invocations in a trace, and the chat
    histories handed to the RAG agent. *)
Fixpoint classifier_calls (t : list event) : list ClassifierInputs :=
  match t with
  | [] => []
  | classifier_ainvoke inputs :: t' => inputs :: classifier_calls t'
  | _ :: t' => classifier_calls t'
  end.

Fixpoint agent_histories (t : list event) : list (list message_content) :=
  match t with
  | [] => []
  | call_kickoff_debug_rag_agent _ _ chat_history _ _ :: t' =>
      chat_history :: agent_histories t'
  | _ :: t' => agent_histories t'
  end.

(** The contents of the human-authored turns of a history. *)
Definition human_authored (history : list BaseMessage) : list BaseMessage :=
  filter is_HumanMessage history.

(** A runner whose collaborators all answer. *)
Definition runner_example : DebugRAGAgent.Self :=
  {| DebugRAGAgent.lookup :=
       fun _ ids => inr (map (fun i => [("node_id", i); ("code", "pass")]) ids);
     DebugRAGAgent.agent_prompt := inr "agent";
     DebugRAGAgent.task_prompt := fun _ => inr "task";
     DebugRAGAgent.crew_stdout := fun _ => PyStr.readlines example_transcript;
     DebugRAGAgent.project_structure := fun _ => inr "src/" |}.

(** The text a chunk of the direct chain carries: its [content] when it has
    one, otherwise the chunk printed. The chain's concatenated output is
    these texts put together. *)
Definition emitted_text (chunk : stream_chunk) : string :=
  match chunk with
  | with_content text => text
  | without_content printed => printed
  end.

(** Modelled from the spec: [AgentsService.format_citations], which is not
    among the sources. The spec has it as "a pure formatting collaborator"
    by which the orchestrator "formats citations", an ordered sequence of
    strings: a function of the citations alone that formats them one by one,
    [format_citation] being the formatting of one citation. *)
Definition format_citations_model (format_citation : string -> string)
    (citations : list string) : list string :=
  map format_citation citations.

(** Services whose citation formatter is the modelled one. *)
Definition with_format_citations (format_citation : string -> string)
    (self : Services) : Services :=
  {| chain := chain self;
     _get_prompts := _get_prompts self;
     session_history := session_history self;
     classifier_prompt := classifier_prompt self;
     classifier := classifier self;
     astream := astream self;
     format_citations := format_citations_model format_citation |}.

(** The concatenation of the textual [message] fields of chunks. *)
Definition concat_messages (chunks : list (list string * message_content)) : string :=
  String.concat ""
    (flat_map (fun c => match snd c with Text s => [s] | Nodes _ => [] end) chunks).

(** Write-then-notify along a trace: [pending] holds the contents appended
    to the buffer and not yet yielded; every yield is a chunk whose message
    is the oldest of them, and at the end nothing is pending. *)
Fixpoint write_then_notify (pending : list message_content) (t : list event)
  : Prop :=
  match t with
  | [] => pending = []
  | add_message_chunk _ c _ :: t' => write_then_notify (pending ++ [c]) t'
  | yield item :: t' =>
      match pending with
      | c :: rest => (exists cits, item = encode cits c) /\ write_then_notify rest t'
      | [] => False
      end
  | _ :: t' => write_then_notify pending t'
  end.

(** ** Example requests *)

(** Services that all answer: the classifier with [c], the direct chain with
    [chunks] and then [failure], the formatter with [fmt]. *)
Definition services_example (c : ClassificationResult)
    (chunks : list stream_chunk) (failure : option exn)
    (fmt : list string -> list string) : Services :=
  {| chain := false;
     _get_prompts :=
       fun _ => inr (Some {| text := "system" |}, Some {| text := "human" |});
     session_history :=
       fun _ _ => inr [message (HumanMessage (Text "h1"));
                       message (AIMessage (Text "a1"));
                       scalar "7"];
     classifier_prompt := fun _ => inr "classify";
     classifier := fun _ _ => inr c;
     astream := fun _ => (chunks, failure);
     format_citations := fmt |}.

Definition example_history : list BaseMessage :=
  [HumanMessage (Text "h1"); AIMessage (Text "a1"); HumanMessage (Text "7")].

Definition rag_structured : Structured (list NodeResponse) :=
  {| citations := ["projects/app/main.py"];
     response := [{| node_name := "main"; docstring := "entry"; code := "pass" |}] |}.

Definition rag_example : CrewOutput (list NodeResponse) :=
  {| pydantic := Some rag_structured; raw := "raw text" |}.

Definition blast_structured : Structured string :=
  {| citations := ["projects/app/main.py"]; response := "two callers" |}.

Definition blast_example : CrewOutput string :=
  {| pydantic := Some blast_structured; raw := "raw text" |}.

Definition two_chunks : list stream_chunk :=
  [with_content "Hel"; without_content "lo"].

(** [s[k:]]. *)
Fixpoint drop (k : nat) (s : string) : string :=
  match k, s with
  | S k', String _ s' => drop k' s'
  | _, _ => s
  end.

(** A formatter that changes what it is given: it drops a leading
    ["projects/"] from every citation. *)
Definition shorten (cits : list string) : list string :=
  map (fun c => if PyStr.startswith c "projects/" then drop 9 c else c) cits.

(* ===================================================================== *)
(** * Vocabulary of the further properties *)
(* ===================================================================== *)

(** A line the transcript loop does not break on. *)
Definition nonempty (line : string) : Prop := PyStr.is_empty line = false.


(** What the loop yields for a line once it is streaming. *)
Definition fragment_of (line : string) : string :=
  if PyStr.endswith line DebugRAGAgent.color_reset_line_end
  then PyStr.slice_to_neg 6 line
  else line.

(** Every character of [s] satisfies [p]. *)
Fixpoint all_chars (p : ascii -> bool) (s : string) : bool :=
  match s with
  | EmptyString => true
  | String c s' => p c && all_chars p s'
  end.

(** The characters [' '..'~']. *)
Definition printable (c : ascii) : bool :=
  Nat.leb 32 (nat_of_ascii c) && Nat.leb (nat_of_ascii c) 126.

(** Calls of an agent's kickoff, of the direct chain and of the prompt
    lookup of [_create_chain] in a trace. *)
Definition is_kickoff_call (ev : event) : bool :=
  match ev with
  | call_kickoff_debug_rag_agent _ _ _ _ _
  | call_kickoff_blast_radius_agent _ _ _ _ => true
  | _ => false
  end.

Definition is_chain_astream (ev : event) : bool :=
  match ev with chain_astream _ => true | _ => false end.

Definition is_get_prompts (ev : event) : bool :=
  match ev with get_prompts _ => true | _ => false end.

(** The seed lookup of the runner: made for a non-empty [node_ids] only,
    as one call, and what [code_results] is after it. *)
Definition seed_events (project_id : string) (node_ids : list NodeContext)
  : list event :=
  match node_ids with
  | [] => []
  | _ :: _ => [run_multiple project_id (map node_id node_ids)]
  end.

Definition seed_lookup (self : DebugRAGAgent.Self) (project_id : string)
    (node_ids : list NodeContext) : outcome (list (list (string * string))) :=
  match node_ids with
  | [] => inr []
  | _ :: _ => DebugRAGAgent.lookup self project_id (map node_id node_ids)
  end.

(** In a trace, the buffer is flushed at most once, and nothing is appended
    to it after the flush. *)
Fixpoint flush_is_last_write (t : list event) : bool :=
  match t with
  | [] => true
  | flush_message_buffer _ :: t' =>
      Nat.eqb (flushes t') 0
      && match appended t' with [] => true | _ :: _ => false end
  | _ :: t' => flush_is_last_write t'
  end.

(** A runner whose seed lookup raises. *)
Definition runner_failing_lookup : DebugRAGAgent.Self :=
  {| DebugRAGAgent.lookup := fun _ _ => inl (Exception "graph unavailable");
     DebugRAGAgent.agent_prompt := inr "agent";
     DebugRAGAgent.task_prompt := fun _ => inr "task";
     DebugRAGAgent.crew_stdout := fun _ => PyStr.readlines example_transcript;
     DebugRAGAgent.project_structure := fun _ => inr "src/" |}.

(** Services whose prompt lookup finds no HUMAN prompt. *)
Definition services_missing_prompt : Services :=
  {| chain := false;
     _get_prompts := fun _ => inr (Some {| text := "system" |}, None);
     session_history := fun _ _ => inr [];
     classifier_prompt := fun _ => inr "classify";
     classifier := fun _ _ => inr NO_AGENT;
     astream := fun _ => (two_chunks, None);
     format_citations := fun l => l |}.

(** An agent result whose structured parse failed. *)
Definition rag_unparsed : CrewOutput (list NodeResponse) :=
  {| pydantic := None; raw := "raw text" |}.

Definition blast_unparsed : CrewOutput string :=
  {| pydantic := None; raw := "raw text" |}.

(* ===================================================================== *)
(** * The agent object from one request to the next *)
(* ===================================================================== *)

Module AgentObject.

(** A key of the cache that [lru_cache(maxsize=2)] puts around
    [_get_prompts]: the arguments [(self, user_id)] of a call, [self] by
    identity. *)
Definition key : Type := (nat * string)%type.

Definition key_eqb (a b : key) : bool :=
  Nat.eqb (fst a) (fst b) && String.eqb (snd a) (snd b).

Definition maxsize : nat := 2.

(** The cache, as its keys with the most recently used first. What it keeps
    for a key is the coroutine object the call returned, and
    [_create_chain] awaits that object at once: when requests follow one
    another, every object in the cache has been awaited. *)
Definition cached (cache : list key) (k : key) : bool :=
  existsb (key_eqb k) cache.

(** The cache after a call with the key [k]: a hit moves [k] to the front;
    a miss stores [k] and, in a full cache, drops the least recently used
    key. *)
Definition call (cache : list key) (k : key) : list key :=
  if cached cache k
  then k :: filter (fun k' => negb (key_eqb k k')) cache
  else k :: firstn (maxsize - 1) cache.

(** What stays from one request to the next: the cache, which belongs to
    the class, and [self.chain]. *)
Record state : Type :=
  { cache : list key;
    chain_built : bool }.

(** What the agent [self_id] meets in a request: [answers] is what its
    collaborators answer now. On a hit the call of [_get_prompts] returns
    the cached coroutine object, and awaiting it a second time raises
    [RuntimeError], here with CPython's message for it; on a miss the body of
    [_get_prompts] runs. *)
Definition services_in (self_id : nat) (st : state) (answers : Services)
  : Services :=
  {| chain := chain_built st;
     _get_prompts := fun user_id =>
       if cached (cache st) (self_id, user_id)
       then inl (Exception "cannot reuse already awaited coroutine")
       else _get_prompts answers user_id;
     session_history := session_history answers;
     classifier_prompt := classifier_prompt answers;
     classifier := classifier answers;
     astream := astream answers;
     format_citations := format_citations answers |}.

(** The state a request of [user_id] leaves:
    [if not self.chain: self.chain = await self._create_chain(user_id)]. *)
Definition after_request (agent : string) (self_id : nat) (st : state)
    (answers : Services) (user_id : string) : state :=
  if chain_built st then st
  else
    {| cache := call (cache st) (self_id, user_id);
       chain_built :=
         match result_of (ChatAgent._create_chain agent
                            (services_in self_id st answers) user_id) with
         | inl _ => false
         | inr _ => true
         end |}.

(** The state after a call of [_get_prompts] with the key [k] that leaves
    [self.chain] as it is: a request on another agent object, or one of
    this agent whose chain creation fails. *)
Definition after_call (st : state) (k : key) : state :=
  {| cache := call (cache st) k; chain_built := chain_built st |}.

End AgentObject.

(** Answers with both prompts found. *)
Definition services_with_prompts : Services :=
  {| chain := false;
     _get_prompts :=
       fun _ => inr (Some {| text := "system" |}, Some {| text := "human" |});
     session_history := fun _ _ => inr [];
     classifier_prompt := fun _ => inr "classify";
     classifier := fun _ _ => inr NO_AGENT;
     astream := fun _ => (two_chunks, None);
     format_citations := fun l => l |}.

(** An agent object before its first request, in a process where
    [_get_prompts] was not called yet: nothing cached, no chain. *)
Definition fresh : AgentObject.state :=
  {| AgentObject.cache := []; AgentObject.chain_built := false |}.

(* ===================================================================== *)
(** * Laws of the generator monad *)
(* ===================================================================== *)

Section GenLaws.

Context {event : Type}.

Lemma trace_bind {A B} (m : Gen event A) (k : A -> Gen event B) :
  trace_of (bind m k)
  = trace_of m ++ match result_of m with
                  | inl _ => []
                  | inr a => trace_of (k a)
                  end.
Proof.
  destruct m as [t [e | a]]; simpl.
  - now rewrite app_nil_r.
  - now destruct (k a).
Qed.

Lemma result_bind {A B} (m : Gen event A) (k : A -> Gen event B) :
  result_of (bind m k)
  = match result_of m with
    | inl e => inl e
    | inr a => result_of (k a)
    end.
Proof.
  destruct m as [t [e | a]]; simpl; [reflexivity|]. now destruct (k a).
Qed.

Lemma trace_try_except (body : Gen event unit) (handler : exn -> Gen event unit) :
  trace_of (try_except body handler)
  = trace_of body ++ match result_of body with
                     | inl e => trace_of (handler e)
                     | inr _ => []
                     end.
Proof.
  destruct body as [t [e | a]]; simpl.
  - now destruct (handler e).
  - now rewrite app_nil_r.
Qed.

Lemma result_try_except (body : Gen event unit) (handler : exn -> Gen event unit) :
  result_of (try_except body handler)
  = match result_of body with
    | inl e => result_of (handler e)
    | inr a => inr a
    end.
Proof.
  destruct body as [t [e | a]]; simpl; [|reflexivity]. now destruct (handler e).
Qed.

Lemma trace_emit (ev : event) : trace_of (emit ev) = [ev].
Proof. reflexivity. Qed.

Lemma result_emit (ev : event) : result_of (emit ev) = inr tt.
Proof. reflexivity. Qed.

Lemma trace_await {A} (r : outcome A) : trace_of (@await event A r) = [].
Proof. reflexivity. Qed.

Lemma result_await {A} (r : outcome A) : result_of (@await event A r) = r.
Proof. reflexivity. Qed.

Lemma trace_ret {A} (a : A) : trace_of (@ret event A a) = [].
Proof. reflexivity. Qed.

Lemma result_ret {A} (a : A) : result_of (@ret event A a) = inr a.
Proof. reflexivity. Qed.

Lemma trace_raise {A} (e : exn) : trace_of (@raise event A e) = [].
Proof. reflexivity. Qed.

Lemma result_raise {A} (e : exn) : result_of (@raise event A e) = inl e.
Proof. reflexivity. Qed.

End GenLaws.

Create Rewrite HintDb gen.
#[local] Hint Rewrite @trace_bind @result_bind @trace_try_except @result_try_except
  @trace_emit @result_emit @trace_await @result_await @trace_ret @result_ret
  @trace_raise @result_raise : gen.

(* ===================================================================== *)
(** * Properties of the transcript stream extractor *)
(* ===================================================================== *)

Section StringFacts.

Import PyStr.

Lemma take_app_length (a b : string) :
  take (String.length a) (a ++ b)%string = a.
Proof.
  induction a as [|c a IH]; simpl.
  - destruct b; reflexivity.
  - now rewrite IH.
Qed.

Lemma length_append (a b : string) :
  String.length (a ++ b)%string = String.length a + String.length b.
Proof. induction a as [|c a IH]; simpl; [reflexivity | now rewrite IH]. Qed.

Lemma slice_to_neg_app (a b : string) :
  slice_to_neg (String.length b) (a ++ b)%string = a.
Proof.
  unfold slice_to_neg. rewrite length_append.
  replace (String.length a + String.length b - String.length b)
    with (String.length a) by lia.
  apply take_app_length.
Qed.

Lemma endswith_app (a b : string) : endswith (a ++ b)%string b = true.
Proof.
  induction a as [|c a IH]; simpl.
  - destruct b; simpl; [reflexivity|].
    now rewrite Ascii.eqb_refl, String.eqb_refl.
  - rewrite IH. apply orb_true_r.
Qed.

Lemma is_empty_app_nonempty (a b : string) :
  is_empty b = false -> is_empty (a ++ b)%string = false.
Proof. destruct a; simpl; auto. Qed.

End StringFacts.

Section Extractor.

Import PyStr DebugRAGAgent.


(** Until the marker has been seen, an unmarked line yields nothing and
    leaves the flag down. *)
Lemma transcript_step_unmarked (line : string) :
  unmarked line ->
  transcript_step false line = None \/ transcript_step false line = Some ([], false).
Proof.
  unfold unmarked, transcript_step. intros ->.
  destruct (is_empty line); auto.
Qed.

Lemma transcript_loop_unmarked_prefix (pre rest : list string) :
  Forall unmarked pre ->
  transcript_loop false (pre ++ rest) = []
  \/ transcript_loop false (pre ++ rest) = transcript_loop false rest.
Proof.
  induction 1 as [|line pre Hline _ IH]; simpl.
  - now right.
  - destruct (transcript_step_unmarked line Hline) as [-> | ->]; simpl; auto.
Qed.

(** While streaming, a line that ends with the colour reset and the line
    end loses exactly those six characters. *)
Lemma transcript_step_strips (body : string) :
  transcript_step true (body ++ color_reset_line_end) = Some ([body], true).
Proof.
  unfold transcript_step.
  rewrite is_empty_app_nonempty by reflexivity.
  rewrite endswith_app.
  change 6 with (String.length color_reset_line_end).
  rewrite slice_to_neg_app.
  now destruct (contains _ _).
Qed.

(** What [run] of the runner yields is what the loop extracts from the
    crew's output, or nothing when a step before the loop raised. *)
Lemma yields_yield_each (fragments : list string) :
  yield_each fragments = (map yield fragments, inr tt).
Proof.
  induction fragments as [|f fs IH]; simpl; [reflexivity|].
  unfold bind, emit; simpl. now rewrite IH.
Qed.

Lemma yields_map_yield (fragments : list string) :
  yields (map yield fragments) = fragments.
Proof. induction fragments; simpl; congruence. Qed.

Lemma lookups_map_yield (fragments : list string) :
  lookups (map yield fragments) = [].
Proof. induction fragments; simpl; congruence. Qed.

Lemma seeded_map_yield (fragments : list string) :
  seeded_code_results (map yield fragments) = [].
Proof. induction fragments; simpl; congruence. Qed.

End Extractor.


(** C3, as stated, fails. The reader delivers the four lines of the
    example with their line ends, and the extractor yields a line as it
    arrives: the first fragment is ["Hello\n"], not ["Hello"]. When the
    text ends right after the colour reset, the last line arrives without a
    line end, the loop's test for the reset followed by the line end fails,
    and the last fragment keeps the escape sequence. Either way the
    fragments are not ["Hello"; "World"]. *)
Lemma C3_transcript_example_counterexample :
  PyStr.readlines example_transcript
    = [("thinking..." ++ String PyStr.LF "")%string;
       ("## Final Answer: " ++ String PyStr.LF "")%string;
       ("Hello" ++ String PyStr.LF "")%string;
       ("World" ++ String PyStr.ESC ("[00m" ++ String PyStr.LF ""))%string]
  /\ DebugRAGAgent.transcript_stream (PyStr.readlines example_transcript)
     <> ["Hello"; "World"]
  /\ PyStr.readlines example_transcript_unterminated
     = [("thinking..." ++ String PyStr.LF "")%string;
        ("## Final Answer: " ++ String PyStr.LF "")%string;
        ("Hello" ++ String PyStr.LF "")%string;
        ("World" ++ String PyStr.ESC "[00m")%string]
  /\ DebugRAGAgent.transcript_stream
       (PyStr.readlines example_transcript_unterminated)
     <> ["Hello"; "World"].
Proof. repeat split; try reflexivity; discriminate. Qed.

(** C3, amended: read line by line from the text of the example, the
    extractor yields exactly ["Hello\n"] and ["World"] when the last line is
    ended by a line end, and ["Hello\n"] and ["World\x1b[00m"] when it is
    not. The marker line is consumed; a line that ends with the colour reset
    and the line end is yielded without these six characters, whatever
    precedes them; every other line is yielded as it arrives, its line end
    included. *)
Theorem C3_transcript_example_amended :
  DebugRAGAgent.transcript_stream (PyStr.readlines example_transcript)
    = [("Hello" ++ String PyStr.LF "")%string; "World"]
  /\ DebugRAGAgent.transcript_stream
       (PyStr.readlines example_transcript_unterminated)
     = [("Hello" ++ String PyStr.LF "")%string;
        ("World" ++ String PyStr.ESC "[00m")%string]
  /\ (forall flag : bool,
        DebugRAGAgent.transcript_step flag
          ("## Final Answer: " ++ String PyStr.LF "")%string
        = Some (if flag then [("## Final Answer: " ++ String PyStr.LF "")%string]
                else [], true))
  /\ (forall body : string,
        DebugRAGAgent.transcript_step true
          (body ++ DebugRAGAgent.color_reset_line_end)%string
        = Some ([body], true))
  /\ (forall line : string,
        PyStr.is_empty line = false ->
        PyStr.endswith line DebugRAGAgent.color_reset_line_end = false ->
        DebugRAGAgent.transcript_step true line = Some ([line], true)).
Proof.
  split; [reflexivity|]. split; [reflexivity|].
  split; [intros []; reflexivity|].
  split; [apply transcript_step_strips|].
  intros line Hne Hplain. unfold DebugRAGAgent.transcript_step.
  rewrite Hne, Hplain. now destruct (PyStr.contains _ line).
Qed.

(** C7: when no line of the transcript holds the marker, the extractor
    yields nothing, however many lines there are; and whatever follows a
    marker-free prefix, nothing is yielded on account of that prefix: the
    fragments are those of the rest alone (or none, when the loop broke off). *)
Theorem C7_no_marker_no_fragment (lines : list string)
    (Hunmarked : Forall unmarked lines) :
  DebugRAGAgent.transcript_stream lines = []
  /\ forall rest : list string,
       DebugRAGAgent.transcript_stream (lines ++ rest) = []
       \/ DebugRAGAgent.transcript_stream (lines ++ rest)
          = DebugRAGAgent.transcript_stream rest.
Proof.
  unfold DebugRAGAgent.transcript_stream. split.
  - destruct (transcript_loop_unmarked_prefix lines [] Hunmarked) as [H | H];
      rewrite app_nil_r in H; exact H.
  - intros rest. now apply transcript_loop_unmarked_prefix.
Qed.

Lemma C7_no_marker_no_fragment_witness :
  DebugRAGAgent.transcript_stream
    ["thinking..."; "Action: search"; "Hello"; "## Final answer (lower case)"] = []
  /\ forall rest : list string,
       DebugRAGAgent.transcript_stream
         (["thinking..."; "Action: search"; "Hello"; "## Final answer (lower case)"] ++ rest) = []
       \/ DebugRAGAgent.transcript_stream
            (["thinking..."; "Action: search"; "Hello"; "## Final answer (lower case)"] ++ rest)
          = DebugRAGAgent.transcript_stream rest.
Proof.
  apply (C7_no_marker_no_fragment
           ["thinking..."; "Action: search"; "Hello"; "## Final answer (lower case)"]).
  repeat constructor.
Defined.

(* ===================================================================== *)
(** * Properties of the runner's seed lookup *)
(* ===================================================================== *)

Section Runner.

Import DebugRAGAgent.

Lemma lookups_app (t u : list event) : lookups (t ++ u) = lookups t ++ lookups u.
Proof.
  induction t as [|ev t IH]; simpl; [reflexivity|].
  destruct ev; simpl; rewrite IH; reflexivity.
Qed.

Lemma seeded_app (t u : list event) :
  seeded_code_results (t ++ u) = seeded_code_results t ++ seeded_code_results u.
Proof.
  induction t as [|ev t IH]; simpl; [reflexivity|].
  destruct ev; simpl; rewrite IH; reflexivity.
Qed.

(** After the seed lookup, [run] looks nothing up, and it hands the task
    prompt the [code_results] it holds. *)
Lemma run_after_lookup (self : Self) (query project_id : string)
    (chat_history : list message_content) (node_ids : list NodeContext)
    (file_structure : string) (code_results : list (list (string * string))) :
  let rest :=
    bind (create_agents self) (fun debug_agent =>
    bind (create_tasks self query project_id chat_history node_ids
            file_structure code_results debug_agent) (fun debug_task =>
    bind (emit create_kickoff_task) (fun _ =>
    yield_each (transcript_stream (crew_stdout self debug_task))))) in
  lookups (trace_of rest) = []
  /\ Forall (eq code_results) (seeded_code_results (trace_of rest)).
Proof.
  intros rest. subst rest. unfold create_agents, create_tasks.
  autorewrite with gen.
  destruct (agent_prompt self) as [e | agent]; simpl; [auto|].
  autorewrite with gen.
  destruct (task_prompt self _) as [e | task]; simpl; [auto|].
  autorewrite with gen. rewrite yields_yield_each. simpl.
  rewrite lookups_map_yield, seeded_map_yield. auto.
Qed.

(** Driven to its end, [kickoff_debug_rag_agent] is [run] on the project's
    file structure. *)
Lemma kickoff_debug_rag_agent_unfold (self : Self) (query project_id : string)
    (chat_history : list message_content) (node_ids : list NodeContext) :
  kickoff_debug_rag_agent self query project_id chat_history node_ids
  = match project_structure self project_id with
    | inl e => ([], inl e)
    | inr file_structure =>
        run self query project_id chat_history node_ids file_structure
    end.
Proof.
  unfold kickoff_debug_rag_agent, bind, await.
  destruct (project_structure self project_id) as [e | fs]; [reflexivity|].
  destruct (run self query project_id chat_history node_ids fs) as [t r].
  reflexivity.
Qed.

End Runner.

(** C9: for a non-empty [node_ids] the runner makes exactly one batched
    lookup, with the list of all [node_id]s in order (and the project id);
    for an empty [node_ids] it makes no lookup and every task prompt it
    builds gets the empty [code_results]. *)
Theorem C9_single_batched_lookup (self : DebugRAGAgent.Self)
    (query project_id : string) (chat_history : list message_content)
    (node_ids : list NodeContext) (file_structure : string) :
  let t := trace_of (DebugRAGAgent.run self query project_id chat_history
                       node_ids file_structure) in
  (node_ids <> [] ->
     DebugRAGAgent.lookups t = [(project_id, map node_id node_ids)])
  /\ (node_ids = [] ->
        DebugRAGAgent.lookups t = []
        /\ Forall (eq []) (DebugRAGAgent.seeded_code_results t)).
Proof.
  intros t. subst t. unfold DebugRAGAgent.run. rewrite trace_bind. split.
  - intros Hne. destruct node_ids as [|n ns]; [congruence|].
    cbn [List.length Nat.ltb Nat.leb].
    rewrite trace_bind, result_bind, trace_emit, result_emit, trace_await, result_await.
    destruct (DebugRAGAgent.lookup self project_id _) as [e | code_results];
      [reflexivity|].
    destruct (run_after_lookup self query project_id chat_history (n :: ns)
                file_structure code_results) as [Hl _].
    rewrite lookups_app, Hl. reflexivity.
  - intros ->. cbn [List.length Nat.ltb Nat.leb].
    rewrite trace_ret, result_ret. cbn [app].
    apply run_after_lookup.
Qed.

Lemma C9_single_batched_lookup_witness :
  DebugRAGAgent.lookups
    (trace_of (DebugRAGAgent.run runner_example "q" "p" []
                 [{| node_id := "a" |}; {| node_id := "b" |}] "src/"))
  = [("p", ["a"; "b"])]
  /\ DebugRAGAgent.lookups
       (trace_of (DebugRAGAgent.run runner_example "q" "p" [] [] "src/")) = []
  /\ Forall (eq [])
       (DebugRAGAgent.seeded_code_results
          (trace_of (DebugRAGAgent.run runner_example "q" "p" [] [] "src/"))).
Proof.
  split.
  - apply (C9_single_batched_lookup runner_example "q" "p" []
             [{| node_id := "a" |}; {| node_id := "b" |}] "src/").
    discriminate.
  - apply (C9_single_batched_lookup runner_example "q" "p" [] [] "src/").
    reflexivity.
Defined.

(* ===================================================================== *)
(** * Properties of the classifier's window *)
(* ===================================================================== *)

Section Window.

Import ChatAgent.

Lemma last_n_length {A} (n : nat) (l : list A) :
  List.length (last_n n l) = Nat.min n (List.length l).
Proof. unfold last_n. rewrite length_skipn. lia. Qed.

Lemma last_n_app {A} (older recent : list A) :
  last_n (List.length recent) (older ++ recent) = recent.
Proof.
  unfold last_n. rewrite length_app.
  replace (List.length older + List.length recent - List.length recent)
    with (List.length older + 0) by lia.
  rewrite skipn_app, Nat.add_0_r, skipn_all.
  replace (List.length older - List.length older) with 0 by lia.
  reflexivity.
Qed.

Lemma filter_human_map (cs : list message_content) :
  human_authored (map HumanMessage cs) = map HumanMessage cs.
Proof. induction cs as [|c cs IH]; simpl; [reflexivity | now rewrite IH]. Qed.

End Window.

(** C8: [_classify_query] is declared on a list of [HumanMessage] and cuts
    the last five of it, and on such a history its inputs are what the claim
    says: the query and the contents of the five most recent turns, all of
    them when there are fewer, the older ones dropped. But [run] of either
    agent hands it the whole normalised history of the session: with the
    session [h1 (human), a1 (AI), 7] the classifier is invoked with the
    content of the AI turn, although [run] of the debugging agent, in the same
    request, filters the human-authored turns for the RAG agent. *)
Theorem C8_classifier_given_ai_turns :
  (let self := services_example AGENT_REQUIRED two_chunks None shorten in
   let t := trace_of (DebuggingChatAgent.run
                        DebuggingChatAgent.await_async_generator self
                        "why does it crash" "proj" "user" "conv" []
                        "log" "trace") in
   session_history self "user" "conv"
   = inr [message (HumanMessage (Text "h1")); message (AIMessage (Text "a1"));
          scalar "7"]
   /\ classifier_calls t
      = [{| ci_query := "why does it crash";
            ci_history := [Text "h1"; Text "a1"; Text "7"] |}]
   /\ agent_histories t = [[Text "h1"; Text "7"]])
  /\ (let self := services_example NO_AGENT two_chunks None shorten in
      let t := trace_of (CodeChangesChatAgent.run
                           (fun _ _ _ _ => inr blast_example) self
                           "what changes" "proj" "user" "conv" []) in
      classifier_calls t
      = [{| ci_query := "what changes";
            ci_history := [Text "h1"; Text "a1"; Text "7"] |}])
  /\ (forall (query : string) (cs : list message_content),
        ChatAgent.classifier_inputs query (map HumanMessage cs)
        = {| ci_query := query; ci_history := ChatAgent.last_n 5 cs |}
        /\ List.length (ChatAgent.last_n 5 cs) = Nat.min 5 (List.length cs))
  /\ (forall (query : string) (older : list message_content)
             (c1 c2 c3 c4 c5 : message_content),
        ChatAgent.classifier_inputs query
          (map HumanMessage (older ++ [c1; c2; c3; c4; c5]))
        = {| ci_query := query; ci_history := [c1; c2; c3; c4; c5] |}).
Proof.
  split; [|split; [|split]].
  - cbv zeta. repeat split; vm_compute; reflexivity.
  - vm_compute. reflexivity.
  - intros query cs. unfold ChatAgent.classifier_inputs, ChatAgent.last_n.
    rewrite length_map, skipn_map, map_map. cbn [content].
    rewrite map_id. split; [reflexivity|].
    apply (last_n_length 5 cs).
  - intros query older c1 c2 c3 c4 c5.
    unfold ChatAgent.classifier_inputs. f_equal.
    rewrite map_app.
    pose proof (last_n_app (map HumanMessage older)
                  (map HumanMessage [c1; c2; c3; c4; c5])) as H.
    cbn [List.length map] in H. cbn [map]. now rewrite H.
Qed.

(* ===================================================================== *)
(** * Traces of the two orchestrators *)
(* ===================================================================== *)

Section Traces.

Import ChatAgent.

Lemma yields_app (t u : list event) : yields (t ++ u) = yields t ++ yields u.
Proof.
  induction t as [|ev t IH]; simpl; [reflexivity|].
  destruct ev; simpl; rewrite IH; reflexivity.
Qed.

Lemma appended_app (t u : list event) : appended (t ++ u) = appended t ++ appended u.
Proof.
  induction t as [|ev t IH]; simpl; [reflexivity|].
  destruct ev; simpl; rewrite IH; reflexivity.
Qed.

Lemma flushes_app (t u : list event) : flushes (t ++ u) = flushes t + flushes u.
Proof.
  induction t as [|ev t IH]; simpl; [reflexivity|].
  destruct ev; simpl; rewrite IH; reflexivity.
Qed.

Lemma format_calls_app (t u : list event) :
  format_calls (t ++ u) = format_calls t ++ format_calls u.
Proof.
  induction t as [|ev t IH]; simpl; [reflexivity|].
  destruct ev; simpl; rewrite IH; reflexivity.
Qed.

(** Up to the classification the agent only fetches prompts and history and
    invokes the classifier. *)
Lemma classify_request_prelude (agent : string) (self : Services)
    (query user_id conversation_id : string) :
  Forall (fun ev => is_prelude ev = true)
    (trace_of (classify_request agent self query user_id conversation_id)).
Proof.
  unfold classify_request, _create_chain, _classify_query.
  destruct (chain self); cbn zeta; autorewrite with gen; cbn [app].
  - destruct (session_history self user_id conversation_id) as [e | h];
      autorewrite with gen; cbn [app]; [repeat constructor|].
    destruct (classifier_prompt self user_id) as [e | prompt];
      autorewrite with gen; cbn [app]; [repeat constructor|].
    destruct (classifier self _ _) as [e | c]; autorewrite with gen;
      repeat constructor.
  - destruct (_get_prompts self user_id) as [e | [[s|] [h|]]];
      autorewrite with gen; cbn [app]; try (repeat constructor; fail).
    destruct (session_history self user_id conversation_id) as [e | hist];
      autorewrite with gen; cbn [app]; [repeat constructor|].
    destruct (classifier_prompt self user_id) as [e | prompt];
      autorewrite with gen; cbn [app]; [repeat constructor|].
    destruct (classifier self _ _) as [e | c]; autorewrite with gen;
      repeat constructor.
Qed.

Lemma prelude_quiet (t : list event) :
  Forall (fun ev => is_prelude ev = true) t ->
  yields t = [] /\ appended t = [] /\ flushes t = 0
  /\ DebugRAGAgent.lookups t = [] /\ format_calls t = [].
Proof.
  induction 1 as [|ev t Hev _ IH]; [repeat split|].
  destruct ev; try discriminate Hev; exact IH.
Qed.

(** So up to the classification nothing is yielded, appended or flushed. *)
Lemma classify_request_quiet (agent : string) (self : Services)
    (query user_id conversation_id : string) :
  let t := trace_of (classify_request agent self query user_id conversation_id) in
  yields t = [] /\ appended t = [] /\ flushes t = 0.
Proof.
  intros t.
  destruct (prelude_quiet t (classify_request_prelude _ _ _ _ _))
    as (Hy & Ha & Hf & _).
  auto.
Qed.

(** Nor is anything looked up in the code graph, or formatted. *)
Lemma classify_request_no_lookup (agent : string) (self : Services)
    (query user_id conversation_id : string) :
  DebugRAGAgent.lookups
    (trace_of (classify_request agent self query user_id conversation_id)) = [].
Proof. apply prelude_quiet, classify_request_prelude. Qed.

Lemma classify_request_no_format (agent : string) (self : Services)
    (query user_id conversation_id : string) :
  format_calls
    (trace_of (classify_request agent self query user_id conversation_id)) = [].
Proof. apply prelude_quiet, classify_request_prelude. Qed.

End Traces.

(* ===================================================================== *)
(** * Reading back what json.dumps wrote *)
(* ===================================================================== *)

Section JsonRoundTrip.

Import Json.

Lemma string_app_assoc (a b c : string) :
  ((a ++ b) ++ c)%string = (a ++ (b ++ c))%string.
Proof. induction a as [|x a IH]; simpl; [reflexivity | now rewrite IH]. Qed.

Lemma string_app_nil_r (a : string) : (a ++ "")%string = a.
Proof. induction a as [|x a IH]; simpl; [reflexivity | now rewrite IH]. Qed.

(** One escaped character reads back as the character it stands for. *)
Lemma read_string_escape_char (c : ascii) (tail : string) :
  read_string (escape_char c ++ tail) = cons_string c (read_string tail).
Proof.
  destruct c as [[] [] [] [] [] [] [] []]; reflexivity.
Qed.

Lemma read_string_escape (s rest : string) :
  read_string (escape s ++ String DQUOTE rest) = Some (s, rest).
Proof.
  induction s as [|c s IH]; [reflexivity|].
  cbn [escape]. rewrite string_app_assoc, read_string_escape_char, IH.
  reflexivity.
Qed.

Lemma quote_app (s rest : string) :
  (quote s ++ rest)%string = String DQUOTE (escape s ++ String DQUOTE rest).
Proof. unfold quote. cbn [append]. now rewrite string_app_assoc. Qed.

Lemma dumps_opens (v : value) (rest : string) : opens_value (dumps v ++ rest).
Proof.
  destruct v as [s | items | fields]; cbn [dumps]; unfold quote;
    cbn [append]; eexists _, _; split; try reflexivity; auto.
Qed.

Lemma read_value_space (fuel : nat) (s : string) :
  read_value fuel (String " " s) = read_value fuel s.
Proof. destruct fuel; reflexivity. Qed.

Lemma join_cons2 (x y : string) (l : list string) :
  join (x :: y :: l) = (x ++ ", " ++ join (y :: l))%string.
Proof. reflexivity. Qed.

Section Items.

Variable read : string -> option (value * string).
Hypothesis read_space : forall s, read (String " " s) = read s.

Lemma read_items_space (n : nat) (s : string) :
  read_items read n (String " " s) = read_items read n s.
Proof. destruct n; cbn [read_items]; [reflexivity | now rewrite read_space]. Qed.

Lemma read_items_last (n : nat) (x : value) (s rest : string) :
  read s = Some (x, String "]" rest) ->
  read_items read (S n) s = Some ([x], rest).
Proof. intros H. cbn [read_items]. rewrite H. reflexivity. Qed.

Lemma read_items_more (n : nat) (x : value) (s rest : string) :
  read s = Some (x, String "," rest) ->
  read_items read (S n) s
  = match read_items read n rest with
    | Some (vs, rest2) => Some (x :: vs, rest2)
    | None => None
    end.
Proof. intros H. cbn [read_items]. rewrite H. reflexivity. Qed.

Lemma read_items_join (items : list value) :
  items <> [] ->
  Forall (fun x => forall r, read (dumps x ++ r) = Some (x, r)) items ->
  forall n rest, List.length items <= n ->
    read_items read n (join (map dumps items) ++ String "]" rest)
    = Some (items, rest).
Proof.
  induction items as [|x items IH]; [congruence|].
  intros _ Hall n rest Hn. inversion Hall as [|? ? Hx Hrest]; subst.
  destruct n as [|n]; [simpl in Hn; lia|].
  destruct items as [|y items].
  - cbn [map join]. apply read_items_last, Hx.
  - cbn [map]. rewrite join_cons2, !string_app_assoc. cbn [append].
    rewrite (read_items_more n x _ _ (Hx _)), read_items_space.
    change (dumps y :: map dumps items) with (map dumps (y :: items)).
    rewrite IH; [reflexivity | discriminate | assumption | simpl in *; lia].
Qed.

Lemma read_members_space (n : nat) (s : string) :
  read_members read n (String " " s) = read_members read n s.
Proof. destruct n; reflexivity. Qed.

(** One member, then what follows it. *)
Lemma read_members_member (n : nat) (k : string) (x : value) (tail : string) :
  (forall r, read (dumps x ++ r) = Some (x, r)) ->
  read_members read (S n) (member_text (k, x) ++ tail)
  = match skip_ws tail with
    | String d rest4 =>
        if Ascii.eqb d "}" then Some ([(k, x)], rest4)
        else if Ascii.eqb d "," then
          match read_members read n rest4 with
          | Some (kvs, rest5) => Some ((k, x) :: kvs, rest5)
          | None => None
          end
        else None
    | EmptyString => None
    end.
Proof.
  intros Hx. unfold member_text.
  rewrite string_app_assoc, quote_app.
  cbn [read_members].
  change (skip_ws (String DQUOTE ?s)) with (String DQUOTE s).
  change (Ascii.eqb DQUOTE DQUOTE) with true. cbv iota.
  rewrite read_string_escape.
  rewrite string_app_assoc. cbn [append].
  change (skip_ws (String ":" ?s)) with (String ":" s).
  change (Ascii.eqb ":" ":") with true. cbv iota.
  rewrite read_space, Hx. reflexivity.
Qed.

Lemma read_members_join (fields : list (string * value)) :
  fields <> [] ->
  Forall (fun kv => forall r, read (dumps (snd kv) ++ r) = Some (snd kv, r)) fields ->
  forall n rest, List.length fields <= n ->
    read_members read n (join (map member_text fields) ++ String "}" rest)
    = Some (fields, rest).
Proof.
  induction fields as [|[k x] fields IH]; [congruence|].
  intros _ Hall n rest Hn. inversion Hall as [|? ? Hx Hrest]; subst.
  cbn [snd] in Hx.
  destruct n as [|n]; [simpl in Hn; lia|].
  destruct fields as [|kv fields].
  - cbn [map join]. rewrite (read_members_member n k x _ Hx). reflexivity.
  - cbn [map]. rewrite join_cons2, !string_app_assoc.
    rewrite (read_members_member n k x _ Hx). cbn [append].
    change (skip_ws (String "," ?s)) with (String "," s).
    change (Ascii.eqb "," "}") with false.
    change (Ascii.eqb "," ",") with true. cbv iota.
    rewrite read_members_space.
    change (member_text kv :: map member_text fields)
      with (map member_text (kv :: fields)).
    rewrite IH; [reflexivity | discriminate | assumption | simpl in *; lia].
Qed.

End Items.

Lemma dumps_Arr (items : list value) :
  dumps (Arr items) = String "[" (join (map dumps items) ++ "]").
Proof. reflexivity. Qed.

Lemma dumps_Obj (fields : list (string * value)) :
  dumps (Obj fields) = String "{" (join (map member_text fields) ++ "}").
Proof. reflexivity. Qed.

Lemma size_pos (v : value) : 1 <= size v.
Proof. destruct v; simpl; lia. Qed.

Lemma list_sum_In (x : nat) (l : list nat) : In x l -> x <= list_sum l.
Proof.
  induction l as [|y l IH]; simpl; [tauto|].
  intros [-> | H]; [lia | specialize (IH H); lia].
Qed.

Lemma length_le_list_sum {A} (f : A -> nat) (l : list A) :
  (forall x, 1 <= f x) -> List.length l <= list_sum (map f l).
Proof.
  intros Hf. induction l as [|x l IH]; simpl; [lia|].
  specialize (Hf x). lia.
Qed.

(** The head of a non-empty joined text is the head of its first part. *)
Lemma join_cons_app (x : string) (l : list string) (tail : string) :
  exists t, (join (x :: l) ++ tail)%string = (x ++ t)%string.
Proof.
  destruct l as [|y l].
  - now exists tail.
  - rewrite join_cons2, string_app_assoc. now eexists.
Qed.

Lemma skip_ws_opens (s : string) :
  opens_value s ->
  exists c t, skip_ws s = String c t
              /\ Ascii.eqb c "]" = false /\ Ascii.eqb c "}" = false.
Proof.
  intros (c & t & -> & [-> | [-> | ->]]); eexists _, _;
    (split; [reflexivity | split; reflexivity]).
Qed.

(** With fuel for every value in it, the text of a value reads back as the
    value, whatever follows. *)
Lemma read_value_dumps (fuel : nat) :
  forall (v : value) (rest : string),
    size v <= fuel -> read_value fuel (dumps v ++ rest) = Some (v, rest).
Proof.
  induction fuel as [|fuel IH]; intros v rest Hsize.
  - pose proof (size_pos v). lia.
  - destruct v as [s | items | fields].
    + cbn [dumps]. rewrite quote_app. cbn [read_value].
      change (skip_ws (String DQUOTE ?t)) with (String DQUOTE t).
      change (Ascii.eqb DQUOTE DQUOTE) with true. cbv iota.
      now rewrite read_string_escape.
    + rewrite dumps_Arr. cbn [append]. rewrite string_app_assoc.
      cbn [append read_value].
      change (skip_ws (String "[" ?t)) with (String "[" t).
      change (Ascii.eqb "[" DQUOTE) with false.
      change (Ascii.eqb "[" "[") with true. cbv iota.
      destruct items as [|x items]; [reflexivity|].
      cbn [size] in Hsize.
      destruct (join_cons_app (dumps x) (map dumps items) (String "]" rest))
        as [t Ht].
      change (dumps x :: map dumps items) with (map dumps (x :: items)) in Ht.
      destruct (skip_ws_opens _ (dumps_opens x t)) as (c & t' & Hc & Hsq & _).
      rewrite Ht, Hc, Hsq, <- Ht.
      rewrite read_items_join; [reflexivity | | discriminate | |].
      * intros s. apply read_value_space.
      * apply Forall_forall. intros y Hy r. apply IH.
        assert (size y <= list_sum (map size (x :: items)))
          by (apply list_sum_In, in_map, Hy). lia.
      * pose proof (length_le_list_sum size (x :: items) size_pos). lia.
    + rewrite dumps_Obj. cbn [append]. rewrite string_app_assoc.
      cbn [append read_value].
      change (skip_ws (String "{" ?t)) with (String "{" t).
      change (Ascii.eqb "{" DQUOTE) with false.
      change (Ascii.eqb "{" "[") with false.
      change (Ascii.eqb "{" "{") with true. cbv iota.
      destruct fields as [|[k x] fields]; [reflexivity|].
      cbn [size] in Hsize.
      destruct (join_cons_app (member_text (k, x)) (map member_text fields)
                  (String "}" rest)) as [t Ht].
      change (member_text (k, x) :: map member_text fields)
        with (map member_text ((k, x) :: fields)) in Ht.
      assert (Hq : exists t', skip_ws (join (map member_text ((k, x) :: fields))
                                         ++ String "}" rest)
                              = String DQUOTE t').
      { rewrite Ht. unfold member_text. rewrite string_app_assoc, quote_app.
        now eexists. }
      destruct Hq as [t' Hq]. rewrite Hq.
      change (Ascii.eqb DQUOTE "}") with false. cbv iota.
      rewrite read_members_join; [reflexivity | | discriminate | |].
      * intros s. apply read_value_space.
      * apply Forall_forall. intros [k' y] Hy r. cbn [snd]. apply IH.
        assert (size y <= list_sum (map (fun kv : string * value =>
                                           let (_, v) := kv in size v)
                                      ((k, x) :: fields))).
        { apply list_sum_In.
          change (size y) with ((fun kv : string * value =>
                                   let (_, v) := kv in size v) (k', y)).
          apply in_map, Hy. }
        lia.
      * pose proof (length_le_list_sum
                      (fun kv : string * value => let (_, v) := kv in size v)
                      ((k, x) :: fields)) as Hl.
        assert (forall kv : string * value, 1 <= (let (_, v) := kv in size v))
          by (intros [? ?]; apply size_pos).
        specialize (Hl H). lia.
Qed.

Lemma length_join (parts : list string) :
  list_sum (map String.length parts) <= String.length (join parts).
Proof.
  induction parts as [|x parts IH]; [simpl; lia|].
  destruct parts as [|y parts].
  - simpl. lia.
  - rewrite join_cons2, !length_append.
    change (list_sum (map String.length (x :: y :: parts)))
      with (String.length x + list_sum (map String.length (y :: parts))).
    lia.
Qed.

Lemma list_sum_map_le {A} (f g : A -> nat) (l : list A) :
  (forall x, In x l -> f x <= g x) ->
  list_sum (map f l) <= list_sum (map g l).
Proof.
  induction l as [|x l IH]; intros H; simpl; [lia|].
  pose proof (H x (or_introl eq_refl)).
  assert (list_sum (map f l) <= list_sum (map g l))
    by (apply IH; intros; apply H; now right).
  lia.
Qed.

(** A value's text has at least as many characters as the value has values. *)
Lemma size_le_length (n : nat) :
  forall v : value, size v <= n -> size v <= String.length (dumps v).
Proof.
  induction n as [|n IH]; intros v Hn.
  - pose proof (size_pos v). lia.
  - destruct v as [s | items | fields].
    + cbn [dumps size]. unfold quote. cbn [String.length]. lia.
    + rewrite dumps_Arr. cbn [size String.length] in *.
      rewrite length_append.
      pose proof (length_join (map dumps items)) as Hj.
      rewrite map_map in Hj.
      assert (list_sum (map size items)
              <= list_sum (map (fun x => String.length (dumps x)) items)).
      { apply list_sum_map_le. intros x Hx. apply IH.
        pose proof (list_sum_In (size x) (map size items) (in_map size _ _ Hx)).
        lia. }
      lia.
    + rewrite dumps_Obj. cbn [size String.length] in *.
      rewrite length_append.
      pose proof (length_join (map member_text fields)) as Hj.
      rewrite map_map in Hj.
      assert (list_sum (map (fun kv : string * value =>
                               let (_, v) := kv in size v) fields)
              <= list_sum (map (fun kv => String.length (member_text kv)) fields)).
      { apply list_sum_map_le. intros [k x] Hx.
        unfold member_text. rewrite !length_append.
        assert (size x <= String.length (dumps x)).
        { apply IH.
          pose proof (list_sum_In _ _
                        (in_map (fun kv : string * value =>
                                   let (_, v) := kv in size v) _ _ Hx)) as Hs.
          cbn beta iota in Hs. lia. }
        lia. }
      lia.
Qed.

(** [json.loads(json.dumps(v)) == v]. *)
Lemma loads_dumps (v : value) : loads (dumps v) = Some v.
Proof.
  unfold loads.
  rewrite <- (string_app_nil_r (dumps v)) at 2.
  rewrite read_value_dumps; [reflexivity|].
  apply (size_le_length (size v)). lia.
Qed.

End JsonRoundTrip.

(* ===================================================================== *)
(** * Items and chunks *)
(* ===================================================================== *)

Section ItemFacts.

Lemma as_strings_Str (cits : list string) :
  as_strings (map Json.Str cits) = Some cits.
Proof. induction cits as [|c cits IH]; simpl; [reflexivity | now rewrite IH]. Qed.

Lemma as_nodes_model_dump (l : list NodeResponse) :
  as_nodes (map model_dump l) = Some l.
Proof.
  induction l as [|[n d c] l IH]; [reflexivity|].
  cbn [map as_nodes]. rewrite IH. reflexivity.
Qed.

Lemma as_content_json (msg : message_content) :
  as_content (content_json msg) = Some msg.
Proof.
  destruct msg as [s | l]; cbn [content_json as_content]; [reflexivity|].
  now rewrite as_nodes_model_dump.
Qed.

(** A chunk reads back with the citations and the message it was made of. *)
Lemma decode_encode (cits : list string) (msg : message_content) :
  decode (encode cits msg) = Some (cits, msg).
Proof.
  unfold decode, encode. rewrite loads_dumps.
  unfold chunk_json, as_chunk. cbn [String.eqb Ascii.eqb Bool.eqb andb].
  change (String.eqb "citations" "citations") with true.
  change (String.eqb "message" "message") with true. cbn [andb].
  now rewrite as_strings_Str, as_content_json.
Qed.

(** The error item is no JSON text at all. *)
Lemma loads_error_item (e : exn) : Json.loads (error_item e) = None.
Proof. reflexivity. Qed.

Lemma decode_error_item (e : exn) : decode (error_item e) = None.
Proof. unfold decode. now rewrite loads_error_item. Qed.

Lemma encode_injective (c1 c2 : list string) (m1 m2 : message_content) :
  encode c1 m1 = encode c2 m2 -> c1 = c2 /\ m1 = m2.
Proof.
  intros H. apply (f_equal decode) in H. rewrite !decode_encode in H.
  now inversion H.
Qed.

Lemma encode_not_error (cits : list string) (msg : message_content) (e : exn) :
  encode cits msg <> error_item e.
Proof.
  intros H. apply (f_equal decode) in H.
  rewrite decode_encode, decode_error_item in H. discriminate.
Qed.

Lemma chunks_of_app (a b : list string) :
  chunks_of (a ++ b) = chunks_of a ++ chunks_of b.
Proof.
  induction a as [|x a IH]; [reflexivity|].
  cbn [app chunks_of]. destruct (decode x); now rewrite IH.
Qed.

End ItemFacts.

(* ===================================================================== *)
(** * What the debugging agent does, case by case *)
(* ===================================================================== *)

Section Debugging.

Import ChatAgent DebuggingChatAgent.

Variable kickoff : Kickoff.
Variable self : Services.
Variables query project_id user_id conversation_id : string.
Variable node_ids : list NodeContext.
Variables logs stacktrace : string.

Let pre := classify_request "DEBUGGING_AGENT" self query user_id conversation_id.
Let the_run :=
  run kickoff self query project_id user_id conversation_id node_ids logs stacktrace.

Lemma debugging_stream_loop (cits : list string) (chunks : list stream_chunk) :
  stream_loop conversation_id cits chunks
  = (streamed conversation_id (Some cits) cits chunks, inr tt).
Proof.
  induction chunks as [|ch chunks IH]; [reflexivity|].
  cbn [stream_loop]. unfold bind at 1 2, emit. rewrite IH. reflexivity.
Qed.

(** [run] never raises. *)
Lemma debugging_run_returns : result_of the_run = inr tt.
Proof.
  subst the_run. unfold run. rewrite result_try_except.
  destruct (result_of (run_body _ _ _ _ _ _ _ _ _)) as [e | u];
    [reflexivity | now destruct u].
Qed.

(** An exception before the classification is in. *)
Lemma debugging_run_early (e : exn) :
  result_of pre = inl e ->
  trace_of the_run = trace_of pre ++ [yield (error_item e)].
Proof.
  intros H. subst the_run pre. unfold run, run_body.
  rewrite trace_try_except, trace_bind, result_bind, H. cbn [app].
  now rewrite app_nil_r.
Qed.

(** AGENT_REQUIRED, and the awaited kickoff raises. *)
Lemma debugging_run_agent_raises (vh : list BaseMessage) (e : exn) :
  classified "DEBUGGING_AGENT" self query user_id conversation_id vh AGENT_REQUIRED ->
  kickoff query project_id (map content (human_authored vh)) node_ids user_id
    = inl e ->
  trace_of the_run
  = trace_of pre
    ++ [call_kickoff_debug_rag_agent query project_id
          (map content (human_authored vh)) node_ids user_id;
        yield (error_item e)].
Proof.
  unfold classified, human_authored. intros H Hk.
  subst the_run pre. unfold run, run_body.
  rewrite trace_try_except, trace_bind, result_bind, H.
  cbn [ClassificationResult_eqb negb].
  autorewrite with gen. rewrite Hk. cbn [app]. autorewrite with gen.
  rewrite <- app_assoc. reflexivity.
Qed.

(** AGENT_REQUIRED, and the awaited kickoff returns a result. *)
Lemma debugging_run_agent_returns (vh : list BaseMessage)
    (out : CrewOutput (list NodeResponse)) :
  classified "DEBUGGING_AGENT" self query user_id conversation_id vh AGENT_REQUIRED ->
  kickoff query project_id (map content (human_authored vh)) node_ids user_id
    = inr out ->
  trace_of the_run
  = trace_of pre
    ++ [call_kickoff_debug_rag_agent query project_id
          (map content (human_authored vh)) node_ids user_id;
        add_message_chunk conversation_id (fst (debugging_result out))
          (Some (snd (debugging_result out)));
        flush_message_buffer conversation_id;
        yield (encode (snd (debugging_result out)) (fst (debugging_result out)))].
Proof.
  unfold classified, human_authored, debugging_result. intros H Hk.
  subst the_run pre. unfold run, run_body.
  rewrite trace_try_except, trace_bind, result_bind, H.
  cbn [ClassificationResult_eqb negb].
  autorewrite with gen. rewrite Hk. cbn [app].
  destruct (pydantic out) as [p|]; autorewrite with gen; cbn [app fst snd];
    rewrite app_nil_r; reflexivity.
Qed.

(** NO_AGENT: the direct chain is streamed. *)
Lemma debugging_run_direct (vh : list BaseMessage) :
  classified "DEBUGGING_AGENT" self query user_id conversation_id vh NO_AGENT ->
  let inputs := debugging_inputs vh query project_id logs stacktrace in
  let cits := format_citations self [] in
  trace_of the_run
  = (trace_of pre ++ [call_format_citations []; chain_astream inputs])
    ++ streamed conversation_id (Some cits) cits (fst (astream self inputs))
    ++ stream_end conversation_id (snd (astream self inputs)).
Proof.
  unfold classified. intros H. cbv zeta. unfold debugging_inputs.
  subst the_run pre. unfold run, run_body.
  rewrite trace_try_except, trace_bind, result_bind, H.
  cbn [ClassificationResult_eqb negb].
  autorewrite with gen. cbn [app].
  rewrite debugging_stream_loop.
  cbn [trace_of result_of fst snd].
  destruct (snd (astream self _)) as [e|]; autorewrite with gen;
    cbn [app stream_end]; rewrite <- ?app_assoc; cbn [app];
    rewrite ?app_nil_r; reflexivity.
Qed.

(** How the body of the [try] ends in each of these cases. *)
Let body :=
  run_body kickoff self query project_id user_id conversation_id node_ids
    logs stacktrace.

Lemma debugging_body_early (e : exn) :
  result_of pre = inl e -> result_of body = inl e.
Proof.
  intros H. subst body pre. unfold run_body. now rewrite result_bind, H.
Qed.

Lemma debugging_body_agent_raises (vh : list BaseMessage) (e : exn) :
  classified "DEBUGGING_AGENT" self query user_id conversation_id vh AGENT_REQUIRED ->
  kickoff query project_id (map content (human_authored vh)) node_ids user_id
    = inl e ->
  result_of body = inl e.
Proof.
  unfold classified, human_authored. intros H Hk.
  subst body pre. unfold run_body. rewrite result_bind, H.
  cbn [ClassificationResult_eqb negb]. autorewrite with gen.
  now rewrite Hk.
Qed.

Lemma debugging_body_agent_returns (vh : list BaseMessage)
    (out : CrewOutput (list NodeResponse)) :
  classified "DEBUGGING_AGENT" self query user_id conversation_id vh AGENT_REQUIRED ->
  kickoff query project_id (map content (human_authored vh)) node_ids user_id
    = inr out ->
  result_of body = inr tt.
Proof.
  unfold classified, human_authored. intros H Hk.
  subst body pre. unfold run_body. rewrite result_bind, H.
  cbn [ClassificationResult_eqb negb]. autorewrite with gen.
  rewrite Hk. destruct (pydantic out); now autorewrite with gen.
Qed.

Lemma debugging_body_direct (vh : list BaseMessage) :
  classified "DEBUGGING_AGENT" self query user_id conversation_id vh NO_AGENT ->
  result_of body
  = match snd (astream self (debugging_inputs vh query project_id logs stacktrace)) with
    | Some e => inl e
    | None => inr tt
    end.
Proof.
  unfold classified, debugging_inputs. intros H.
  subst body pre. unfold run_body. rewrite result_bind, H.
  cbn [ClassificationResult_eqb negb]. autorewrite with gen.
  rewrite debugging_stream_loop. cbn [result_of snd].
  destruct (snd (astream self _)); now autorewrite with gen.
Qed.

End Debugging.

(* ===================================================================== *)
(** * What the code changes agent does, case by case *)
(* ===================================================================== *)

Section CodeChanges.

Import ChatAgent CodeChangesChatAgent.

Variable kickoff : Kickoff.
Variable self : Services.
Variables query project_id user_id conversation_id : string.
Variable node_ids : list NodeContext.

Let pre := classify_request "CODE_CHANGES_AGENT" self query user_id conversation_id.
Let the_run :=
  run kickoff self query project_id user_id conversation_id node_ids.

Lemma code_changes_stream_loop (c : ClassificationResult) (cits : list string)
    (chunks : list stream_chunk) :
  stream_loop conversation_id c cits chunks
  = (streamed conversation_id
       (if ClassificationResult_eqb c AGENT_REQUIRED then Some cits else None)
       (if ClassificationResult_eqb c AGENT_REQUIRED then cits else [])
       chunks, inr tt).
Proof.
  induction chunks as [|ch chunks IH]; [reflexivity|].
  cbn [stream_loop]. unfold bind at 1 2, emit. rewrite IH. reflexivity.
Qed.

(** [run] never raises. *)
Lemma code_changes_run_returns : result_of the_run = inr tt.
Proof.
  subst the_run. unfold run. rewrite result_try_except.
  destruct (result_of (run_body _ _ _ _ _ _ _)) as [e | u];
    [reflexivity | now destruct u].
Qed.

(** An exception before the classification is in. *)
Lemma code_changes_run_early (e : exn) :
  result_of pre = inl e ->
  trace_of the_run = trace_of pre ++ [yield (error_item e)].
Proof.
  intros H. subst the_run pre. unfold run, run_body.
  rewrite trace_try_except, trace_bind, result_bind, H. cbn [app].
  now rewrite app_nil_r.
Qed.

(** AGENT_REQUIRED, and the awaited kickoff raises. *)
Lemma code_changes_run_agent_raises (vh : list BaseMessage) (e : exn) :
  classified "CODE_CHANGES_AGENT" self query user_id conversation_id vh AGENT_REQUIRED ->
  kickoff query project_id node_ids user_id = inl e ->
  trace_of the_run
  = trace_of pre
    ++ [call_kickoff_blast_radius_agent query project_id node_ids user_id;
        yield (error_item e)].
Proof.
  unfold classified. intros H Hk.
  subst the_run pre. unfold run, run_body.
  rewrite trace_try_except, trace_bind, result_bind, H.
  cbn [ClassificationResult_eqb].
  autorewrite with gen. rewrite Hk. cbn [app]. autorewrite with gen.
  rewrite <- app_assoc. reflexivity.
Qed.

(** AGENT_REQUIRED, and the awaited kickoff returns a result: the direct
    chain is streamed with the tool message and the formatted citations. *)
Lemma code_changes_run_agent_returns (vh : list BaseMessage)
    (out : CrewOutput string) :
  classified "CODE_CHANGES_AGENT" self query user_id conversation_id vh AGENT_REQUIRED ->
  kickoff query project_id node_ids user_id = inr out ->
  let inputs := {| in_history := vh;
                   in_tool_results := snd (code_changes_result out);
                   in_input := query |} in
  let cits := format_citations self (fst (code_changes_result out)) in
  trace_of the_run
  = (trace_of pre
     ++ [call_kickoff_blast_radius_agent query project_id node_ids user_id;
         call_format_citations (fst (code_changes_result out));
         chain_astream inputs])
    ++ streamed conversation_id (Some cits) cits (fst (astream self inputs))
    ++ stream_end conversation_id (snd (astream self inputs)).
Proof.
  unfold classified, code_changes_result. intros H Hk. cbv zeta.
  subst the_run pre. unfold run, run_body.
  rewrite trace_try_except, trace_bind, result_bind, H.
  cbn [ClassificationResult_eqb].
  autorewrite with gen. rewrite Hk. cbn [app].
  destruct (pydantic out) as [p|]; cbn [fst snd]; autorewrite with gen;
    cbn [app]; rewrite code_changes_stream_loop;
    cbn [trace_of result_of fst snd ClassificationResult_eqb];
    destruct (snd (astream self _)) as [e|]; autorewrite with gen;
    cbn [app stream_end]; rewrite <- ?app_assoc; cbn [app];
    rewrite ?app_nil_r; reflexivity.
Qed.

(** NO_AGENT: the direct chain is streamed, without citations. *)
Lemma code_changes_run_direct (vh : list BaseMessage) :
  classified "CODE_CHANGES_AGENT" self query user_id conversation_id vh NO_AGENT ->
  let inputs := {| in_history := vh; in_tool_results := []; in_input := query |} in
  trace_of the_run
  = (trace_of pre ++ [call_format_citations []; chain_astream inputs])
    ++ streamed conversation_id None [] (fst (astream self inputs))
    ++ stream_end conversation_id (snd (astream self inputs)).
Proof.
  unfold classified. intros H. cbv zeta.
  subst the_run pre. unfold run, run_body.
  rewrite trace_try_except, trace_bind, result_bind, H.
  cbn [ClassificationResult_eqb].
  autorewrite with gen. cbn [app].
  rewrite code_changes_stream_loop.
  cbn [trace_of result_of fst snd ClassificationResult_eqb].
  destruct (snd (astream self _)) as [e|]; autorewrite with gen;
    cbn [app stream_end]; rewrite <- ?app_assoc; cbn [app];
    rewrite ?app_nil_r; reflexivity.
Qed.

(** How the body of the [try] ends in each of these cases. *)
Let body :=
  run_body kickoff self query project_id user_id conversation_id node_ids.

Lemma code_changes_body_early (e : exn) :
  result_of pre = inl e -> result_of body = inl e.
Proof.
  intros H. subst body pre. unfold run_body. now rewrite result_bind, H.
Qed.

Lemma code_changes_body_agent_raises (vh : list BaseMessage) (e : exn) :
  classified "CODE_CHANGES_AGENT" self query user_id conversation_id vh AGENT_REQUIRED ->
  kickoff query project_id node_ids user_id = inl e ->
  result_of body = inl e.
Proof.
  unfold classified. intros H Hk.
  subst body pre. unfold run_body. rewrite result_bind, H.
  cbn [ClassificationResult_eqb]. autorewrite with gen.
  now rewrite Hk.
Qed.

Lemma code_changes_body_agent_returns (vh : list BaseMessage)
    (out : CrewOutput string) :
  classified "CODE_CHANGES_AGENT" self query user_id conversation_id vh AGENT_REQUIRED ->
  kickoff query project_id node_ids user_id = inr out ->
  result_of body
  = match snd (astream self {| in_history := vh;
                               in_tool_results := snd (code_changes_result out);
                               in_input := query |}) with
    | Some e => inl e
    | None => inr tt
    end.
Proof.
  unfold classified, code_changes_result. intros H Hk.
  subst body pre. unfold run_body. rewrite result_bind, H.
  cbn [ClassificationResult_eqb]. autorewrite with gen.
  rewrite Hk.
  destruct (pydantic out); cbn [fst snd]; autorewrite with gen;
    rewrite code_changes_stream_loop; cbn [result_of snd];
    destruct (snd (astream self _)); now autorewrite with gen.
Qed.

Lemma code_changes_body_direct (vh : list BaseMessage) :
  classified "CODE_CHANGES_AGENT" self query user_id conversation_id vh NO_AGENT ->
  result_of body
  = match snd (astream self {| in_history := vh; in_tool_results := [];
                               in_input := query |}) with
    | Some e => inl e
    | None => inr tt
    end.
Proof.
  unfold classified. intros H.
  subst body pre. unfold run_body. rewrite result_bind, H.
  cbn [ClassificationResult_eqb]. autorewrite with gen.
  rewrite code_changes_stream_loop. cbn [result_of snd].
  destruct (snd (astream self _)); now autorewrite with gen.
Qed.

End CodeChanges.

(* ===================================================================== *)
(** * Reading the events of the streaming loop *)
(* ===================================================================== *)

Section Streamed.

Import ChatAgent.

Variable conversation_id : string.
Variable appended_citations : option (list string).
Variable yielded_citations : list string.

Lemma yields_streamed (chunks : list stream_chunk) :
  yields (streamed conversation_id appended_citations yielded_citations chunks)
  = map (fun ch => encode yielded_citations (Text (chunk_content ch))) chunks.
Proof. induction chunks as [|ch chunks IH]; simpl; [reflexivity | now rewrite IH]. Qed.

Lemma appended_streamed (chunks : list stream_chunk) :
  appended (streamed conversation_id appended_citations yielded_citations chunks)
  = map (fun ch => (Text (chunk_content ch), appended_citations)) chunks.
Proof. induction chunks as [|ch chunks IH]; simpl; [reflexivity | now rewrite IH]. Qed.

Lemma flushes_streamed (chunks : list stream_chunk) :
  flushes (streamed conversation_id appended_citations yielded_citations chunks) = 0.
Proof. induction chunks as [|ch chunks IH]; simpl; [reflexivity | exact IH]. Qed.

Lemma format_calls_streamed (chunks : list stream_chunk) :
  format_calls (streamed conversation_id appended_citations yielded_citations chunks)
  = [].
Proof. induction chunks as [|ch chunks IH]; simpl; [reflexivity | exact IH]. Qed.

Lemma chunks_of_encoded (chunks : list stream_chunk) :
  chunks_of (map (fun ch => encode yielded_citations (Text (chunk_content ch))) chunks)
  = map (fun ch => (yielded_citations, Text (chunk_content ch))) chunks.
Proof.
  induction chunks as [|ch chunks IH]; [reflexivity|].
  cbn [map chunks_of]. now rewrite decode_encode, IH.
Qed.

Lemma write_then_notify_streamed (chunks : list stream_chunk) (tail : list event) :
  write_then_notify [] tail ->
  write_then_notify []
    (streamed conversation_id appended_citations yielded_citations chunks ++ tail).
Proof.
  intros Htail. induction chunks as [|ch chunks IH]; [exact Htail|].
  cbn [streamed flat_map app write_then_notify]. split; [now eexists | exact IH].
Qed.

End Streamed.

Lemma yields_stream_end (conversation_id : string) (failure : option exn) :
  yields (stream_end conversation_id failure)
  = match failure with Some e => [error_item e] | None => [] end.
Proof. now destruct failure. Qed.

Lemma format_calls_stream_end (conversation_id : string) (failure : option exn) :
  format_calls (stream_end conversation_id failure) = [].
Proof. now destruct failure. Qed.

Lemma chunks_of_error_tail (failure : option exn) :
  chunks_of (match failure with Some e => [error_item e] | None => [] end) = [].
Proof.
  destruct failure as [e|]; [|reflexivity].
  cbn [chunks_of]. now rewrite decode_error_item.
Qed.

(** Events that neither append nor yield do not matter to the ordering. *)
Lemma write_then_notify_quiet (t u : list event) (pending : list message_content) :
  yields t = [] -> appended t = [] ->
  write_then_notify pending u -> write_then_notify pending (t ++ u).
Proof.
  induction t as [|ev t IH]; intros Hy Ha Hu; [exact Hu|].
  destruct ev; cbn [yields appended] in Hy, Ha; try discriminate;
    cbn [app write_then_notify]; auto.
Qed.

(* ===================================================================== *)
(** * Properties of the orchestrators *)
(* ===================================================================== *)

(** C5: when the classifier returned AGENT_REQUIRED and the awaited runner
    raises [e], [run] of either agent yields exactly one item, the error
    text made of [str(e)], appends nothing, never calls
    [flush_message_buffer], and ends normally: no exception leaves [run]. *)
Theorem C5_runner_failure_contained :
  (forall (kickoff : DebuggingChatAgent.Kickoff) (self : Services)
          (query project_id user_id conversation_id : string)
          (node_ids : list NodeContext) (logs stacktrace : string)
          (vh : list BaseMessage) (e : exn),
      classified "DEBUGGING_AGENT" self query user_id conversation_id vh
        AGENT_REQUIRED ->
      kickoff query project_id (map content (human_authored vh)) node_ids user_id
        = inl e ->
      let r := DebuggingChatAgent.run kickoff self query project_id user_id
                 conversation_id node_ids logs stacktrace in
      yields (trace_of r) = [error_item e]
      /\ appended (trace_of r) = []
      /\ flushes (trace_of r) = 0
      /\ result_of r = inr tt)
  /\ (forall (kickoff : CodeChangesChatAgent.Kickoff) (self : Services)
             (query project_id user_id conversation_id : string)
             (node_ids : list NodeContext) (vh : list BaseMessage) (e : exn),
         classified "CODE_CHANGES_AGENT" self query user_id conversation_id vh
           AGENT_REQUIRED ->
         kickoff query project_id node_ids user_id = inl e ->
         let r := CodeChangesChatAgent.run kickoff self query project_id user_id
                    conversation_id node_ids in
         yields (trace_of r) = [error_item e]
         /\ appended (trace_of r) = []
         /\ flushes (trace_of r) = 0
         /\ result_of r = inr tt).
Proof.
  split.
  - intros kickoff self query project_id user_id conversation_id node_ids
      logs stacktrace vh e Hc Hk r. subst r.
    rewrite (debugging_run_agent_raises _ _ _ _ _ _ _ _ _ vh e Hc Hk).
    rewrite yields_app, appended_app, flushes_app.
    destruct (classify_request_quiet "DEBUGGING_AGENT" self query user_id
                conversation_id) as (-> & -> & ->).
    repeat split. apply debugging_run_returns.
  - intros kickoff self query project_id user_id conversation_id node_ids
      vh e Hc Hk r. subst r.
    rewrite (code_changes_run_agent_raises _ _ _ _ _ _ _ vh e Hc Hk).
    rewrite yields_app, appended_app, flushes_app.
    destruct (classify_request_quiet "CODE_CHANGES_AGENT" self query user_id
                conversation_id) as (-> & -> & ->).
    repeat split. apply code_changes_run_returns.
Qed.

Lemma C5_runner_failure_contained_witness :
  (let r := DebuggingChatAgent.run DebuggingChatAgent.await_async_generator
              (services_example AGENT_REQUIRED two_chunks None shorten)
              "why does it crash" "proj" "user" "conv" [] "log" "trace" in
   yields (trace_of r)
   = [error_item
        (Exception "object async_generator can't be used in 'await' expression")]
   /\ appended (trace_of r) = []
   /\ flushes (trace_of r) = 0
   /\ result_of r = inr tt)
  /\ (let r := CodeChangesChatAgent.run
                 (fun _ _ _ _ => inl (Exception "tool failed"))
                 (services_example AGENT_REQUIRED two_chunks None shorten)
                 "what changes" "proj" "user" "conv" [] in
      yields (trace_of r) = [error_item (Exception "tool failed")]
      /\ appended (trace_of r) = []
      /\ flushes (trace_of r) = 0
      /\ result_of r = inr tt).
Proof.
  split.
  - apply (proj1 C5_runner_failure_contained
             DebuggingChatAgent.await_async_generator
             (services_example AGENT_REQUIRED two_chunks None shorten)
             "why does it crash" "proj" "user" "conv" [] "log" "trace"
             example_history
             (Exception "object async_generator can't be used in 'await' expression"));
      reflexivity.
  - apply (proj2 C5_runner_failure_contained
             (fun _ _ _ _ => inl (Exception "tool failed"))
             (services_example AGENT_REQUIRED two_chunks None shorten)
             "what changes" "proj" "user" "conv" [] example_history
             (Exception "tool failed"));
      reflexivity.
Defined.

(** C1, as stated, fails for the code changes agent: with AGENT_REQUIRED and
    a structured agent result it goes on to stream the direct chain, and
    yields one chunk for every chunk of that chain, here two. *)
Lemma C1_agent_branch_single_chunk_counterexample :
  let self := services_example AGENT_REQUIRED two_chunks None (fun l => l) in
  let r := CodeChangesChatAgent.run (fun _ _ _ _ => inr blast_example) self
             "what changes" "proj" "user" "conv" [] in
  classified "CODE_CHANGES_AGENT" self "what changes" "user" "conv"
    example_history AGENT_REQUIRED
  /\ pydantic blast_example = Some blast_structured
  /\ yields (trace_of r)
     = [encode ["projects/app/main.py"] (Text "Hel");
        encode ["projects/app/main.py"] (Text "lo")]
  /\ List.length (yields (trace_of r)) <> 1.
Proof. cbv zeta. repeat split. discriminate. Qed.

(** C1, amended: with AGENT_REQUIRED and an awaited agent result whose
    structured part is present, the debugging agent yields exactly one item,
    the chunk whose citations are the result's citations as returned and whose
    message is the list of the result's nodes; the code changes agent yields
    one chunk for every chunk of the direct chain, in order, each with the
    formatted citations of the result and the content of the chain's chunk,
    and after them the error item if the chain raised. *)
Theorem C1_agent_branch_chunks_amended :
  (forall (kickoff : DebuggingChatAgent.Kickoff) (self : Services)
          (query project_id user_id conversation_id : string)
          (node_ids : list NodeContext) (logs stacktrace : string)
          (vh : list BaseMessage) (out : CrewOutput (list NodeResponse))
          (p : Structured (list NodeResponse)),
      classified "DEBUGGING_AGENT" self query user_id conversation_id vh
        AGENT_REQUIRED ->
      kickoff query project_id (map content (human_authored vh)) node_ids user_id
        = inr out ->
      pydantic out = Some p ->
      let items := yields (trace_of (DebuggingChatAgent.run kickoff self query
                                       project_id user_id conversation_id
                                       node_ids logs stacktrace)) in
      items = [encode (citations p) (Nodes (response p))]
      /\ map decode items = [Some (citations p, Nodes (response p))])
  /\ (forall (kickoff : CodeChangesChatAgent.Kickoff) (self : Services)
             (query project_id user_id conversation_id : string)
             (node_ids : list NodeContext) (vh : list BaseMessage)
             (out : CrewOutput string) (p : Structured string),
         classified "CODE_CHANGES_AGENT" self query user_id conversation_id vh
           AGENT_REQUIRED ->
         kickoff query project_id node_ids user_id = inr out ->
         pydantic out = Some p ->
         let stream :=
           astream self
             {| in_history := vh;
                in_tool_results :=
                  [SystemMessage
                     (Text ("Blast Radius Agent result: " ++ response p))];
                in_input := query |} in
         let items := yields (trace_of (CodeChangesChatAgent.run kickoff self
                                          query project_id user_id
                                          conversation_id node_ids)) in
         items
         = map (fun ch => encode (format_citations self (citations p))
                            (Text (ChatAgent.chunk_content ch))) (fst stream)
           ++ match snd stream with Some e => [error_item e] | None => [] end
         /\ chunks_of items
            = map (fun ch => (format_citations self (citations p),
                              Text (ChatAgent.chunk_content ch))) (fst stream)).
Proof.
  split.
  - intros kickoff self query project_id user_id conversation_id node_ids
      logs stacktrace vh out p Hc Hk Hp items. subst items.
    rewrite (debugging_run_agent_returns _ _ _ _ _ _ _ _ _ vh out Hc Hk).
    rewrite yields_app.
    destruct (classify_request_quiet "DEBUGGING_AGENT" self query user_id
                conversation_id) as (-> & _).
    unfold debugging_result. rewrite Hp. cbn [app yields fst snd map].
    now rewrite decode_encode.
  - intros kickoff self query project_id user_id conversation_id node_ids
      vh out p Hc Hk Hp stream items. subst items stream.
    rewrite (code_changes_run_agent_returns _ _ _ _ _ _ _ vh out Hc Hk).
    rewrite !yields_app.
    destruct (classify_request_quiet "CODE_CHANGES_AGENT" self query user_id
                conversation_id) as (-> & _).
    unfold code_changes_result. rewrite Hp. cbn [app yields fst snd].
    rewrite yields_streamed, yields_stream_end.
    split; [reflexivity|].
    now rewrite chunks_of_app, chunks_of_encoded, chunks_of_error_tail, app_nil_r.
Qed.

Lemma C1_agent_branch_chunks_amended_witness :
  (let items := yields (trace_of (DebuggingChatAgent.run
                                    (fun _ _ _ _ _ => inr rag_example)
                                    (services_example AGENT_REQUIRED two_chunks
                                       None shorten)
                                    "why does it crash" "proj" "user" "conv" []
                                    "log" "trace")) in
   items = [encode (citations rag_structured) (Nodes (response rag_structured))]
   /\ map decode items
      = [Some (citations rag_structured, Nodes (response rag_structured))])
  /\ (let self := services_example AGENT_REQUIRED two_chunks
                    (Some (Exception "stream broke")) shorten in
      let stream :=
        astream self
          {| in_history := example_history;
             in_tool_results :=
               [SystemMessage
                  (Text ("Blast Radius Agent result: " ++ response blast_structured))];
             in_input := "what changes" |} in
      let items := yields (trace_of (CodeChangesChatAgent.run
                                       (fun _ _ _ _ => inr blast_example) self
                                       "what changes" "proj" "user" "conv" [])) in
      items
      = map (fun ch => encode (format_citations self (citations blast_structured))
                         (Text (ChatAgent.chunk_content ch))) (fst stream)
        ++ match snd stream with Some e => [error_item e] | None => [] end
      /\ chunks_of items
         = map (fun ch => (format_citations self (citations blast_structured),
                           Text (ChatAgent.chunk_content ch))) (fst stream)).
Proof.
  split.
  - apply (proj1 C1_agent_branch_chunks_amended
             (fun _ _ _ _ _ => inr rag_example)
             (services_example AGENT_REQUIRED two_chunks None shorten)
             "why does it crash" "proj" "user" "conv" [] "log" "trace"
             example_history rag_example rag_structured);
      reflexivity.
  - apply (proj2 C1_agent_branch_chunks_amended
             (fun _ _ _ _ => inr blast_example)
             (services_example AGENT_REQUIRED two_chunks
                (Some (Exception "stream broke")) shorten)
             "what changes" "proj" "user" "conv" [] example_history
             blast_example blast_structured);
      reflexivity.
Defined.

Section DirectStream.

Import ChatAgent.

Lemma concat_messages_text (cits : list string) (chunks : list stream_chunk) :
  concat_messages (map (fun ch => (cits, Text (chunk_content ch))) chunks)
  = String.concat "" (map chunk_content chunks).
Proof.
  unfold concat_messages. f_equal.
  induction chunks as [|ch chunks IH]; [reflexivity|].
  cbn [map flat_map snd app]. now rewrite IH.
Qed.

(** What a streamed direct chain makes of the items. *)
Lemma direct_stream_chunks (conversation_id : string) (a : option (list string))
    (chunks : list stream_chunk) (failure : option exn) (pre : list event) :
  yields pre = [] ->
  let items := yields (pre ++ streamed conversation_id a [] chunks
                           ++ stream_end conversation_id failure) in
  items = map (fun ch => encode [] (Text (chunk_content ch))) chunks
          ++ match failure with Some e => [error_item e] | None => [] end
  /\ Forall (fun c => fst c = []) (chunks_of items)
  /\ map snd (chunks_of items) = map (fun ch => Text (chunk_content ch)) chunks
  /\ concat_messages (chunks_of items) = String.concat "" (map chunk_content chunks).
Proof.
  intros Hpre items. subst items.
  rewrite !yields_app, Hpre, yields_streamed, yields_stream_end. cbn [app].
  split; [reflexivity|].
  rewrite chunks_of_app, chunks_of_encoded, chunks_of_error_tail, app_nil_r.
  repeat split.
  - apply Forall_forall. intros c Hc. apply in_map_iff in Hc.
    destruct Hc as (ch & <- & _). reflexivity.
  - now rewrite map_map.
  - apply concat_messages_text.
Qed.

End DirectStream.

Section EmittedText.

Import ChatAgent.

(** The content the loop takes from a chunk is the text the chunk carries. *)
Lemma chunk_content_emitted (chunk : stream_chunk) :
  chunk_content chunk = emitted_text chunk.
Proof. now destruct chunk. Qed.

(** The items of a streamed direct chain, by the texts the chain emitted. *)
Lemma direct_stream_emitted (conversation_id : string)
    (a : option (list string)) (cits : list string)
    (chunks : list stream_chunk) (failure : option exn) (pre : list event) :
  yields pre = [] ->
  let items := yields (pre ++ streamed conversation_id a cits chunks
                           ++ stream_end conversation_id failure) in
  items = map (fun ch => encode cits (Text (emitted_text ch))) chunks
          ++ match failure with Some e => [error_item e] | None => [] end
  /\ Forall (fun c => fst c = cits) (chunks_of items)
  /\ map snd (chunks_of items) = map (fun ch => Text (emitted_text ch)) chunks
  /\ concat_messages (chunks_of items)
     = String.concat "" (map emitted_text chunks).
Proof.
  intros Hpre items. subst items.
  rewrite !yields_app, Hpre, yields_streamed, yields_stream_end. cbn [app].
  rewrite chunks_of_app, chunks_of_encoded, chunks_of_error_tail, app_nil_r.
  rewrite concat_messages_text.
  rewrite !(map_ext _ _ chunk_content_emitted).
  rewrite (map_ext (fun ch => encode cits (Text (chunk_content ch)))
             (fun ch => encode cits (Text (emitted_text ch))))
    by (intros ch; now rewrite chunk_content_emitted).
  rewrite (map_ext (fun ch => (cits, Text (chunk_content ch)))
             (fun ch => (cits, Text (emitted_text ch))))
    by (intros ch; now rewrite chunk_content_emitted).
  repeat split.
  - apply Forall_forall. intros c Hc. apply in_map_iff in Hc.
    destruct Hc as (ch & <- & _). reflexivity.
  - now rewrite map_map.
Qed.

End EmittedText.

(** C2: when the classifier returned NO_AGENT, the items yielded are one
    chunk for every chunk of the direct chain, in order, followed by the error
    item if the chain raised; the messages are the texts the chain emitted,
    and so their concatenation is the chain's concatenated output. Every
    chunk of the code changes agent has the empty citations. Every chunk of
    the debugging agent has the citations [format_citations([])], formatted
    once before the stream: the empty list with the formatter of the
    specification. *)
Theorem C2_no_agent_stream :
  (forall (kickoff : DebuggingChatAgent.Kickoff) (self : Services)
          (query project_id user_id conversation_id : string)
          (node_ids : list NodeContext) (logs stacktrace : string)
          (vh : list BaseMessage),
      classified "DEBUGGING_AGENT" self query user_id conversation_id vh NO_AGENT ->
      let stream :=
        astream self (debugging_inputs vh query project_id logs stacktrace) in
      let items := yields (trace_of (DebuggingChatAgent.run kickoff self query
                                       project_id user_id conversation_id
                                       node_ids logs stacktrace)) in
      items = map (fun ch => encode (format_citations self [])
                               (Text (emitted_text ch)))
                (fst stream)
              ++ match snd stream with Some e => [error_item e] | None => [] end
      /\ Forall (fun c => fst c = format_citations self []) (chunks_of items)
      /\ map snd (chunks_of items)
         = map (fun ch => Text (emitted_text ch)) (fst stream)
      /\ concat_messages (chunks_of items)
         = String.concat "" (map emitted_text (fst stream)))
  /\ (forall (kickoff : DebuggingChatAgent.Kickoff) (self : Services)
             (format_citation : string -> string)
             (query project_id user_id conversation_id : string)
             (node_ids : list NodeContext) (logs stacktrace : string)
             (vh : list BaseMessage),
         classified "DEBUGGING_AGENT" (with_format_citations format_citation self)
           query user_id conversation_id vh NO_AGENT ->
         let items :=
           yields (trace_of (DebuggingChatAgent.run kickoff
                               (with_format_citations format_citation self)
                               query project_id user_id conversation_id
                               node_ids logs stacktrace)) in
         Forall (fun c => fst c = []) (chunks_of items)
         /\ List.length (chunks_of items)
            = List.length
                (fst (astream self
                        (debugging_inputs vh query project_id logs stacktrace))))
  /\ (forall (kickoff : CodeChangesChatAgent.Kickoff) (self : Services)
             (query project_id user_id conversation_id : string)
             (node_ids : list NodeContext) (vh : list BaseMessage),
         classified "CODE_CHANGES_AGENT" self query user_id conversation_id vh
           NO_AGENT ->
         let stream :=
           astream self {| in_history := vh; in_tool_results := [];
                           in_input := query |} in
         let items := yields (trace_of (CodeChangesChatAgent.run kickoff self
                                          query project_id user_id
                                          conversation_id node_ids)) in
         items = map (fun ch => encode [] (Text (emitted_text ch))) (fst stream)
                 ++ match snd stream with Some e => [error_item e] | None => [] end
         /\ Forall (fun c => fst c = []) (chunks_of items)
         /\ map snd (chunks_of items)
            = map (fun ch => Text (emitted_text ch)) (fst stream)
         /\ concat_messages (chunks_of items)
            = String.concat "" (map emitted_text (fst stream))).
Proof.
  assert (Hdebug :
    forall (kickoff : DebuggingChatAgent.Kickoff) (self : Services)
           (query project_id user_id conversation_id : string)
           (node_ids : list NodeContext) (logs stacktrace : string)
           (vh : list BaseMessage),
      classified "DEBUGGING_AGENT" self query user_id conversation_id vh NO_AGENT ->
      let stream :=
        astream self (debugging_inputs vh query project_id logs stacktrace) in
      let items := yields (trace_of (DebuggingChatAgent.run kickoff self query
                                       project_id user_id conversation_id
                                       node_ids logs stacktrace)) in
      items = map (fun ch => encode (format_citations self [])
                               (Text (emitted_text ch)))
                (fst stream)
              ++ match snd stream with Some e => [error_item e] | None => [] end
      /\ Forall (fun c => fst c = format_citations self []) (chunks_of items)
      /\ map snd (chunks_of items)
         = map (fun ch => Text (emitted_text ch)) (fst stream)
      /\ concat_messages (chunks_of items)
         = String.concat "" (map emitted_text (fst stream))).
  { intros kickoff self query project_id user_id conversation_id node_ids
      logs stacktrace vh Hc stream items. subst items stream.
    rewrite (debugging_run_direct _ _ _ _ _ _ _ _ _ vh Hc).
    destruct (classify_request_quiet "DEBUGGING_AGENT" self query user_id
                conversation_id) as (Hq & _).
    apply direct_stream_emitted. now rewrite yields_app, Hq. }
  split; [exact Hdebug | split].
  - intros kickoff self format_citation query project_id user_id
      conversation_id node_ids logs stacktrace vh Hc items.
    destruct (Hdebug kickoff (with_format_citations format_citation self) query
                project_id user_id conversation_id node_ids logs stacktrace
                vh Hc) as (_ & Hcits & Hmsgs & _).
    fold items in Hcits, Hmsgs. split; [exact Hcits|].
    rewrite <- (length_map snd), Hmsgs, length_map. reflexivity.
  - intros kickoff self query project_id user_id conversation_id node_ids
      vh Hc stream items. subst items stream.
    rewrite (code_changes_run_direct _ _ _ _ _ _ _ vh Hc).
    destruct (classify_request_quiet "CODE_CHANGES_AGENT" self query user_id
                conversation_id) as (Hq & _).
    apply direct_stream_emitted. now rewrite yields_app, Hq.
Qed.

Lemma C2_no_agent_stream_witness :
  (let self := services_example NO_AGENT two_chunks None shorten in
   let items := yields (trace_of (DebuggingChatAgent.run
                                    DebuggingChatAgent.await_async_generator self
                                    "why does it crash" "proj" "user" "conv" []
                                    "log" "trace")) in
   items = [encode [] (Text "Hel"); encode [] (Text "lo")]
   /\ Forall (fun c => fst c = []) (chunks_of items)
   /\ map snd (chunks_of items) = [Text "Hel"; Text "lo"]
   /\ concat_messages (chunks_of items) = "Hello")
  /\ (let self :=
        with_format_citations (fun c => drop 9 c)
          (services_example NO_AGENT two_chunks None shorten) in
      let items := yields (trace_of (DebuggingChatAgent.run
                                       DebuggingChatAgent.await_async_generator
                                       self "why does it crash" "proj" "user"
                                       "conv" [] "log" "trace")) in
      Forall (fun c => fst c = []) (chunks_of items)
      /\ List.length (chunks_of items) = 2)
  /\ (let self := services_example NO_AGENT two_chunks
                    (Some (Exception "stream broke")) shorten in
      let items := yields (trace_of (CodeChangesChatAgent.run
                                       (fun _ _ _ _ => inr blast_example) self
                                       "what changes" "proj" "user" "conv" [])) in
      items = [encode [] (Text "Hel"); encode [] (Text "lo");
               error_item (Exception "stream broke")]
      /\ Forall (fun c => fst c = []) (chunks_of items)
      /\ map snd (chunks_of items) = [Text "Hel"; Text "lo"]
      /\ concat_messages (chunks_of items) = "Hello").
Proof.
  split; [|split].
  - apply (proj1 C2_no_agent_stream DebuggingChatAgent.await_async_generator
             (services_example NO_AGENT two_chunks None shorten)
             "why does it crash" "proj" "user" "conv" [] "log" "trace"
             example_history).
    reflexivity.
  - apply (proj1 (proj2 C2_no_agent_stream)
             DebuggingChatAgent.await_async_generator
             (services_example NO_AGENT two_chunks None shorten)
             (fun c => drop 9 c)
             "why does it crash" "proj" "user" "conv" [] "log" "trace"
             example_history).
    reflexivity.
  - apply (proj2 (proj2 C2_no_agent_stream) (fun _ _ _ _ => inr blast_example)
             (services_example NO_AGENT two_chunks
                (Some (Exception "stream broke")) shorten)
             "what changes" "proj" "user" "conv" [] example_history).
    reflexivity.
Defined.

Section WriteThenNotify.

Import ChatAgent.

(** A streamed direct chain that ended with the flush keeps the order. *)
Lemma direct_stream_write_then_notify (conversation_id : string)
    (a : option (list string)) (cits : list string) (chunks : list stream_chunk)
    (pre : list event) :
  yields pre = [] -> appended pre = [] ->
  let t := pre ++ streamed conversation_id a cits chunks
               ++ stream_end conversation_id None in
  write_then_notify [] t
  /\ map fst (appended t) = map snd (chunks_of (yields t)).
Proof.
  intros Hy Ha t. subst t. split.
  - apply write_then_notify_quiet; [assumption | assumption |].
    apply write_then_notify_streamed. reflexivity.
  - rewrite appended_app, yields_app, Hy, Ha. cbn [app].
    rewrite appended_app, yields_app, appended_streamed, yields_streamed.
    cbn [stream_end appended yields]. rewrite !app_nil_r.
    rewrite chunks_of_encoded, !map_map. reflexivity.
Qed.

End WriteThenNotify.

(** C4: when the body of [run] completes without an exception, the trace is
    in write-then-notify order: every item yielded is a chunk whose message
    is the content of the oldest buffered append not yet yielded, which was
    made before it, and no append is left without its yield; so the contents
    appended, in call order, are the messages yielded, in yield order (and
    their concatenations agree). *)
Theorem C4_write_then_notify :
  (forall (kickoff : DebuggingChatAgent.Kickoff) (self : Services)
          (query project_id user_id conversation_id : string)
          (node_ids : list NodeContext) (logs stacktrace : string),
      result_of (DebuggingChatAgent.run_body kickoff self query project_id
                   user_id conversation_id node_ids logs stacktrace) = inr tt ->
      let t := trace_of (DebuggingChatAgent.run kickoff self query project_id
                           user_id conversation_id node_ids logs stacktrace) in
      write_then_notify [] t
      /\ map fst (appended t) = map snd (chunks_of (yields t))
      /\ forall render : message_content -> string,
           String.concat "" (map render (map fst (appended t)))
           = String.concat "" (map render (map snd (chunks_of (yields t)))))
  /\ (forall (kickoff : CodeChangesChatAgent.Kickoff) (self : Services)
             (query project_id user_id conversation_id : string)
             (node_ids : list NodeContext),
         result_of (CodeChangesChatAgent.run_body kickoff self query project_id
                      user_id conversation_id node_ids) = inr tt ->
         let t := trace_of (CodeChangesChatAgent.run kickoff self query
                              project_id user_id conversation_id node_ids) in
         write_then_notify [] t
         /\ map fst (appended t) = map snd (chunks_of (yields t))
         /\ forall render : message_content -> string,
              String.concat "" (map render (map fst (appended t)))
              = String.concat "" (map render (map snd (chunks_of (yields t))))).
Proof.
  split.
  - intros kickoff self query project_id user_id conversation_id node_ids
      logs stacktrace Hok t. subst t.
    match goal with
    | |- ?A /\ ?B /\ _ =>
        enough (H : A /\ B)
          by (destruct H as [H1 H2]; repeat split; auto;
              intros render; now rewrite H2)
    end.
    destruct (classify_request_quiet "DEBUGGING_AGENT" self query user_id
                conversation_id) as (Hy & Ha & _).
    destruct (result_of (ChatAgent.classify_request "DEBUGGING_AGENT" self query
                           user_id conversation_id)) as [e | [vh c]] eqn:Hpre.
    { rewrite (debugging_body_early _ _ _ _ _ _ _ _ _ e Hpre) in Hok.
      discriminate. }
    destruct c.
    + destruct (kickoff query project_id (map content (human_authored vh))
                  node_ids user_id) as [e | out] eqn:Hk.
      { rewrite (debugging_body_agent_raises _ _ _ _ _ _ _ _ _ vh e Hpre Hk) in Hok.
        discriminate. }
      rewrite (debugging_run_agent_returns _ _ _ _ _ _ _ _ _ vh out Hpre Hk).
      split.
      * apply write_then_notify_quiet; [assumption | assumption |].
        cbn [write_then_notify app]. split; [now eexists | reflexivity].
      * rewrite appended_app, yields_app, Hy, Ha.
        cbn [app appended yields chunks_of map fst snd].
        now rewrite decode_encode.
    + rewrite (debugging_body_direct _ _ _ _ _ _ _ _ _ vh Hpre) in Hok.
      rewrite (debugging_run_direct _ _ _ _ _ _ _ _ _ vh Hpre).
      destruct (snd (astream self _)) as [e|]; [discriminate|].
      apply direct_stream_write_then_notify.
      * now rewrite yields_app, Hy.
      * now rewrite appended_app, Ha.
  - intros kickoff self query project_id user_id conversation_id node_ids
      Hok t. subst t.
    match goal with
    | |- ?A /\ ?B /\ _ =>
        enough (H : A /\ B)
          by (destruct H as [H1 H2]; repeat split; auto;
              intros render; now rewrite H2)
    end.
    destruct (classify_request_quiet "CODE_CHANGES_AGENT" self query user_id
                conversation_id) as (Hy & Ha & _).
    destruct (result_of (ChatAgent.classify_request "CODE_CHANGES_AGENT" self
                           query user_id conversation_id))
      as [e | [vh c]] eqn:Hpre.
    { rewrite (code_changes_body_early _ _ _ _ _ _ _ e Hpre) in Hok.
      discriminate. }
    destruct c.
    + destruct (kickoff query project_id node_ids user_id) as [e | out] eqn:Hk.
      { rewrite (code_changes_body_agent_raises _ _ _ _ _ _ _ vh e Hpre Hk) in Hok.
        discriminate. }
      rewrite (code_changes_body_agent_returns _ _ _ _ _ _ _ vh out Hpre Hk) in Hok.
      rewrite (code_changes_run_agent_returns _ _ _ _ _ _ _ vh out Hpre Hk).
      destruct (snd (astream self _)) as [e|]; [discriminate|].
      apply direct_stream_write_then_notify.
      * now rewrite yields_app, Hy.
      * now rewrite appended_app, Ha.
    + rewrite (code_changes_body_direct _ _ _ _ _ _ _ vh Hpre) in Hok.
      rewrite (code_changes_run_direct _ _ _ _ _ _ _ vh Hpre).
      destruct (snd (astream self _)) as [e|]; [discriminate|].
      apply direct_stream_write_then_notify.
      * now rewrite yields_app, Hy.
      * now rewrite appended_app, Ha.
Qed.

Lemma C4_write_then_notify_witness :
  (let t := trace_of (DebuggingChatAgent.run (fun _ _ _ _ _ => inr rag_example)
                        (services_example AGENT_REQUIRED two_chunks None shorten)
                        "why does it crash" "proj" "user" "conv" [] "log" "trace") in
   write_then_notify [] t
   /\ map fst (appended t) = map snd (chunks_of (yields t))
   /\ forall render : message_content -> string,
        String.concat "" (map render (map fst (appended t)))
        = String.concat "" (map render (map snd (chunks_of (yields t)))))
  /\ (let t := trace_of (CodeChangesChatAgent.run (fun _ _ _ _ => inr blast_example)
                           (services_example AGENT_REQUIRED two_chunks None shorten)
                           "what changes" "proj" "user" "conv" []) in
      write_then_notify [] t
      /\ map fst (appended t) = map snd (chunks_of (yields t))
      /\ forall render : message_content -> string,
           String.concat "" (map render (map fst (appended t)))
           = String.concat "" (map render (map snd (chunks_of (yields t))))).
Proof.
  split.
  - apply (proj1 C4_write_then_notify (fun _ _ _ _ _ => inr rag_example)
             (services_example AGENT_REQUIRED two_chunks None shorten)
             "why does it crash" "proj" "user" "conv" [] "log" "trace").
    reflexivity.
  - apply (proj2 C4_write_then_notify (fun _ _ _ _ => inr blast_example)
             (services_example AGENT_REQUIRED two_chunks None shorten)
             "what changes" "proj" "user" "conv" []).
    reflexivity.
Defined.

(** C6, as stated, fails: the code changes agent does apply
    [format_citations] to the agent's citations before anything is
    persisted or yielded, but there is no single consolidated chunk to carry
    them: every chunk of the direct chain is appended and yielded on its
    own, here two of them. *)
Lemma C6_formatted_citations_counterexample :
  let self := services_example AGENT_REQUIRED two_chunks None shorten in
  let t := trace_of (CodeChangesChatAgent.run (fun _ _ _ _ => inr blast_example)
                       self "what changes" "proj" "user" "conv" []) in
  classified "CODE_CHANGES_AGENT" self "what changes" "user" "conv"
    example_history AGENT_REQUIRED
  /\ pydantic blast_example = Some blast_structured
  /\ format_calls t = [["projects/app/main.py"]]
  /\ appended t = [(Text "Hel", Some ["app/main.py"]);
                   (Text "lo", Some ["app/main.py"])]
  /\ map decode (yields t)
     = [Some (["app/main.py"], Text "Hel"); Some (["app/main.py"], Text "lo")]
  /\ List.length (appended t) <> 1
  /\ List.length (yields t) <> 1.
Proof.
  cbv zeta. repeat split; try (vm_compute; reflexivity); discriminate.
Qed.

Section FormattedStream.

Import ChatAgent.

(** The events of the streaming loop, by the texts the chain emitted. *)
Lemma streamed_emitted (conversation_id : string) (a : option (list string))
    (cits : list string) (chunks : list stream_chunk) :
  streamed conversation_id a cits chunks
  = flat_map (fun ch =>
                [add_message_chunk conversation_id (Text (emitted_text ch)) a;
                 yield (encode cits (Text (emitted_text ch)))])
      chunks.
Proof.
  unfold streamed. apply flat_map_ext. intros ch.
  now rewrite chunk_content_emitted.
Qed.

End FormattedStream.

(** C6, amended: in the code changes agent, with AGENT_REQUIRED and an
    awaited agent result whose structured part is present, [run] calls
    [format_citations] once, on the result's citations, before anything is
    appended or yielded; then, for every chunk of the direct chain in order,
    it appends the text with the formatted citations and then yields a chunk
    that carries them; it ends with the flush, or with the error item when
    the chain raised. There is one chunk per chunk of the chain, not one
    consolidated chunk. *)
Theorem C6_citations_persisted_and_yielded_amended
    (kickoff : CodeChangesChatAgent.Kickoff) (self : Services)
    (query project_id user_id conversation_id : string)
    (node_ids : list NodeContext) (vh : list BaseMessage)
    (out : CrewOutput string) (p : Structured string) :
  classified "CODE_CHANGES_AGENT" self query user_id conversation_id vh
    AGENT_REQUIRED ->
  kickoff query project_id node_ids user_id = inr out ->
  pydantic out = Some p ->
  let inputs :=
    {| in_history := vh;
       in_tool_results :=
         [SystemMessage (Text ("Blast Radius Agent result: " ++ response p))];
       in_input := query |} in
  let formatted := format_citations self (citations p) in
  let t := trace_of (CodeChangesChatAgent.run kickoff self query project_id
                       user_id conversation_id node_ids) in
  (exists before : list event,
      t = before
          ++ [call_format_citations (citations p); chain_astream inputs]
          ++ flat_map
               (fun ch =>
                  [add_message_chunk conversation_id (Text (emitted_text ch))
                     (Some formatted);
                   yield (encode formatted (Text (emitted_text ch)))])
               (fst (astream self inputs))
          ++ match snd (astream self inputs) with
             | Some e => [yield (error_item e)]
             | None => [flush_message_buffer conversation_id]
             end
      /\ format_calls before = []
      /\ appended before = []
      /\ yields before = [])
  /\ format_calls t = [citations p]
  /\ appended t
     = map (fun ch => (Text (emitted_text ch), Some formatted))
         (fst (astream self inputs))
  /\ chunks_of (yields t)
     = map (fun ch => (formatted, Text (emitted_text ch)))
         (fst (astream self inputs)).
Proof.
  intros Hc Hk Hp inputs formatted t. subst t formatted inputs.
  rewrite (code_changes_run_agent_returns _ _ _ _ _ _ _ vh out Hc Hk).
  destruct (classify_request_quiet "CODE_CHANGES_AGENT" self query user_id
              conversation_id) as (Hy & Ha & _).
  unfold code_changes_result. rewrite Hp. cbn [fst snd].
  split; [|split; [|split]].
  - match goal with
    | |- exists before, (?pre ++ [?kick; ?fmt; ?inv]) ++ ?rest = _ /\ _ =>
        exists (pre ++ [kick])
    end.
    split; [|split; [|split]].
    + rewrite streamed_emitted, <- !app_assoc. reflexivity.
    + now rewrite format_calls_app, classify_request_no_format.
    + now rewrite appended_app, Ha.
    + now rewrite yields_app, Hy.
  - rewrite !format_calls_app, classify_request_no_format,
      format_calls_streamed, format_calls_stream_end.
    reflexivity.
  - rewrite !appended_app, Ha, appended_streamed. cbn [app appended].
    rewrite (map_ext (fun ch => (Text (ChatAgent.chunk_content ch),
                                 Some (format_citations self (citations p))))
               (fun ch => (Text (emitted_text ch),
                           Some (format_citations self (citations p)))))
      by (intros ch; now rewrite chunk_content_emitted).
    destruct (snd (astream self _)); cbn [stream_end appended];
      now rewrite app_nil_r.
  - rewrite !yields_app, Hy, yields_streamed, yields_stream_end.
    cbn [app yields].
    rewrite chunks_of_app, chunks_of_encoded, chunks_of_error_tail, app_nil_r.
    apply map_ext. intros ch. now rewrite chunk_content_emitted.
Qed.

Lemma C6_citations_persisted_and_yielded_amended_witness :
  let self := services_example AGENT_REQUIRED two_chunks None shorten in
  let inputs :=
    {| in_history := example_history;
       in_tool_results :=
         [SystemMessage
            (Text ("Blast Radius Agent result: " ++ response blast_structured))];
       in_input := "what changes" |} in
  let formatted := format_citations self (citations blast_structured) in
  let t := trace_of (CodeChangesChatAgent.run
                       (fun _ _ _ _ => inr blast_example) self
                       "what changes" "proj" "user" "conv" []) in
  (exists before : list event,
      t = before
          ++ [call_format_citations (citations blast_structured);
              chain_astream inputs]
          ++ flat_map
               (fun ch =>
                  [add_message_chunk "conv" (Text (emitted_text ch))
                     (Some formatted);
                   yield (encode formatted (Text (emitted_text ch)))])
               (fst (astream self inputs))
          ++ match snd (astream self inputs) with
             | Some e => [yield (error_item e)]
             | None => [flush_message_buffer "conv"]
             end
      /\ format_calls before = []
      /\ appended before = []
      /\ yields before = [])
  /\ format_calls t = [citations blast_structured]
  /\ appended t
     = map (fun ch => (Text (emitted_text ch), Some formatted))
         (fst (astream self inputs))
  /\ chunks_of (yields t)
     = map (fun ch => (formatted, Text (emitted_text ch)))
         (fst (astream self inputs)).
Proof.
  apply (C6_citations_persisted_and_yielded_amended
           (fun _ _ _ _ => inr blast_example)
           (services_example AGENT_REQUIRED two_chunks None shorten)
           "what changes" "proj" "user" "conv" [] example_history
           blast_example blast_structured);
    reflexivity.
Defined.

Section ItemsOfARun.

Import ChatAgent.

(** The chunks a streamed direct chain is made of. *)
Lemma direct_stream_items (conversation_id : string) (a : option (list string))
    (cits : list string) (chunks : list stream_chunk) (failure : option exn)
    (pre : list event) :
  yields pre = [] ->
  yields (pre ++ streamed conversation_id a cits chunks
              ++ stream_end conversation_id failure)
  = map (fun c => encode (fst c) (snd c))
      (map (fun ch => (cits, Text (chunk_content ch))) chunks)
    ++ match (match failure with Some e => inl e | None => inr tt end : outcome unit) with
       | inl e => [error_item e]
       | inr _ => []
       end.
Proof.
  intros Hpre.
  rewrite !yields_app, Hpre, yields_streamed, yields_stream_end, map_map.
  now destruct failure.
Qed.

End ItemsOfARun.

(** C10: whatever the collaborators answer, the items [run] of either agent
    yields are chunks, each the JSON text of an object with exactly the two
    fields [citations] and [message], followed, exactly when the body of the
    [try] raised [e], by one last item: the bare text ["An error occurred: "]
    with [str(e)]. A chunk reads back as its citations and message; the error
    item is no JSON text, so it is the only item that does not parse as a
    chunk. *)
Theorem C10_error_item_only_non_chunk :
  (forall (kickoff : DebuggingChatAgent.Kickoff) (self : Services)
          (query project_id user_id conversation_id : string)
          (node_ids : list NodeContext) (logs stacktrace : string),
      exists chunks : list (list string * message_content),
        yields (trace_of (DebuggingChatAgent.run kickoff self query project_id
                            user_id conversation_id node_ids logs stacktrace))
        = map (fun c => encode (fst c) (snd c)) chunks
          ++ match result_of (DebuggingChatAgent.run_body kickoff self query
                                project_id user_id conversation_id node_ids
                                logs stacktrace) with
             | inl e => [error_item e]
             | inr _ => []
             end)
  /\ (forall (kickoff : CodeChangesChatAgent.Kickoff) (self : Services)
             (query project_id user_id conversation_id : string)
             (node_ids : list NodeContext),
         exists chunks : list (list string * message_content),
           yields (trace_of (CodeChangesChatAgent.run kickoff self query
                               project_id user_id conversation_id node_ids))
           = map (fun c => encode (fst c) (snd c)) chunks
             ++ match result_of (CodeChangesChatAgent.run_body kickoff self query
                                   project_id user_id conversation_id node_ids) with
                | inl e => [error_item e]
                | inr _ => []
                end)
  /\ (forall (cits : list string) (msg : message_content),
         encode cits msg
         = Json.dumps (Json.Obj [("citations", Json.Arr (map Json.Str cits));
                                 ("message", content_json msg)])
         /\ decode (encode cits msg) = Some (cits, msg))
  /\ (forall e : exn,
         error_item e = ("An error occurred: " ++ str_exn e)%string
         /\ Json.loads (error_item e) = None
         /\ decode (error_item e) = None).
Proof.
  split; [|split; [|split]].
  - intros kickoff self query project_id user_id conversation_id node_ids
      logs stacktrace.
    destruct (classify_request_quiet "DEBUGGING_AGENT" self query user_id
                conversation_id) as (Hy & _).
    destruct (result_of (ChatAgent.classify_request "DEBUGGING_AGENT" self query
                           user_id conversation_id)) as [e | [vh c]] eqn:Hpre.
    { exists [].
      rewrite (debugging_body_early _ _ _ _ _ _ _ _ _ e Hpre).
      rewrite (debugging_run_early _ _ _ _ _ _ _ _ _ e Hpre).
      now rewrite yields_app, Hy. }
    destruct c.
    + destruct (kickoff query project_id (map content (human_authored vh))
                  node_ids user_id) as [e | out] eqn:Hk.
      * exists [].
        rewrite (debugging_body_agent_raises _ _ _ _ _ _ _ _ _ vh e Hpre Hk).
        rewrite (debugging_run_agent_raises _ _ _ _ _ _ _ _ _ vh e Hpre Hk).
        now rewrite yields_app, Hy.
      * exists [(snd (debugging_result out), fst (debugging_result out))].
        rewrite (debugging_body_agent_returns _ _ _ _ _ _ _ _ _ vh out Hpre Hk).
        rewrite (debugging_run_agent_returns _ _ _ _ _ _ _ _ _ vh out Hpre Hk).
        now rewrite yields_app, Hy.
    + eexists.
      rewrite (debugging_body_direct _ _ _ _ _ _ _ _ _ vh Hpre).
      rewrite (debugging_run_direct _ _ _ _ _ _ _ _ _ vh Hpre).
      apply direct_stream_items. now rewrite yields_app, Hy.
  - intros kickoff self query project_id user_id conversation_id node_ids.
    destruct (classify_request_quiet "CODE_CHANGES_AGENT" self query user_id
                conversation_id) as (Hy & _).
    destruct (result_of (ChatAgent.classify_request "CODE_CHANGES_AGENT" self
                           query user_id conversation_id))
      as [e | [vh c]] eqn:Hpre.
    { exists [].
      rewrite (code_changes_body_early _ _ _ _ _ _ _ e Hpre).
      rewrite (code_changes_run_early _ _ _ _ _ _ _ e Hpre).
      now rewrite yields_app, Hy. }
    destruct c.
    + destruct (kickoff query project_id node_ids user_id) as [e | out] eqn:Hk.
      * exists [].
        rewrite (code_changes_body_agent_raises _ _ _ _ _ _ _ vh e Hpre Hk).
        rewrite (code_changes_run_agent_raises _ _ _ _ _ _ _ vh e Hpre Hk).
        now rewrite yields_app, Hy.
      * eexists.
        rewrite (code_changes_body_agent_returns _ _ _ _ _ _ _ vh out Hpre Hk).
        rewrite (code_changes_run_agent_returns _ _ _ _ _ _ _ vh out Hpre Hk).
        apply direct_stream_items. now rewrite yields_app, Hy.
    + eexists.
      rewrite (code_changes_body_direct _ _ _ _ _ _ _ vh Hpre).
      rewrite (code_changes_run_direct _ _ _ _ _ _ _ vh Hpre).
      apply direct_stream_items. now rewrite yields_app, Hy.
  - intros cits msg. split; [reflexivity | apply decode_encode].
  - intros e. split; [reflexivity|].
    split; [apply loads_error_item | apply decode_error_item].
Qed.

(* ===================================================================== *)
(** * The debugging agent as it is wired to the runner *)
(* ===================================================================== *)

(** X1: [kickoff_debug_rag_agent] is an async generator, and [run] of the
    debugging agent awaits the object its call returns: whenever the
    classifier returned AGENT_REQUIRED, the [await] raises before the runner
    starts, so nothing is looked up, appended or flushed, and the only item
    yielded is the error text of that [TypeError]. *)
Theorem debugging_agent_branch_as_wired (self : Services)
    (query project_id user_id conversation_id : string)
    (node_ids : list NodeContext) (logs stacktrace : string)
    (vh : list BaseMessage) :
  classified "DEBUGGING_AGENT" self query user_id conversation_id vh
    AGENT_REQUIRED ->
  let r := DebuggingChatAgent.run DebuggingChatAgent.await_async_generator self
             query project_id user_id conversation_id node_ids logs stacktrace in
  yields (trace_of r)
  = [("An error occurred: "
      ++ "object async_generator can't be used in 'await' expression")%string]
  /\ DebugRAGAgent.lookups (trace_of r) = []
  /\ appended (trace_of r) = []
  /\ flushes (trace_of r) = 0
  /\ result_of r = inr tt.
Proof.
  intros Hc r. subst r.
  rewrite (debugging_run_agent_raises DebuggingChatAgent.await_async_generator
             _ _ _ _ _ _ _ _ vh _ Hc eq_refl).
  rewrite yields_app, appended_app, flushes_app, lookups_app.
  destruct (classify_request_quiet "DEBUGGING_AGENT" self query user_id
              conversation_id) as (-> & -> & ->).
  rewrite classify_request_no_lookup.
  repeat split. apply debugging_run_returns.
Qed.

Lemma debugging_agent_branch_as_wired_witness :
  let r := DebuggingChatAgent.run DebuggingChatAgent.await_async_generator
             (services_example AGENT_REQUIRED two_chunks None shorten)
             "why does it crash" "proj" "user" "conv"
             [{| node_id := "a" |}; {| node_id := "b" |}] "log" "trace" in
  yields (trace_of r)
  = [("An error occurred: "
      ++ "object async_generator can't be used in 'await' expression")%string]
  /\ DebugRAGAgent.lookups (trace_of r) = []
  /\ appended (trace_of r) = []
  /\ flushes (trace_of r) = 0
  /\ result_of r = inr tt.
Proof.
  apply (debugging_agent_branch_as_wired
           (services_example AGENT_REQUIRED two_chunks None shorten)
           "why does it crash" "proj" "user" "conv"
           [{| node_id := "a" |}; {| node_id := "b" |}] "log" "trace"
           example_history).
  reflexivity.
Defined.

(* ===================================================================== *)
(** * Further properties of the transcript loop *)
(* ===================================================================== *)

Section TranscriptLoop.

Import PyStr DebugRAGAgent.

(** Once streaming, the loop stays streaming and yields one fragment for
    every line, up to the first empty one. *)
Lemma transcript_loop_streaming (post junk : list string) :
  Forall nonempty post ->
  transcript_loop true post = map fragment_of post
  /\ transcript_loop true (post ++ EmptyString :: junk) = map fragment_of post.
Proof.
  induction 1 as [|line post Hline _ [IH1 IH2]]; [now split|].
  cbn [app transcript_loop map]. unfold transcript_step. rewrite Hline.
  assert (Hflag : (if contains final_answer_marker line then true else true) = true)
    by now destruct (contains _ _).
  rewrite Hflag, IH1, IH2. unfold fragment_of.
  now destruct (endswith line color_reset_line_end).
Qed.

(** Before the marker, a non-empty unmarked line is passed over. *)
Lemma transcript_loop_skips (pre rest : list string) :
  Forall unmarked pre -> Forall nonempty pre ->
  transcript_loop false (pre ++ rest) = transcript_loop false rest.
Proof.
  induction 1 as [|line pre Hline _ IH]; intros Hne; [reflexivity|].
  inversion Hne as [|? ? Hl Hpre]; subst.
  cbn [app transcript_loop]. unfold transcript_step.
  rewrite Hl, Hline. cbn [app]. now apply IH.
Qed.

End TranscriptLoop.

(** X3: the fragments are exactly the lines after the first line that holds
    the marker, one fragment per line and in order, a line that ends with
    the colour reset and the line end being cut by these six characters and
    any other line yielded as it is (a later line that holds the marker
    included); an empty line ends the stream, whatever follows it. *)
Theorem transcript_stream_after_marker (pre post : list string) (m : string) :
  Forall unmarked pre -> Forall nonempty pre ->
  nonempty m -> PyStr.contains DebugRAGAgent.final_answer_marker m = true ->
  Forall nonempty post ->
  DebugRAGAgent.transcript_stream (pre ++ m :: post) = map fragment_of post
  /\ forall junk : list string,
       DebugRAGAgent.transcript_stream (pre ++ m :: post ++ EmptyString :: junk)
       = map fragment_of post.
Proof.
  intros Hpre Hne Hm Hmark Hpost. unfold DebugRAGAgent.transcript_stream.
  assert (Hstep : DebugRAGAgent.transcript_step false m = Some ([], true)).
  { unfold DebugRAGAgent.transcript_step. now rewrite Hm, Hmark. }
  split; [|intros junk]; rewrite transcript_loop_skips by assumption;
    cbn [DebugRAGAgent.transcript_loop]; rewrite Hstep;
    cbn [app]; now apply transcript_loop_streaming.
Qed.

Lemma transcript_stream_after_marker_witness :
  DebugRAGAgent.transcript_stream
    (["Thought: look at main"; "Action: search"]
       ++ "## Final Answer: see below"
       :: ["Hello"; "## Final Answer: again";
           ("World" ++ DebugRAGAgent.color_reset_line_end)%string])
  = map fragment_of
      ["Hello"; "## Final Answer: again";
       ("World" ++ DebugRAGAgent.color_reset_line_end)%string]
  /\ forall junk : list string,
       DebugRAGAgent.transcript_stream
         (["Thought: look at main"; "Action: search"]
            ++ "## Final Answer: see below"
            :: ["Hello"; "## Final Answer: again";
                ("World" ++ DebugRAGAgent.color_reset_line_end)%string]
            ++ EmptyString :: junk)
       = map fragment_of
           ["Hello"; "## Final Answer: again";
            ("World" ++ DebugRAGAgent.color_reset_line_end)%string].
Proof.
  apply (transcript_stream_after_marker
           ["Thought: look at main"; "Action: search"]
           ["Hello"; "## Final Answer: again";
            ("World" ++ DebugRAGAgent.color_reset_line_end)%string]
           "## Final Answer: see below");
    repeat constructor.
Defined.

Section Verbatim.

Import PyStr DebugRAGAgent.







End Verbatim.



(* ===================================================================== *)
(** * Further properties of the runner *)
(* ===================================================================== *)

(** X5: the runner catches nothing, and a lookup that fails stops it at
    once. When the seed lookup raises, [run] ends with that exception after
    the lookup alone; when the agent prompt raises, after the seed lookup and
    that prompt lookup; when the task prompt raises, after these and the task
    prompt lookup, which was given what the seed lookup returned. In all
    three cases no later step is made: the crew is not kicked off and
    nothing is yielded. *)
Theorem runner_failure_stops_before_kickoff (self : DebugRAGAgent.Self)
    (query project_id : string) (chat_history : list message_content)
    (node_ids : list NodeContext) (file_structure : string) (e : exn) :
  let r := DebugRAGAgent.run self query project_id chat_history node_ids
             file_structure in
  (seed_lookup self project_id node_ids = inl e ->
   r = (seed_events project_id node_ids, inl e))
  /\ (forall code_results,
        seed_lookup self project_id node_ids = inr code_results ->
        DebugRAGAgent.agent_prompt self = inl e ->
        r = (seed_events project_id node_ids ++ [get_agent_prompt], inl e))
  /\ (forall code_results agent,
        seed_lookup self project_id node_ids = inr code_results ->
        DebugRAGAgent.agent_prompt self = inr agent ->
        let args := {| tp_chat_history := chat_history;
                       tp_query := query;
                       tp_project_id := project_id;
                       tp_node_ids := node_ids;
                       tp_file_structure := file_structure;
                       tp_code_results := code_results |} in
        DebugRAGAgent.task_prompt self args = inl e ->
        r = (seed_events project_id node_ids
             ++ [get_agent_prompt; get_task_prompt args], inl e)).
Proof.
  intros r. subst r.
  unfold DebugRAGAgent.run, DebugRAGAgent.create_agents,
    DebugRAGAgent.create_tasks, seed_lookup, seed_events.
  destruct node_ids as [|n ns]; cbn [List.length Nat.ltb Nat.leb].
  - split; [discriminate|]. split.
    + intros cr [= <-] Ha. unfold bind, emit, await, ret. now rewrite Ha.
    + cbv zeta. intros cr agent [= <-] Ha Ht.
      unfold bind, emit, await, ret. rewrite Ha. cbn.
      unfold bind, emit, await, ret. now rewrite Ht.
  - split; [|split].
    + intros Hl. unfold bind, emit, await, ret. now rewrite Hl.
    + intros cr Hl Ha. unfold bind, emit, await, ret. now rewrite Hl, Ha.
    + cbv zeta. intros cr agent Hl Ha Ht.
      unfold bind, emit, await, ret. rewrite Hl, Ha. cbn.
      unfold bind, emit, await, ret. now rewrite Ht.
Qed.

Lemma runner_failure_stops_before_kickoff_witness :
  DebugRAGAgent.run runner_failing_lookup "q" "p" [] [{| node_id := "a" |}]
    "src/"
  = ([run_multiple "p" ["a"]], inl (Exception "graph unavailable")).
Proof.
  apply (proj1 (runner_failure_stops_before_kickoff runner_failing_lookup
                  "q" "p" [] [{| node_id := "a" |}] "src/"
                  (Exception "graph unavailable"))).
  reflexivity.
Defined.

(** X6: when every collaborator answers, [kickoff_debug_rag_agent] driven
    to its end does, in this order: the batched lookup, the agent prompt, the
    task prompt, the kickoff of the crew, and then the yields of the
    fragments; the task prompt is given the project's file structure and, as
    [code_results], exactly what the lookup returned. *)
Theorem kickoff_debug_rag_agent_sequence (self : DebugRAGAgent.Self)
    (query project_id : string) (chat_history : list message_content)
    (node_ids : list NodeContext) (file_structure agent task : string)
    (code_results : list (list (string * string))) :
  let args := {| tp_chat_history := chat_history;
                 tp_query := query;
                 tp_project_id := project_id;
                 tp_node_ids := node_ids;
                 tp_file_structure := file_structure;
                 tp_code_results := code_results |} in
  node_ids <> [] ->
  DebugRAGAgent.project_structure self project_id = inr file_structure ->
  DebugRAGAgent.lookup self project_id (map node_id node_ids) = inr code_results ->
  DebugRAGAgent.agent_prompt self = inr agent ->
  DebugRAGAgent.task_prompt self args = inr task ->
  DebugRAGAgent.kickoff_debug_rag_agent self query project_id chat_history node_ids
  = ([run_multiple project_id (map node_id node_ids);
      get_agent_prompt;
      get_task_prompt args;
      create_kickoff_task]
     ++ map yield (DebugRAGAgent.transcript_stream
                     (DebugRAGAgent.crew_stdout self task)),
     inr tt).
Proof.
  intros args Hne Hfs Hl Ha Ht. subst args.
  rewrite kickoff_debug_rag_agent_unfold, Hfs.
  unfold DebugRAGAgent.run, DebugRAGAgent.create_agents,
    DebugRAGAgent.create_tasks.
  destruct node_ids as [|n ns]; [congruence|].
  cbn [List.length Nat.ltb Nat.leb].
  unfold bind, emit, await. rewrite Hl, Ha, Ht, yields_yield_each.
  reflexivity.
Qed.

Lemma kickoff_debug_rag_agent_sequence_witness :
  let args := {| tp_chat_history := [Text "h1"];
                 tp_query := "q";
                 tp_project_id := "p";
                 tp_node_ids := [{| node_id := "a" |}; {| node_id := "b" |}];
                 tp_file_structure := "src/";
                 tp_code_results :=
                   [[("node_id", "a"); ("code", "pass")];
                    [("node_id", "b"); ("code", "pass")]] |} in
  DebugRAGAgent.kickoff_debug_rag_agent runner_example "q" "p" [Text "h1"]
    [{| node_id := "a" |}; {| node_id := "b" |}]
  = ([run_multiple "p" (map node_id [{| node_id := "a" |}; {| node_id := "b" |}]);
      get_agent_prompt;
      get_task_prompt args;
      create_kickoff_task]
     ++ map yield (DebugRAGAgent.transcript_stream
                     (DebugRAGAgent.crew_stdout runner_example "task")),
     inr tt).
Proof.
  apply (kickoff_debug_rag_agent_sequence runner_example "q" "p" [Text "h1"]
           [{| node_id := "a" |}; {| node_id := "b" |}] "src/" "agent" "task"
           [[("node_id", "a"); ("code", "pass")];
            [("node_id", "b"); ("code", "pass")]]);
    (reflexivity || discriminate).
Defined.

(* ===================================================================== *)
(** * Further properties of the orchestrators *)
(* ===================================================================== *)

Section Flushes.

Import ChatAgent.

Lemma flush_is_last_write_app (t u : list event) :
  flushes t = 0 ->
  flush_is_last_write (t ++ u) = flush_is_last_write u.
Proof.
  induction t as [|ev t IH]; [reflexivity|].
  destruct ev; cbn [app flushes flush_is_last_write]; try exact IH.
  discriminate.
Qed.

Lemma flush_is_last_write_stream (conversation_id : string)
    (a : option (list string)) (cits : list string)
    (chunks : list stream_chunk) (failure : option exn) (pre : list event) :
  flushes pre = 0 ->
  flush_is_last_write
    (pre ++ streamed conversation_id a cits chunks
         ++ stream_end conversation_id failure) = true.
Proof.
  intros Hpre.
  rewrite (flush_is_last_write_app _ _ Hpre).
  rewrite (flush_is_last_write_app _ _ (flushes_streamed _ _ _ _)).
  now destruct failure.
Qed.

End Flushes.

(** X7: whatever the collaborators answer, [run] of either agent flushes
    the message buffer at most once in a request, and appends nothing to it
    after the flush: what a request appends is appended before its flush. *)
Theorem nothing_appended_after_the_flush :
  (forall (kickoff : DebuggingChatAgent.Kickoff) (self : Services)
          (query project_id user_id conversation_id : string)
          (node_ids : list NodeContext) (logs stacktrace : string),
      let t := trace_of (DebuggingChatAgent.run kickoff self query project_id
                           user_id conversation_id node_ids logs stacktrace) in
      flush_is_last_write t = true /\ flushes t <= 1)
  /\ (forall (kickoff : CodeChangesChatAgent.Kickoff) (self : Services)
             (query project_id user_id conversation_id : string)
             (node_ids : list NodeContext),
         let t := trace_of (CodeChangesChatAgent.run kickoff self query
                              project_id user_id conversation_id node_ids) in
         flush_is_last_write t = true /\ flushes t <= 1).
Proof.
  split.
  - intros kickoff self query project_id user_id conversation_id node_ids
      logs stacktrace t. subst t.
    destruct (classify_request_quiet "DEBUGGING_AGENT" self query user_id
                conversation_id) as (_ & _ & Hf).
    destruct (result_of (ChatAgent.classify_request "DEBUGGING_AGENT" self query
                           user_id conversation_id)) as [e | [vh c]] eqn:Hpre.
    { rewrite (debugging_run_early _ _ _ _ _ _ _ _ _ e Hpre).
      rewrite (flush_is_last_write_app _ _ Hf), flushes_app, Hf.
      split; [reflexivity | cbn; lia]. }
    destruct c.
    + destruct (kickoff query project_id (map content (human_authored vh))
                  node_ids user_id) as [e | out] eqn:Hk.
      * rewrite (debugging_run_agent_raises _ _ _ _ _ _ _ _ _ vh e Hpre Hk).
        rewrite (flush_is_last_write_app _ _ Hf), flushes_app, Hf.
        split; [reflexivity | cbn; lia].
      * rewrite (debugging_run_agent_returns _ _ _ _ _ _ _ _ _ vh out Hpre Hk).
        rewrite (flush_is_last_write_app _ _ Hf), flushes_app, Hf.
        split; [reflexivity | cbn; lia].
    + rewrite (debugging_run_direct _ _ _ _ _ _ _ _ _ vh Hpre).
      split.
      * apply flush_is_last_write_stream. now rewrite flushes_app, Hf.
      * rewrite !flushes_app, Hf, flushes_streamed.
        destruct (snd (astream self _)); cbn; lia.
  - intros kickoff self query project_id user_id conversation_id node_ids t.
    subst t.
    destruct (classify_request_quiet "CODE_CHANGES_AGENT" self query user_id
                conversation_id) as (_ & _ & Hf).
    destruct (result_of (ChatAgent.classify_request "CODE_CHANGES_AGENT" self
                           query user_id conversation_id))
      as [e | [vh c]] eqn:Hpre.
    { rewrite (code_changes_run_early _ _ _ _ _ _ _ e Hpre).
      rewrite (flush_is_last_write_app _ _ Hf), flushes_app, Hf.
      split; [reflexivity | cbn; lia]. }
    destruct c.
    + destruct (kickoff query project_id node_ids user_id) as [e | out] eqn:Hk.
      * rewrite (code_changes_run_agent_raises _ _ _ _ _ _ _ vh e Hpre Hk).
        rewrite (flush_is_last_write_app _ _ Hf), flushes_app, Hf.
        split; [reflexivity | cbn; lia].
      * rewrite (code_changes_run_agent_returns _ _ _ _ _ _ _ vh out Hpre Hk).
        split.
        -- apply flush_is_last_write_stream. now rewrite flushes_app, Hf.
        -- rewrite !flushes_app, Hf, flushes_streamed.
           destruct (snd (astream self _)); cbn; lia.
    + rewrite (code_changes_run_direct _ _ _ _ _ _ _ vh Hpre).
      split.
      * apply flush_is_last_write_stream. now rewrite flushes_app, Hf.
      * rewrite !flushes_app, Hf, flushes_streamed.
        destruct (snd (astream self _)); cbn; lia.
Qed.

(** X8: when the classifier returned NO_AGENT and the direct chain raises
    [e] after some chunks, every chunk it produced before has been appended to
    the buffer and yielded, the error item follows, and the buffer is never
    flushed: the caller has seen content that is not committed. *)
Theorem stream_failure_leaves_buffer_unflushed :
  (forall (kickoff : DebuggingChatAgent.Kickoff) (self : Services)
          (query project_id user_id conversation_id : string)
          (node_ids : list NodeContext) (logs stacktrace : string)
          (vh : list BaseMessage) (e : exn),
      classified "DEBUGGING_AGENT" self query user_id conversation_id vh NO_AGENT ->
      snd (astream self (debugging_inputs vh query project_id logs stacktrace))
        = Some e ->
      let chunks :=
        fst (astream self (debugging_inputs vh query project_id logs stacktrace)) in
      let cits := format_citations self [] in
      let t := trace_of (DebuggingChatAgent.run kickoff self query project_id
                           user_id conversation_id node_ids logs stacktrace) in
      appended t
      = map (fun ch => (Text (ChatAgent.chunk_content ch), Some cits)) chunks
      /\ yields t
         = map (fun ch => encode cits (Text (ChatAgent.chunk_content ch))) chunks
           ++ [error_item e]
      /\ flushes t = 0)
  /\ (forall (kickoff : CodeChangesChatAgent.Kickoff) (self : Services)
             (query project_id user_id conversation_id : string)
             (node_ids : list NodeContext) (vh : list BaseMessage) (e : exn),
         classified "CODE_CHANGES_AGENT" self query user_id conversation_id vh
           NO_AGENT ->
         snd (astream self {| in_history := vh; in_tool_results := [];
                              in_input := query |}) = Some e ->
         let chunks :=
           fst (astream self {| in_history := vh; in_tool_results := [];
                                in_input := query |}) in
         let t := trace_of (CodeChangesChatAgent.run kickoff self query
                              project_id user_id conversation_id node_ids) in
         appended t
         = map (fun ch => (Text (ChatAgent.chunk_content ch), None)) chunks
         /\ yields t
            = map (fun ch => encode [] (Text (ChatAgent.chunk_content ch))) chunks
              ++ [error_item e]
         /\ flushes t = 0).
Proof.
  split.
  - intros kickoff self query project_id user_id conversation_id node_ids
      logs stacktrace vh e Hc He chunks cits t. subst t cits chunks.
    rewrite (debugging_run_direct _ _ _ _ _ _ _ _ _ vh Hc). rewrite He.
    destruct (classify_request_quiet "DEBUGGING_AGENT" self query user_id
                conversation_id) as (Hy & Ha & Hf).
    rewrite !appended_app, !yields_app, !flushes_app, Hy, Ha, Hf.
    rewrite appended_streamed, yields_streamed, flushes_streamed.
    cbn [app appended yields flushes stream_end]. rewrite app_nil_r.
    repeat split.
  - intros kickoff self query project_id user_id conversation_id node_ids
      vh e Hc He chunks t. subst t chunks.
    rewrite (code_changes_run_direct _ _ _ _ _ _ _ vh Hc). rewrite He.
    destruct (classify_request_quiet "CODE_CHANGES_AGENT" self query user_id
                conversation_id) as (Hy & Ha & Hf).
    rewrite !appended_app, !yields_app, !flushes_app, Hy, Ha, Hf.
    rewrite appended_streamed, yields_streamed, flushes_streamed.
    cbn [app appended yields flushes stream_end]. rewrite app_nil_r.
    repeat split.
Qed.

Lemma stream_failure_leaves_buffer_unflushed_witness :
  (let self := services_example NO_AGENT two_chunks
                 (Some (Exception "stream broke")) shorten in
   let chunks :=
     fst (astream self (debugging_inputs example_history "why does it crash"
                          "proj" "log" "trace")) in
   let cits := format_citations self [] in
   let t := trace_of (DebuggingChatAgent.run
                        DebuggingChatAgent.await_async_generator self
                        "why does it crash" "proj" "user" "conv" []
                        "log" "trace") in
   appended t
   = map (fun ch => (Text (ChatAgent.chunk_content ch), Some cits)) chunks
   /\ yields t
      = map (fun ch => encode cits (Text (ChatAgent.chunk_content ch))) chunks
        ++ [error_item (Exception "stream broke")]
   /\ flushes t = 0)
  /\ (let self := services_example NO_AGENT two_chunks
                    (Some (Exception "stream broke")) shorten in
      let chunks :=
        fst (astream self {| in_history := example_history;
                             in_tool_results := []; in_input := "what changes" |}) in
      let t := trace_of (CodeChangesChatAgent.run
                           (fun _ _ _ _ => inr blast_example) self
                           "what changes" "proj" "user" "conv" []) in
      appended t
      = map (fun ch => (Text (ChatAgent.chunk_content ch), None)) chunks
      /\ yields t
         = map (fun ch => encode [] (Text (ChatAgent.chunk_content ch))) chunks
           ++ [error_item (Exception "stream broke")]
      /\ flushes t = 0).
Proof.
  split.
  - apply (proj1 stream_failure_leaves_buffer_unflushed
             DebuggingChatAgent.await_async_generator
             (services_example NO_AGENT two_chunks
                (Some (Exception "stream broke")) shorten)
             "why does it crash" "proj" "user" "conv" [] "log" "trace"
             example_history (Exception "stream broke"));
      reflexivity.
  - apply (proj2 stream_failure_leaves_buffer_unflushed
             (fun _ _ _ _ => inr blast_example)
             (services_example NO_AGENT two_chunks
                (Some (Exception "stream broke")) shorten)
             "what changes" "proj" "user" "conv" [] example_history
             (Exception "stream broke"));
      reflexivity.
Defined.

(** X9: when the chain is not built yet and the prompt lookup comes back
    without the SYSTEM or without the HUMAN prompt, [run] does nothing but
    that lookup and yields the one error item of the [ValueError], which
    names the agent: the history is not read, the classifier is not called. *)
Theorem missing_prompt_stops_the_request :
  (forall (kickoff : DebuggingChatAgent.Kickoff) (self : Services)
          (query project_id user_id conversation_id : string)
          (node_ids : list NodeContext) (logs stacktrace : string)
          (system_prompt human_prompt : option PromptResponse),
      chain self = false ->
      _get_prompts self user_id = inr (system_prompt, human_prompt) ->
      system_prompt = None \/ human_prompt = None ->
      DebuggingChatAgent.run kickoff self query project_id user_id
        conversation_id node_ids logs stacktrace
      = ([get_prompts user_id;
          yield ("An error occurred: "
                 ++ "Required prompts not found for DEBUGGING_AGENT")%string],
         inr tt))
  /\ (forall (kickoff : CodeChangesChatAgent.Kickoff) (self : Services)
             (query project_id user_id conversation_id : string)
             (node_ids : list NodeContext)
             (system_prompt human_prompt : option PromptResponse),
         chain self = false ->
         _get_prompts self user_id = inr (system_prompt, human_prompt) ->
         system_prompt = None \/ human_prompt = None ->
         CodeChangesChatAgent.run kickoff self query project_id user_id
           conversation_id node_ids
         = ([get_prompts user_id;
             yield ("An error occurred: "
                    ++ "Required prompts not found for CODE_CHANGES_AGENT")%string],
            inr tt)).
Proof.
  split.
  - intros kickoff self query project_id user_id conversation_id node_ids
      logs stacktrace sp hp Hchain Hp Hmiss.
    unfold DebuggingChatAgent.run, DebuggingChatAgent.run_body,
      ChatAgent.classify_request, ChatAgent._create_chain.
    rewrite Hchain, Hp.
    destruct Hmiss as [-> | ->]; [|destruct sp]; reflexivity.
  - intros kickoff self query project_id user_id conversation_id node_ids
      sp hp Hchain Hp Hmiss.
    unfold CodeChangesChatAgent.run, CodeChangesChatAgent.run_body,
      ChatAgent.classify_request, ChatAgent._create_chain.
    rewrite Hchain, Hp.
    destruct Hmiss as [-> | ->]; [|destruct sp]; reflexivity.
Qed.

Lemma missing_prompt_stops_the_request_witness :
  DebuggingChatAgent.run DebuggingChatAgent.await_async_generator
    services_missing_prompt "why does it crash" "proj" "user" "conv" []
    "log" "trace"
  = ([get_prompts "user";
      yield ("An error occurred: "
             ++ "Required prompts not found for DEBUGGING_AGENT")%string],
     inr tt)
  /\ CodeChangesChatAgent.run (fun _ _ _ _ => inr blast_example)
       services_missing_prompt "what changes" "proj" "user" "conv" []
     = ([get_prompts "user";
         yield ("An error occurred: "
                ++ "Required prompts not found for CODE_CHANGES_AGENT")%string],
        inr tt).
Proof.
  split.
  - apply (proj1 missing_prompt_stops_the_request
             DebuggingChatAgent.await_async_generator services_missing_prompt
             "why does it crash" "proj" "user" "conv" [] "log" "trace"
             (Some {| text := "system" |}) None);
      [reflexivity | reflexivity | now right].
  - apply (proj2 missing_prompt_stops_the_request
             (fun _ _ _ _ => inr blast_example) services_missing_prompt
             "what changes" "proj" "user" "conv" []
             (Some {| text := "system" |}) None);
      [reflexivity | reflexivity | now right].
Defined.

(** X10: the debugging agent reads [logs] and [stacktrace] on the direct
    branch only. When the classifier returned AGENT_REQUIRED, [run] does the
    same calls and yields the same items whatever logs and stack trace it is
    given: they reach neither the classifier nor the runner. *)
Theorem agent_branch_ignores_logs (kickoff : DebuggingChatAgent.Kickoff)
    (self : Services) (query project_id user_id conversation_id : string)
    (node_ids : list NodeContext) (logs stacktrace : string)
    (vh : list BaseMessage) :
  classified "DEBUGGING_AGENT" self query user_id conversation_id vh
    AGENT_REQUIRED ->
  forall logs' stacktrace' : string,
    DebuggingChatAgent.run kickoff self query project_id user_id
      conversation_id node_ids logs stacktrace
    = DebuggingChatAgent.run kickoff self query project_id user_id
        conversation_id node_ids logs' stacktrace'.
Proof.
  unfold classified. intros Hc logs' stacktrace'.
  unfold DebuggingChatAgent.run, DebuggingChatAgent.run_body.
  destruct (ChatAgent.classify_request "DEBUGGING_AGENT" self query user_id
              conversation_id) as [t [e | [vh' c]]];
    cbn [result_of snd] in Hc; [discriminate|].
  injection Hc as -> ->.
  unfold bind at 1 3. cbn [ClassificationResult_eqb negb].
  reflexivity.
Qed.

Lemma agent_branch_ignores_logs_witness :
  DebuggingChatAgent.run (fun _ _ _ _ _ => inr rag_example)
    (services_example AGENT_REQUIRED two_chunks None shorten)
    "why does it crash" "proj" "user" "conv" [] "log" "trace"
  = DebuggingChatAgent.run (fun _ _ _ _ _ => inr rag_example)
      (services_example AGENT_REQUIRED two_chunks None shorten)
      "why does it crash" "proj" "user" "conv" [] "KeyError: id" "main.py:3".
Proof.
  apply (agent_branch_ignores_logs (fun _ _ _ _ _ => inr rag_example)
           (services_example AGENT_REQUIRED two_chunks None shorten)
           "why does it crash" "proj" "user" "conv" [] "log" "trace"
           example_history).
  reflexivity.
Defined.

Section NoKickoff.

Lemma prelude_no_kickoff (t : list event) :
  Forall (fun ev => is_prelude ev = true) t -> filter is_kickoff_call t = [].
Proof.
  induction 1 as [|ev t Hev _ IH]; [reflexivity|].
  destruct ev; try discriminate Hev; exact IH.
Qed.

Lemma streamed_no_kickoff (conversation_id : string) (a : option (list string))
    (cits : list string) (chunks : list stream_chunk) :
  filter is_kickoff_call (streamed conversation_id a cits chunks) = [].
Proof. induction chunks as [|ch chunks IH]; [reflexivity | exact IH]. Qed.

Lemma stream_end_no_kickoff (conversation_id : string) (failure : option exn) :
  filter is_kickoff_call (stream_end conversation_id failure) = [].
Proof. now destruct failure. Qed.

End NoKickoff.

(** X11: when the classifier returned NO_AGENT no agent is kicked off, and
    [run] does not depend on [node_ids] or on what the agent would have
    answered; the code changes agent does not depend on [project_id] either:
    its direct answer is made from the history and the query alone. *)
Theorem direct_branch_ignores_node_ids :
  (forall (kickoff : DebuggingChatAgent.Kickoff) (self : Services)
          (query project_id user_id conversation_id : string)
          (node_ids : list NodeContext) (logs stacktrace : string)
          (vh : list BaseMessage),
      classified "DEBUGGING_AGENT" self query user_id conversation_id vh NO_AGENT ->
      filter is_kickoff_call
        (trace_of (DebuggingChatAgent.run kickoff self query project_id user_id
                     conversation_id node_ids logs stacktrace)) = []
      /\ forall (kickoff' : DebuggingChatAgent.Kickoff)
                (node_ids' : list NodeContext),
           DebuggingChatAgent.run kickoff self query project_id user_id
             conversation_id node_ids logs stacktrace
           = DebuggingChatAgent.run kickoff' self query project_id user_id
               conversation_id node_ids' logs stacktrace)
  /\ (forall (kickoff : CodeChangesChatAgent.Kickoff) (self : Services)
             (query project_id user_id conversation_id : string)
             (node_ids : list NodeContext) (vh : list BaseMessage),
         classified "CODE_CHANGES_AGENT" self query user_id conversation_id vh
           NO_AGENT ->
         filter is_kickoff_call
           (trace_of (CodeChangesChatAgent.run kickoff self query project_id
                        user_id conversation_id node_ids)) = []
         /\ forall (kickoff' : CodeChangesChatAgent.Kickoff)
                   (project_id' : string) (node_ids' : list NodeContext),
              CodeChangesChatAgent.run kickoff self query project_id user_id
                conversation_id node_ids
              = CodeChangesChatAgent.run kickoff' self query project_id' user_id
                  conversation_id node_ids').
Proof.
  split.
  - intros kickoff self query project_id user_id conversation_id node_ids
      logs stacktrace vh Hc. split.
    + rewrite (debugging_run_direct _ _ _ _ _ _ _ _ _ vh Hc).
      rewrite !filter_app, streamed_no_kickoff, stream_end_no_kickoff.
      rewrite (prelude_no_kickoff _ (classify_request_prelude _ _ _ _ _)).
      reflexivity.
    + intros kickoff' node_ids'. unfold classified in Hc.
      unfold DebuggingChatAgent.run, DebuggingChatAgent.run_body.
      destruct (ChatAgent.classify_request "DEBUGGING_AGENT" self query user_id
                  conversation_id) as [t [e | [vh' c]]];
        cbn [result_of snd] in Hc; [discriminate|].
      injection Hc as -> ->.
      unfold bind at 1 3. cbn [ClassificationResult_eqb negb].
      reflexivity.
  - intros kickoff self query project_id user_id conversation_id node_ids
      vh Hc. split.
    + rewrite (code_changes_run_direct _ _ _ _ _ _ _ vh Hc).
      rewrite !filter_app, streamed_no_kickoff, stream_end_no_kickoff.
      rewrite (prelude_no_kickoff _ (classify_request_prelude _ _ _ _ _)).
      reflexivity.
    + intros kickoff' project_id' node_ids'. unfold classified in Hc.
      unfold CodeChangesChatAgent.run, CodeChangesChatAgent.run_body.
      destruct (ChatAgent.classify_request "CODE_CHANGES_AGENT" self query
                  user_id conversation_id) as [t [e | [vh' c]]];
        cbn [result_of snd] in Hc; [discriminate|].
      injection Hc as -> ->.
      unfold bind at 1 3. cbn [ClassificationResult_eqb].
      reflexivity.
Qed.

Lemma direct_branch_ignores_node_ids_witness :
  (filter is_kickoff_call
     (trace_of (DebuggingChatAgent.run (fun _ _ _ _ _ => inr rag_example)
                  (services_example NO_AGENT two_chunks None shorten)
                  "why does it crash" "proj" "user" "conv" [] "log" "trace")) = []
   /\ forall (kickoff' : DebuggingChatAgent.Kickoff)
             (node_ids' : list NodeContext),
        DebuggingChatAgent.run (fun _ _ _ _ _ => inr rag_example)
          (services_example NO_AGENT two_chunks None shorten)
          "why does it crash" "proj" "user" "conv" [] "log" "trace"
        = DebuggingChatAgent.run kickoff'
            (services_example NO_AGENT two_chunks None shorten)
            "why does it crash" "proj" "user" "conv" node_ids' "log" "trace")
  /\ (filter is_kickoff_call
        (trace_of (CodeChangesChatAgent.run (fun _ _ _ _ => inr blast_example)
                     (services_example NO_AGENT two_chunks None shorten)
                     "what changes" "proj" "user" "conv" [])) = []
      /\ forall (kickoff' : CodeChangesChatAgent.Kickoff)
                (project_id' : string) (node_ids' : list NodeContext),
           CodeChangesChatAgent.run (fun _ _ _ _ => inr blast_example)
             (services_example NO_AGENT two_chunks None shorten)
             "what changes" "proj" "user" "conv" []
           = CodeChangesChatAgent.run kickoff'
               (services_example NO_AGENT two_chunks None shorten)
               "what changes" project_id' "user" "conv" node_ids').
Proof.
  split.
  - apply (proj1 direct_branch_ignores_node_ids
             (fun _ _ _ _ _ => inr rag_example)
             (services_example NO_AGENT two_chunks None shorten)
             "why does it crash" "proj" "user" "conv" [] "log" "trace"
             example_history).
    reflexivity.
  - apply (proj2 direct_branch_ignores_node_ids
             (fun _ _ _ _ => inr blast_example)
             (services_example NO_AGENT two_chunks None shorten)
             "what changes" "proj" "user" "conv" [] example_history).
    reflexivity.
Defined.

(** X12: a failed structured parse is not an error. With AGENT_REQUIRED and
    an agent result without structured part, the debugging agent appends,
    flushes and yields one chunk whose message is the raw text, with empty
    citations; the code changes agent gives the direct chain the raw text as
    its tool message, formats the empty citations, and streams as usual. *)
Theorem unparsed_result_degrades_to_raw :
  (forall (kickoff : DebuggingChatAgent.Kickoff) (self : Services)
          (query project_id user_id conversation_id : string)
          (node_ids : list NodeContext) (logs stacktrace : string)
          (vh : list BaseMessage) (out : CrewOutput (list NodeResponse)),
      classified "DEBUGGING_AGENT" self query user_id conversation_id vh
        AGENT_REQUIRED ->
      kickoff query project_id (map content (human_authored vh)) node_ids user_id
        = inr out ->
      pydantic out = None ->
      let t := trace_of (DebuggingChatAgent.run kickoff self query project_id
                           user_id conversation_id node_ids logs stacktrace) in
      appended t = [(Text (raw out), Some [])]
      /\ flushes t = 1
      /\ yields t = [encode [] (Text (raw out))]
      /\ filter is_chain_astream t = [])
  /\ (forall (kickoff : CodeChangesChatAgent.Kickoff) (self : Services)
             (query project_id user_id conversation_id : string)
             (node_ids : list NodeContext) (vh : list BaseMessage)
             (out : CrewOutput string),
         classified "CODE_CHANGES_AGENT" self query user_id conversation_id vh
           AGENT_REQUIRED ->
         kickoff query project_id node_ids user_id = inr out ->
         pydantic out = None ->
         let inputs :=
           {| in_history := vh;
              in_tool_results :=
                [SystemMessage (Text ("Blast Radius Agent result: " ++ raw out))];
              in_input := query |} in
         let t := trace_of (CodeChangesChatAgent.run kickoff self query
                              project_id user_id conversation_id node_ids) in
         filter is_chain_astream t = [chain_astream inputs]
         /\ format_calls t = [[]]
         /\ yields t
            = map (fun ch => encode (format_citations self [])
                               (Text (ChatAgent.chunk_content ch)))
                (fst (astream self inputs))
              ++ match snd (astream self inputs) with
                 | Some e => [error_item e]
                 | None => []
                 end).
Proof.
  assert (Hprel : forall t, Forall (fun ev => is_prelude ev = true) t ->
                            filter is_chain_astream t = []).
  { induction 1 as [|ev t Hev _ IH]; [reflexivity|].
    destruct ev; try discriminate Hev; exact IH. }
  assert (Hstr : forall cid a cits chunks,
             filter is_chain_astream (streamed cid a cits chunks) = []).
  { intros cid a cits chunks.
    induction chunks as [|ch chunks IH]; [reflexivity | exact IH]. }
  assert (Hend : forall cid failure,
             filter is_chain_astream (stream_end cid failure) = []).
  { intros cid failure. now destruct failure. }
  split.
  - intros kickoff self query project_id user_id conversation_id node_ids
      logs stacktrace vh out Hc Hk Hp t. subst t.
    rewrite (debugging_run_agent_returns _ _ _ _ _ _ _ _ _ vh out Hc Hk).
    rewrite appended_app, flushes_app, yields_app, filter_app.
    destruct (classify_request_quiet "DEBUGGING_AGENT" self query user_id
                conversation_id) as (-> & -> & ->).
    rewrite (Hprel _ (classify_request_prelude _ _ _ _ _)).
    unfold debugging_result. rewrite Hp. repeat split.
  - intros kickoff self query project_id user_id conversation_id node_ids
      vh out Hc Hk Hp inputs t. subst t inputs.
    rewrite (code_changes_run_agent_returns _ _ _ _ _ _ _ vh out Hc Hk).
    destruct (classify_request_quiet "CODE_CHANGES_AGENT" self query user_id
                conversation_id) as (Hy & _).
    unfold code_changes_result. rewrite Hp. cbn [fst snd].
    repeat split.
    + rewrite !filter_app, Hstr, Hend.
      rewrite (Hprel _ (classify_request_prelude _ _ _ _ _)). reflexivity.
    + rewrite !format_calls_app, classify_request_no_format,
        format_calls_streamed, format_calls_stream_end. reflexivity.
    + rewrite !yields_app, Hy, yields_streamed, yields_stream_end. reflexivity.
Qed.

Lemma unparsed_result_degrades_to_raw_witness :
  (let t := trace_of (DebuggingChatAgent.run (fun _ _ _ _ _ => inr rag_unparsed)
                        (services_example AGENT_REQUIRED two_chunks None shorten)
                        "why does it crash" "proj" "user" "conv" [] "log" "trace") in
   appended t = [(Text (raw rag_unparsed), Some [])]
   /\ flushes t = 1
   /\ yields t = [encode [] (Text (raw rag_unparsed))]
   /\ filter is_chain_astream t = [])
  /\ (let self := services_example AGENT_REQUIRED two_chunks None shorten in
      let inputs :=
        {| in_history := example_history;
           in_tool_results :=
             [SystemMessage
                (Text ("Blast Radius Agent result: " ++ raw blast_unparsed))];
           in_input := "what changes" |} in
      let t := trace_of (CodeChangesChatAgent.run
                           (fun _ _ _ _ => inr blast_unparsed) self
                           "what changes" "proj" "user" "conv" []) in
      filter is_chain_astream t = [chain_astream inputs]
      /\ format_calls t = [[]]
      /\ yields t
         = map (fun ch => encode (format_citations self [])
                            (Text (ChatAgent.chunk_content ch)))
             (fst (astream self inputs))
           ++ match snd (astream self inputs) with
              | Some e => [error_item e]
              | None => []
              end).
Proof.
  split.
  - apply (proj1 unparsed_result_degrades_to_raw
             (fun _ _ _ _ _ => inr rag_unparsed)
             (services_example AGENT_REQUIRED two_chunks None shorten)
             "why does it crash" "proj" "user" "conv" [] "log" "trace"
             example_history rag_unparsed);
      reflexivity.
  - apply (proj2 unparsed_result_degrades_to_raw
             (fun _ _ _ _ => inr blast_unparsed)
             (services_example AGENT_REQUIRED two_chunks None shorten)
             "what changes" "proj" "user" "conv" [] example_history
             blast_unparsed);
      reflexivity.
Defined.

Section Printable.

Import Json.

Lemma all_chars_app (p : ascii -> bool) (a b : string) :
  all_chars p (a ++ b)%string = all_chars p a && all_chars p b.
Proof.
  induction a as [|c a IH]; [reflexivity|].
  cbn [String.append all_chars]. now rewrite IH, andb_assoc.
Qed.

Lemma escape_char_printable (c : ascii) :
  all_chars printable (escape_char c) = true.
Proof. destruct c as [[] [] [] [] [] [] [] []]; reflexivity. Qed.

Lemma escape_printable (s : string) : all_chars printable (escape s) = true.
Proof.
  induction s as [|c s IH]; [reflexivity|].
  cbn [escape]. now rewrite all_chars_app, escape_char_printable, IH.
Qed.

Lemma quote_printable (s : string) : all_chars printable (quote s) = true.
Proof.
  unfold quote. cbn [all_chars].
  rewrite all_chars_app, escape_printable. reflexivity.
Qed.

Lemma join_printable (parts : list string) :
  Forall (fun part => all_chars printable part = true) parts ->
  all_chars printable (join parts) = true.
Proof.
  induction 1 as [|x parts Hx Hparts IH]; [reflexivity|].
  destruct parts as [|y parts]; [exact Hx|].
  change (join (x :: y :: parts)) with (x ++ ", " ++ join (y :: parts))%string.
  now rewrite !all_chars_app, Hx, IH.
Qed.

Lemma dumps_printable_sized (n : nat) :
  forall v : value, size v <= n -> all_chars printable (dumps v) = true.
Proof.
  induction n as [|n IH]; intros v Hv.
  { pose proof (size_pos v). lia. }
  destruct v as [s | items | fields].
  - apply quote_printable.
  - rewrite dumps_Arr. cbn [all_chars].
    rewrite all_chars_app, join_printable; [reflexivity|].
    apply Forall_forall. intros part Hpart.
    apply in_map_iff in Hpart. destruct Hpart as (x & <- & Hx).
    apply IH. cbn [size] in Hv.
    pose proof (list_sum_In (size x) (map size items) (in_map size items x Hx)).
    lia.
  - rewrite dumps_Obj. cbn [all_chars].
    rewrite all_chars_app, join_printable; [reflexivity|].
    apply Forall_forall. intros part Hpart.
    apply in_map_iff in Hpart. destruct Hpart as ([k x] & <- & Hx).
    cbn [member_text]. rewrite !all_chars_app, quote_printable.
    cbn [all_chars andb]. apply IH. cbn [size] in Hv.
    pose proof (list_sum_In (size x)
                  (map (fun kv : string * value => match kv with (_, y) => size y end)
                     fields)
                  (in_map (fun kv : string * value =>
                             match kv with (_, y) => size y end) fields (k, x) Hx)).
    lia.
Qed.

Lemma dumps_printable (v : value) : all_chars printable (dumps v) = true.
Proof. exact (dumps_printable_sized (size v) v (le_n _)). Qed.

End Printable.

Section ItemsPrintable.

Import ChatAgent.

(** An item is a chunk's text, or the error item of the exception [failure]
    holds. *)
Lemma items_printable (chunks : list (list string * message_content))
    (failure : outcome unit) :
  Forall (fun item =>
            all_chars printable item = true
            \/ exists e, failure = inl e /\ item = error_item e)
    (map (fun c => encode (fst c) (snd c)) chunks
     ++ match failure with
        | inl e => [error_item e]
        | inr _ => []
        end).
Proof.
  apply Forall_app. split.
  - apply Forall_forall. intros item Hitem.
    apply in_map_iff in Hitem. destruct Hitem as (c & <- & _).
    left. apply dumps_printable.
  - destruct failure as [e | u]; [|constructor].
    constructor; [|constructor]. right. now exists e.
Qed.

Lemma debugging_run_items (kickoff : DebuggingChatAgent.Kickoff) (self : Services)
    (query project_id user_id conversation_id : string)
    (node_ids : list NodeContext) (logs stacktrace : string) :
  exists chunks : list (list string * message_content),
    yields (trace_of (DebuggingChatAgent.run kickoff self query project_id
                        user_id conversation_id node_ids logs stacktrace))
    = map (fun c => encode (fst c) (snd c)) chunks
      ++ match result_of (DebuggingChatAgent.run_body kickoff self query
                            project_id user_id conversation_id node_ids
                            logs stacktrace) with
         | inl e => [error_item e]
         | inr _ => []
         end.
Proof.
  destruct (classify_request_quiet "DEBUGGING_AGENT" self query user_id
              conversation_id) as (Hy & _).
  destruct (result_of (ChatAgent.classify_request "DEBUGGING_AGENT" self query
                         user_id conversation_id)) as [e | [vh c]] eqn:Hpre.
  { exists [].
    rewrite (debugging_body_early _ _ _ _ _ _ _ _ _ e Hpre).
    rewrite (debugging_run_early _ _ _ _ _ _ _ _ _ e Hpre).
    now rewrite yields_app, Hy. }
  destruct c.
  - destruct (kickoff query project_id (map content (human_authored vh))
                node_ids user_id) as [e | out] eqn:Hk.
    + exists [].
      rewrite (debugging_body_agent_raises _ _ _ _ _ _ _ _ _ vh e Hpre Hk).
      rewrite (debugging_run_agent_raises _ _ _ _ _ _ _ _ _ vh e Hpre Hk).
      now rewrite yields_app, Hy.
    + exists [(snd (debugging_result out), fst (debugging_result out))].
      rewrite (debugging_body_agent_returns _ _ _ _ _ _ _ _ _ vh out Hpre Hk).
      rewrite (debugging_run_agent_returns _ _ _ _ _ _ _ _ _ vh out Hpre Hk).
      now rewrite yields_app, Hy.
  - eexists.
    rewrite (debugging_body_direct _ _ _ _ _ _ _ _ _ vh Hpre).
    rewrite (debugging_run_direct _ _ _ _ _ _ _ _ _ vh Hpre).
    apply direct_stream_items. now rewrite yields_app, Hy.
Qed.

Lemma code_changes_run_items (kickoff : CodeChangesChatAgent.Kickoff)
    (self : Services) (query project_id user_id conversation_id : string)
    (node_ids : list NodeContext) :
  exists chunks : list (list string * message_content),
    yields (trace_of (CodeChangesChatAgent.run kickoff self query project_id
                        user_id conversation_id node_ids))
    = map (fun c => encode (fst c) (snd c)) chunks
      ++ match result_of (CodeChangesChatAgent.run_body kickoff self query
                            project_id user_id conversation_id node_ids) with
         | inl e => [error_item e]
         | inr _ => []
         end.
Proof.
  destruct (classify_request_quiet "CODE_CHANGES_AGENT" self query user_id
              conversation_id) as (Hy & _).
  destruct (result_of (ChatAgent.classify_request "CODE_CHANGES_AGENT" self
                         query user_id conversation_id))
    as [e | [vh c]] eqn:Hpre.
  { exists [].
    rewrite (code_changes_body_early _ _ _ _ _ _ _ e Hpre).
    rewrite (code_changes_run_early _ _ _ _ _ _ _ e Hpre).
    now rewrite yields_app, Hy. }
  destruct c.
  - destruct (kickoff query project_id node_ids user_id) as [e | out] eqn:Hk.
    + exists [].
      rewrite (code_changes_body_agent_raises _ _ _ _ _ _ _ vh e Hpre Hk).
      rewrite (code_changes_run_agent_raises _ _ _ _ _ _ _ vh e Hpre Hk).
      now rewrite yields_app, Hy.
    + eexists.
      rewrite (code_changes_body_agent_returns _ _ _ _ _ _ _ vh out Hpre Hk).
      rewrite (code_changes_run_agent_returns _ _ _ _ _ _ _ vh out Hpre Hk).
      apply direct_stream_items. now rewrite yields_app, Hy.
  - eexists.
    rewrite (code_changes_body_direct _ _ _ _ _ _ _ vh Hpre).
    rewrite (code_changes_run_direct _ _ _ _ _ _ _ vh Hpre).
    apply direct_stream_items. now rewrite yields_app, Hy.
Qed.

End ItemsPrintable.

(** X13: a chunk is plain ASCII on one line. [json.dumps] escapes every
    character outside [' '..'~'], so whatever the model, the agent or the
    citations hold, every item [run] of either agent yields is made of the
    characters [' '..'~'] only, the one exception being the error item, whose
    text is the exception's own. *)
Theorem yielded_chunks_are_printable_ascii :
  (forall (cits : list string) (msg : message_content),
      all_chars printable (encode cits msg) = true)
  /\ (forall (kickoff : DebuggingChatAgent.Kickoff) (self : Services)
             (query project_id user_id conversation_id : string)
             (node_ids : list NodeContext) (logs stacktrace : string),
         Forall (fun item =>
                   all_chars printable item = true
                   \/ exists e,
                        result_of (DebuggingChatAgent.run_body kickoff self query
                                     project_id user_id conversation_id node_ids
                                     logs stacktrace) = inl e
                        /\ item = error_item e)
           (yields (trace_of (DebuggingChatAgent.run kickoff self query
                                project_id user_id conversation_id node_ids
                                logs stacktrace))))
  /\ (forall (kickoff : CodeChangesChatAgent.Kickoff) (self : Services)
             (query project_id user_id conversation_id : string)
             (node_ids : list NodeContext),
         Forall (fun item =>
                   all_chars printable item = true
                   \/ exists e,
                        result_of (CodeChangesChatAgent.run_body kickoff self
                                     query project_id user_id conversation_id
                                     node_ids) = inl e
                        /\ item = error_item e)
           (yields (trace_of (CodeChangesChatAgent.run kickoff self query
                                project_id user_id conversation_id node_ids)))).
Proof.
  split; [|split].
  - intros cits msg. apply dumps_printable.
  - intros kickoff self query project_id user_id conversation_id node_ids
      logs stacktrace.
    destruct (debugging_run_items kickoff self query project_id user_id
                conversation_id node_ids logs stacktrace) as (chunks & ->).
    apply items_printable.
  - intros kickoff self query project_id user_id conversation_id node_ids.
    destruct (code_changes_run_items kickoff self query project_id user_id
                conversation_id node_ids) as (chunks & ->).
    apply items_printable.
Qed.

(* ===================================================================== *)
(** * The prompt lookup from one request to the next *)
(* ===================================================================== *)

Section PromptsCache.

Import AgentObject.

Lemma key_eqb_refl (k : key) : key_eqb k k = true.
Proof. unfold key_eqb. now rewrite Nat.eqb_refl, String.eqb_refl. Qed.

Lemma key_eqb_sym (a b : key) : key_eqb a b = key_eqb b a.
Proof. unfold key_eqb. now rewrite Nat.eqb_sym, String.eqb_sym. Qed.

Lemma key_eqb_eq (a b : key) : key_eqb a b = true -> a = b.
Proof.
  destruct a as [i u], b as [j v]. unfold key_eqb. cbn [fst snd].
  intros H. apply andb_prop in H. destruct H as [Hi Hu].
  apply Nat.eqb_eq in Hi. apply String.eqb_eq in Hu. now subst.
Qed.

(** The key of a call is the most recently used one. *)
Lemma call_front (c : list key) (k : key) : exists r, call c k = k :: r.
Proof. unfold call. destruct (cached c k); eexists; reflexivity. Qed.

Lemma cached_front (k : key) (r : list key) : cached (k :: r) k = true.
Proof. unfold cached. cbn [existsb]. now rewrite key_eqb_refl. Qed.

(** One other call does not drop the most recently used key. *)
Lemma cached_after_other (k k' : key) (r : list key) :
  cached (call (k :: r) k') k = true.
Proof.
  unfold call. destruct (cached (k :: r) k') eqn:Hhit.
  - unfold cached. cbn [existsb filter].
    destruct (key_eqb k k') eqn:Hk; [reflexivity|].
    rewrite (key_eqb_sym k' k), Hk. cbn [negb existsb].
    now rewrite key_eqb_refl, orb_true_r.
  - unfold cached, maxsize. cbn [Nat.sub firstn existsb].
    now rewrite key_eqb_refl, orb_true_r.
Qed.

(** A call leaves at most [maxsize] keys in a cache that held no more. *)
Lemma call_bounded (c : list key) (k : key) :
  List.length c <= maxsize ->
  exists r, call c k = k :: r /\ List.length r <= 1.
Proof.
  unfold call, maxsize. intros Hc. destruct (cached c k) eqn:Hhit.
  - eexists. split; [reflexivity|].
    destruct c as [|x [|y [|z c]]]; cbn [List.length] in Hc; try lia.
    + discriminate Hhit.
    + unfold cached in Hhit. cbn [existsb] in Hhit.
      rewrite orb_false_r in Hhit. cbn [filter]. rewrite Hhit.
      cbn [negb List.length]. lia.
    + unfold cached in Hhit. cbn [existsb] in Hhit.
      rewrite orb_false_r in Hhit. cbn [filter].
      destruct (key_eqb k x), (key_eqb k y); cbn [negb List.length];
        try lia; discriminate Hhit.
  - eexists. split; [reflexivity|].
    cbn [Nat.sub]. destruct c as [|x c]; cbn [firstn List.length]; lia.
Qed.

(** Two calls with two other keys drop the key. *)
Lemma evicted_after_two (k k1 k2 : key) (r : list key) :
  List.length r <= 1 ->
  key_eqb k1 k = false -> key_eqb k2 k = false -> key_eqb k2 k1 = false ->
  cached (call (call (k :: r) k1) k2) k = false.
Proof.
  intros Hr H1 H2 H21.
  assert (Hfirst : call (k :: r) k1 = [k1; k]).
  { unfold call, cached, maxsize.
    destruct r as [|x [|y r]]; cbn [List.length] in Hr; try lia;
      cbn [existsb filter Nat.sub firstn]; rewrite H1; cbn [orb negb].
    - reflexivity.
    - destruct (key_eqb k1 x); reflexivity. }
  rewrite Hfirst. unfold call, cached, maxsize.
  cbn [existsb filter Nat.sub firstn]. rewrite H21, H2. cbn [orb existsb].
  now rewrite (key_eqb_sym k k2), (key_eqb_sym k k1), H1, H2.
Qed.

End PromptsCache.

Section LookupRaises.

Import ChatAgent.

(** The chain is not built and the prompt lookup raises. *)
Lemma debugging_run_lookup_raises (kickoff : DebuggingChatAgent.Kickoff)
    (self : Services) (query project_id user_id conversation_id : string)
    (node_ids : list NodeContext) (logs stacktrace : string) (e : exn) :
  chain self = false ->
  _get_prompts self user_id = inl e ->
  DebuggingChatAgent.run kickoff self query project_id user_id conversation_id
    node_ids logs stacktrace
  = ([get_prompts user_id; yield (error_item e)], inr tt).
Proof.
  intros Hchain Hp.
  unfold DebuggingChatAgent.run, DebuggingChatAgent.run_body,
    classify_request, _create_chain.
  now rewrite Hchain, Hp.
Qed.

Lemma code_changes_run_lookup_raises (kickoff : CodeChangesChatAgent.Kickoff)
    (self : Services) (query project_id user_id conversation_id : string)
    (node_ids : list NodeContext) (e : exn) :
  chain self = false ->
  _get_prompts self user_id = inl e ->
  CodeChangesChatAgent.run kickoff self query project_id user_id
    conversation_id node_ids
  = ([get_prompts user_id; yield (error_item e)], inr tt).
Proof.
  intros Hchain Hp.
  unfold CodeChangesChatAgent.run, CodeChangesChatAgent.run_body,
    classify_request, _create_chain.
  now rewrite Hchain, Hp.
Qed.

(** [run] reads [self] through [chain], the prompts of [user_id] and the
    other services only. *)
Lemma debugging_run_ext (kickoff : DebuggingChatAgent.Kickoff)
    (s1 s2 : Services) (query project_id user_id conversation_id : string)
    (node_ids : list NodeContext) (logs stacktrace : string) :
  chain s1 = chain s2 ->
  _get_prompts s1 user_id = _get_prompts s2 user_id ->
  session_history s1 = session_history s2 ->
  classifier_prompt s1 = classifier_prompt s2 ->
  classifier s1 = classifier s2 ->
  astream s1 = astream s2 ->
  format_citations s1 = format_citations s2 ->
  DebuggingChatAgent.run kickoff s1 query project_id user_id conversation_id
    node_ids logs stacktrace
  = DebuggingChatAgent.run kickoff s2 query project_id user_id conversation_id
      node_ids logs stacktrace.
Proof.
  intros H1 H2 H3 H4 H5 H6 H7.
  unfold DebuggingChatAgent.run, DebuggingChatAgent.run_body,
    classify_request, _create_chain, _classify_query.
  now rewrite H1, H2, H3, H4, H5, H6, H7.
Qed.

Lemma code_changes_run_ext (kickoff : CodeChangesChatAgent.Kickoff)
    (s1 s2 : Services) (query project_id user_id conversation_id : string)
    (node_ids : list NodeContext) :
  chain s1 = chain s2 ->
  _get_prompts s1 user_id = _get_prompts s2 user_id ->
  session_history s1 = session_history s2 ->
  classifier_prompt s1 = classifier_prompt s2 ->
  classifier s1 = classifier s2 ->
  astream s1 = astream s2 ->
  format_citations s1 = format_citations s2 ->
  CodeChangesChatAgent.run kickoff s1 query project_id user_id conversation_id
    node_ids
  = CodeChangesChatAgent.run kickoff s2 query project_id user_id
      conversation_id node_ids.
Proof.
  intros H1 H2 H3 H4 H5 H6 H7.
  unfold CodeChangesChatAgent.run, CodeChangesChatAgent.run_body,
    classify_request, _create_chain, _classify_query.
  now rewrite H1, H2, H3, H4, H5, H6, H7.
Qed.

End LookupRaises.

Section LookupCount.

Import ChatAgent.

Lemma classify_request_get_prompts (agent : string) (self : Services)
    (query user_id conversation_id : string) :
  filter is_get_prompts
    (trace_of (classify_request agent self query user_id conversation_id))
  = if chain self then [] else [get_prompts user_id].
Proof.
  unfold classify_request, _create_chain, _classify_query.
  destruct (chain self); cbn zeta; autorewrite with gen; cbn [app].
  - destruct (session_history self user_id conversation_id) as [e | h];
      autorewrite with gen; cbn [app]; [reflexivity|].
    destruct (classifier_prompt self user_id) as [e | prompt];
      autorewrite with gen; cbn [app]; [reflexivity|].
    destruct (classifier self _ _) as [e | c]; autorewrite with gen;
      reflexivity.
  - destruct (_get_prompts self user_id) as [e | [[s|] [h|]]];
      autorewrite with gen; cbn [app]; try reflexivity.
    destruct (session_history self user_id conversation_id) as [e | hist];
      autorewrite with gen; cbn [app]; [reflexivity|].
    destruct (classifier_prompt self user_id) as [e | prompt];
      autorewrite with gen; cbn [app]; [reflexivity|].
    destruct (classifier self _ _) as [e | c]; autorewrite with gen;
      reflexivity.
Qed.

Lemma streamed_no_get_prompts (conversation_id : string)
    (a : option (list string)) (cits : list string)
    (chunks : list stream_chunk) :
  filter is_get_prompts (streamed conversation_id a cits chunks) = [].
Proof. induction chunks as [|ch chunks IH]; [reflexivity | exact IH]. Qed.

Lemma stream_end_no_get_prompts (conversation_id : string)
    (failure : option exn) :
  filter is_get_prompts (stream_end conversation_id failure) = [].
Proof. now destruct failure. Qed.

(** A request looks the prompts up at most once, and exactly when the chain
    is not built. *)
Lemma debugging_run_get_prompts (kickoff : DebuggingChatAgent.Kickoff)
    (self : Services) (query project_id user_id conversation_id : string)
    (node_ids : list NodeContext) (logs stacktrace : string) :
  filter is_get_prompts
    (trace_of (DebuggingChatAgent.run kickoff self query project_id user_id
                 conversation_id node_ids logs stacktrace))
  = if chain self then [] else [get_prompts user_id].
Proof.
  pose proof (classify_request_get_prompts "DEBUGGING_AGENT" self query user_id
                conversation_id) as Hpre.
  destruct (result_of (classify_request "DEBUGGING_AGENT" self query user_id
                         conversation_id)) as [e | [vh c]] eqn:Hres.
  { rewrite (debugging_run_early _ _ _ _ _ _ _ _ _ e Hres).
    rewrite filter_app, Hpre. cbn [filter is_get_prompts]. apply app_nil_r. }
  destruct c.
  - destruct (kickoff query project_id (map content (human_authored vh))
                node_ids user_id) as [e | out] eqn:Hk.
    + rewrite (debugging_run_agent_raises _ _ _ _ _ _ _ _ _ vh e Hres Hk).
      rewrite filter_app, Hpre. cbn [filter is_get_prompts]. apply app_nil_r.
    + rewrite (debugging_run_agent_returns _ _ _ _ _ _ _ _ _ vh out Hres Hk).
      rewrite filter_app, Hpre. cbn [filter is_get_prompts]. apply app_nil_r.
  - rewrite (debugging_run_direct _ _ _ _ _ _ _ _ _ vh Hres).
    rewrite !filter_app, Hpre, streamed_no_get_prompts,
      stream_end_no_get_prompts.
    cbn [filter is_get_prompts]. now rewrite !app_nil_r.
Qed.

Lemma code_changes_run_get_prompts (kickoff : CodeChangesChatAgent.Kickoff)
    (self : Services) (query project_id user_id conversation_id : string)
    (node_ids : list NodeContext) :
  filter is_get_prompts
    (trace_of (CodeChangesChatAgent.run kickoff self query project_id user_id
                 conversation_id node_ids))
  = if chain self then [] else [get_prompts user_id].
Proof.
  pose proof (classify_request_get_prompts "CODE_CHANGES_AGENT" self query
                user_id conversation_id) as Hpre.
  destruct (result_of (classify_request "CODE_CHANGES_AGENT" self query user_id
                         conversation_id)) as [e | [vh c]] eqn:Hres.
  { rewrite (code_changes_run_early _ _ _ _ _ _ _ e Hres).
    rewrite filter_app, Hpre. cbn [filter is_get_prompts]. apply app_nil_r. }
  destruct c.
  - destruct (kickoff query project_id node_ids user_id) as [e | out] eqn:Hk.
    + rewrite (code_changes_run_agent_raises _ _ _ _ _ _ _ vh e Hres Hk).
      rewrite filter_app, Hpre. cbn [filter is_get_prompts]. apply app_nil_r.
    + rewrite (code_changes_run_agent_returns _ _ _ _ _ _ _ vh out Hres Hk).
      rewrite !filter_app, Hpre, streamed_no_get_prompts,
        stream_end_no_get_prompts.
      cbn [filter is_get_prompts]. now rewrite !app_nil_r.
  - rewrite (code_changes_run_direct _ _ _ _ _ _ _ vh Hres).
    rewrite !filter_app, Hpre, streamed_no_get_prompts,
      stream_end_no_get_prompts.
    cbn [filter is_get_prompts]. now rewrite !app_nil_r.
Qed.

End LookupCount.

(** X14: a failed chain creation is not retried. [_get_prompts] is a
    coroutine function under [lru_cache], so the cache keeps the coroutine
    object of the call. When the first request of [user_id] on an agent
    object fails to build the chain, the next request of the same user on
    that object is handed the awaited object again: whatever the prompt
    service would answer now, it yields the one item
    ["An error occurred: cannot reuse already awaited coroutine"], and it
    still does after one other call of [_get_prompts]. *)
Theorem failed_chain_creation_is_not_retried :
  (forall (kickoff : DebuggingChatAgent.Kickoff) (self_id : nat)
          (st : AgentObject.state) (first second : Services)
          (query project_id user_id conversation_id : string)
          (node_ids : list NodeContext) (logs stacktrace : string) (e : exn),
      AgentObject.chain_built st = false ->
      result_of (ChatAgent._create_chain "DEBUGGING_AGENT"
                   (AgentObject.services_in self_id st first) user_id) = inl e ->
      let st' :=
        AgentObject.after_request "DEBUGGING_AGENT" self_id st first user_id in
      let stuck : G unit :=
        ([get_prompts user_id;
          yield ("An error occurred: "
                 ++ "cannot reuse already awaited coroutine")%string],
         inr tt) in
      DebuggingChatAgent.run kickoff (AgentObject.services_in self_id st' second)
        query project_id user_id conversation_id node_ids logs stacktrace
      = stuck
      /\ forall k : AgentObject.key,
           DebuggingChatAgent.run kickoff
             (AgentObject.services_in self_id (AgentObject.after_call st' k)
                second)
             query project_id user_id conversation_id node_ids logs stacktrace
           = stuck)
  /\ (forall (kickoff : CodeChangesChatAgent.Kickoff) (self_id : nat)
             (st : AgentObject.state) (first second : Services)
             (query project_id user_id conversation_id : string)
             (node_ids : list NodeContext) (e : exn),
         AgentObject.chain_built st = false ->
         result_of (ChatAgent._create_chain "CODE_CHANGES_AGENT"
                      (AgentObject.services_in self_id st first) user_id)
           = inl e ->
         let st' :=
           AgentObject.after_request "CODE_CHANGES_AGENT" self_id st first
             user_id in
         let stuck : G unit :=
           ([get_prompts user_id;
             yield ("An error occurred: "
                    ++ "cannot reuse already awaited coroutine")%string],
            inr tt) in
         CodeChangesChatAgent.run kickoff
           (AgentObject.services_in self_id st' second)
           query project_id user_id conversation_id node_ids
         = stuck
         /\ forall k : AgentObject.key,
              CodeChangesChatAgent.run kickoff
                (AgentObject.services_in self_id (AgentObject.after_call st' k)
                   second)
                query project_id user_id conversation_id node_ids
              = stuck).
Proof.
  split.
  - intros kickoff self_id st first second query project_id user_id
      conversation_id node_ids logs stacktrace e Hchain Hfail st' stuck.
    subst st' stuck. unfold AgentObject.after_request. rewrite Hchain, Hfail.
    destruct (call_front (AgentObject.cache st) (self_id, user_id)) as [r Hr].
    split; [|intros k];
      apply (debugging_run_lookup_raises _ _ _ _ _ _ _ _ _
               (Exception "cannot reuse already awaited coroutine"));
      try reflexivity;
      unfold AgentObject.after_call;
      cbn [AgentObject.services_in _get_prompts AgentObject.cache];
      rewrite Hr.
    + now rewrite cached_front.
    + now rewrite cached_after_other.
  - intros kickoff self_id st first second query project_id user_id
      conversation_id node_ids e Hchain Hfail st' stuck.
    subst st' stuck. unfold AgentObject.after_request. rewrite Hchain, Hfail.
    destruct (call_front (AgentObject.cache st) (self_id, user_id)) as [r Hr].
    split; [|intros k];
      apply (code_changes_run_lookup_raises _ _ _ _ _ _ _
               (Exception "cannot reuse already awaited coroutine"));
      try reflexivity;
      unfold AgentObject.after_call;
      cbn [AgentObject.services_in _get_prompts AgentObject.cache];
      rewrite Hr.
    + now rewrite cached_front.
    + now rewrite cached_after_other.
Qed.

Lemma failed_chain_creation_is_not_retried_witness :
  (let st' :=
     AgentObject.after_request "DEBUGGING_AGENT" 0 fresh services_missing_prompt
       "user" in
   let stuck : G unit :=
     ([get_prompts "user";
       yield ("An error occurred: "
              ++ "cannot reuse already awaited coroutine")%string],
      inr tt) in
   DebuggingChatAgent.run (fun _ _ _ _ _ => inr rag_example)
     (AgentObject.services_in 0 st' services_with_prompts)
     "why does it crash" "proj" "user" "conv" [] "log" "trace"
   = stuck
   /\ forall k : AgentObject.key,
        DebuggingChatAgent.run (fun _ _ _ _ _ => inr rag_example)
          (AgentObject.services_in 0 (AgentObject.after_call st' k)
             services_with_prompts)
          "why does it crash" "proj" "user" "conv" [] "log" "trace"
        = stuck)
  /\ (let st' :=
        AgentObject.after_request "CODE_CHANGES_AGENT" 0 fresh
          services_missing_prompt "user" in
      let stuck : G unit :=
        ([get_prompts "user";
          yield ("An error occurred: "
                 ++ "cannot reuse already awaited coroutine")%string],
         inr tt) in
      CodeChangesChatAgent.run (fun _ _ _ _ => inr blast_example)
        (AgentObject.services_in 0 st' services_with_prompts)
        "what changes" "proj" "user" "conv" []
      = stuck
      /\ forall k : AgentObject.key,
           CodeChangesChatAgent.run (fun _ _ _ _ => inr blast_example)
             (AgentObject.services_in 0 (AgentObject.after_call st' k)
                services_with_prompts)
             "what changes" "proj" "user" "conv" []
           = stuck).
Proof.
  split.
  - apply (proj1 failed_chain_creation_is_not_retried
             (fun _ _ _ _ _ => inr rag_example) 0 fresh services_missing_prompt
             services_with_prompts "why does it crash" "proj" "user" "conv" []
             "log" "trace"
             (Exception "Required prompts not found for DEBUGGING_AGENT"));
      reflexivity.
  - apply (proj2 failed_chain_creation_is_not_retried
             (fun _ _ _ _ => inr blast_example) 0 fresh services_missing_prompt
             services_with_prompts "what changes" "proj" "user" "conv" []
             (Exception "Required prompts not found for CODE_CHANGES_AGENT"));
      reflexivity.
Defined.

(** X15: the failed lookup is run again only once the cache has dropped it.
    The cache holds two keys: after a failed chain creation for [user_id],
    two calls of [_get_prompts] with two other keys evict the awaited
    coroutine object, and the next request of [user_id] on the agent object
    runs as on an agent whose chain is not built yet, with the answers its
    collaborators give now. *)
Theorem evicted_lookup_is_retried :
  (forall (kickoff : DebuggingChatAgent.Kickoff) (self_id : nat)
          (st : AgentObject.state) (first second : Services)
          (query project_id user_id conversation_id : string)
          (node_ids : list NodeContext) (logs stacktrace : string) (e : exn)
          (k1 k2 : AgentObject.key),
      List.length (AgentObject.cache st) <= AgentObject.maxsize ->
      AgentObject.chain_built st = false ->
      result_of (ChatAgent._create_chain "DEBUGGING_AGENT"
                   (AgentObject.services_in self_id st first) user_id) = inl e ->
      AgentObject.key_eqb k1 (self_id, user_id) = false ->
      AgentObject.key_eqb k2 (self_id, user_id) = false ->
      AgentObject.key_eqb k2 k1 = false ->
      chain second = false ->
      let st' :=
        AgentObject.after_request "DEBUGGING_AGENT" self_id st first user_id in
      DebuggingChatAgent.run kickoff
        (AgentObject.services_in self_id
           (AgentObject.after_call (AgentObject.after_call st' k1) k2) second)
        query project_id user_id conversation_id node_ids logs stacktrace
      = DebuggingChatAgent.run kickoff second query project_id user_id
          conversation_id node_ids logs stacktrace)
  /\ (forall (kickoff : CodeChangesChatAgent.Kickoff) (self_id : nat)
             (st : AgentObject.state) (first second : Services)
             (query project_id user_id conversation_id : string)
             (node_ids : list NodeContext) (e : exn)
             (k1 k2 : AgentObject.key),
         List.length (AgentObject.cache st) <= AgentObject.maxsize ->
         AgentObject.chain_built st = false ->
         result_of (ChatAgent._create_chain "CODE_CHANGES_AGENT"
                      (AgentObject.services_in self_id st first) user_id)
           = inl e ->
         AgentObject.key_eqb k1 (self_id, user_id) = false ->
         AgentObject.key_eqb k2 (self_id, user_id) = false ->
         AgentObject.key_eqb k2 k1 = false ->
         chain second = false ->
         let st' :=
           AgentObject.after_request "CODE_CHANGES_AGENT" self_id st first
             user_id in
         CodeChangesChatAgent.run kickoff
           (AgentObject.services_in self_id
              (AgentObject.after_call (AgentObject.after_call st' k1) k2)
              second)
           query project_id user_id conversation_id node_ids
         = CodeChangesChatAgent.run kickoff second query project_id user_id
             conversation_id node_ids).
Proof.
  split.
  - intros kickoff self_id st first second query project_id user_id
      conversation_id node_ids logs stacktrace e k1 k2 Hlen Hchain Hfail
      H1 H2 H21 Hsecond st'.
    subst st'. unfold AgentObject.after_request. rewrite Hchain, Hfail.
    destruct (call_bounded (AgentObject.cache st) (self_id, user_id) Hlen)
      as (r & Hr & Hrlen).
    apply debugging_run_ext; try reflexivity;
      unfold AgentObject.after_call;
      cbn [AgentObject.services_in chain _get_prompts AgentObject.cache
             AgentObject.chain_built].
    + now rewrite Hsecond.
    + now rewrite Hr, (evicted_after_two _ k1 k2 r Hrlen H1 H2 H21).
  - intros kickoff self_id st first second query project_id user_id
      conversation_id node_ids e k1 k2 Hlen Hchain Hfail H1 H2 H21 Hsecond st'.
    subst st'. unfold AgentObject.after_request. rewrite Hchain, Hfail.
    destruct (call_bounded (AgentObject.cache st) (self_id, user_id) Hlen)
      as (r & Hr & Hrlen).
    apply code_changes_run_ext; try reflexivity;
      unfold AgentObject.after_call;
      cbn [AgentObject.services_in chain _get_prompts AgentObject.cache
             AgentObject.chain_built].
    + now rewrite Hsecond.
    + now rewrite Hr, (evicted_after_two _ k1 k2 r Hrlen H1 H2 H21).
Qed.

Lemma evicted_lookup_is_retried_witness :
  (let st' :=
     AgentObject.after_request "DEBUGGING_AGENT" 0 fresh services_missing_prompt
       "user" in
   DebuggingChatAgent.run (fun _ _ _ _ _ => inr rag_example)
     (AgentObject.services_in 0
        (AgentObject.after_call (AgentObject.after_call st' (1, "user"))
           (0, "other"))
        services_with_prompts)
     "why does it crash" "proj" "user" "conv" [] "log" "trace"
   = DebuggingChatAgent.run (fun _ _ _ _ _ => inr rag_example)
       services_with_prompts
       "why does it crash" "proj" "user" "conv" [] "log" "trace")
  /\ (let st' :=
        AgentObject.after_request "CODE_CHANGES_AGENT" 0 fresh
          services_missing_prompt "user" in
      CodeChangesChatAgent.run (fun _ _ _ _ => inr blast_example)
        (AgentObject.services_in 0
           (AgentObject.after_call (AgentObject.after_call st' (1, "user"))
              (0, "other"))
           services_with_prompts)
        "what changes" "proj" "user" "conv" []
      = CodeChangesChatAgent.run (fun _ _ _ _ => inr blast_example)
          services_with_prompts
          "what changes" "proj" "user" "conv" []).
Proof.
  split.
  - apply (proj1 evicted_lookup_is_retried
             (fun _ _ _ _ _ => inr rag_example) 0 fresh services_missing_prompt
             services_with_prompts "why does it crash" "proj" "user" "conv" []
             "log" "trace"
             (Exception "Required prompts not found for DEBUGGING_AGENT")
             (1, "user") (0, "other"));
      try reflexivity.
    unfold fresh, AgentObject.maxsize. cbn [AgentObject.cache List.length]. lia.
  - apply (proj2 evicted_lookup_is_retried
             (fun _ _ _ _ => inr blast_example) 0 fresh services_missing_prompt
             services_with_prompts "what changes" "proj" "user" "conv" []
             (Exception "Required prompts not found for CODE_CHANGES_AGENT")
             (1, "user") (0, "other"));
      try reflexivity.
    unfold fresh, AgentObject.maxsize. cbn [AgentObject.cache List.length]. lia.
Defined.

(** X16: the chain is built once. A request looks the prompts up exactly
    when [self.chain] is not set, and at most once; after a request that
    built the chain, no later request on the agent object, of whichever user
    and whatever its collaborators answer, calls [_get_prompts] or changes
    the cache: a result the cache holds is never read after a success. *)
Theorem chain_is_built_once :
  (forall (kickoff : DebuggingChatAgent.Kickoff) (self_id : nat)
          (st : AgentObject.state) (first later : Services)
          (user_id : string)
          (query project_id later_user conversation_id : string)
          (node_ids : list NodeContext) (logs stacktrace : string),
      result_of (ChatAgent._create_chain "DEBUGGING_AGENT"
                   (AgentObject.services_in self_id st first) user_id)
        = inr tt ->
      let st' :=
        AgentObject.after_request "DEBUGGING_AGENT" self_id st first user_id in
      filter is_get_prompts
        (trace_of (DebuggingChatAgent.run kickoff
                     (AgentObject.services_in self_id st' later)
                     query project_id later_user conversation_id node_ids
                     logs stacktrace)) = []
      /\ AgentObject.after_request "DEBUGGING_AGENT" self_id st' later later_user
         = st')
  /\ (forall (kickoff : CodeChangesChatAgent.Kickoff) (self_id : nat)
             (st : AgentObject.state) (first later : Services)
             (user_id : string)
             (query project_id later_user conversation_id : string)
             (node_ids : list NodeContext),
         result_of (ChatAgent._create_chain "CODE_CHANGES_AGENT"
                      (AgentObject.services_in self_id st first) user_id)
           = inr tt ->
         let st' :=
           AgentObject.after_request "CODE_CHANGES_AGENT" self_id st first
             user_id in
         filter is_get_prompts
           (trace_of (CodeChangesChatAgent.run kickoff
                        (AgentObject.services_in self_id st' later)
                        query project_id later_user conversation_id node_ids))
           = []
         /\ AgentObject.after_request "CODE_CHANGES_AGENT" self_id st' later
              later_user
            = st')
  /\ (forall (kickoff : DebuggingChatAgent.Kickoff) (self : Services)
             (query project_id user_id conversation_id : string)
             (node_ids : list NodeContext) (logs stacktrace : string),
         filter is_get_prompts
           (trace_of (DebuggingChatAgent.run kickoff self query project_id
                        user_id conversation_id node_ids logs stacktrace))
         = if chain self then [] else [get_prompts user_id])
  /\ (forall (kickoff : CodeChangesChatAgent.Kickoff) (self : Services)
             (query project_id user_id conversation_id : string)
             (node_ids : list NodeContext),
         filter is_get_prompts
           (trace_of (CodeChangesChatAgent.run kickoff self query project_id
                        user_id conversation_id node_ids))
         = if chain self then [] else [get_prompts user_id]).
Proof.
  assert (Hbuilt : forall agent self_id st first user_id,
             result_of (ChatAgent._create_chain agent
                          (AgentObject.services_in self_id st first) user_id)
               = inr tt ->
             AgentObject.chain_built
               (AgentObject.after_request agent self_id st first user_id)
             = true).
  { intros agent self_id st first user_id Hok.
    unfold AgentObject.after_request.
    destruct (AgentObject.chain_built st) eqn:Hc; [exact Hc|].
    cbn [AgentObject.chain_built]. now rewrite Hok. }
  split; [|split; [|split]].
  - intros kickoff self_id st first later user_id query project_id later_user
      conversation_id node_ids logs stacktrace Hok st'.
    pose proof (Hbuilt _ _ _ _ _ Hok) as Hc. fold st' in Hc. split.
    + rewrite debugging_run_get_prompts.
      cbn [AgentObject.services_in chain]. now rewrite Hc.
    + unfold AgentObject.after_request at 1. now rewrite Hc.
  - intros kickoff self_id st first later user_id query project_id later_user
      conversation_id node_ids Hok st'.
    pose proof (Hbuilt _ _ _ _ _ Hok) as Hc. fold st' in Hc. split.
    + rewrite code_changes_run_get_prompts.
      cbn [AgentObject.services_in chain]. now rewrite Hc.
    + unfold AgentObject.after_request at 1. now rewrite Hc.
  - apply debugging_run_get_prompts.
  - apply code_changes_run_get_prompts.
Qed.

Lemma chain_is_built_once_witness :
  (let st' :=
     AgentObject.after_request "DEBUGGING_AGENT" 0 fresh services_with_prompts
       "user" in
   filter is_get_prompts
     (trace_of (DebuggingChatAgent.run (fun _ _ _ _ _ => inr rag_example)
                  (AgentObject.services_in 0 st' services_missing_prompt)
                  "why does it crash" "proj" "other" "conv" [] "log" "trace"))
   = []
   /\ AgentObject.after_request "DEBUGGING_AGENT" 0 st' services_missing_prompt
        "other"
      = st')
  /\ (let st' :=
        AgentObject.after_request "CODE_CHANGES_AGENT" 0 fresh
          services_with_prompts "user" in
      filter is_get_prompts
        (trace_of (CodeChangesChatAgent.run (fun _ _ _ _ => inr blast_example)
                     (AgentObject.services_in 0 st' services_missing_prompt)
                     "what changes" "proj" "other" "conv" []))
      = []
      /\ AgentObject.after_request "CODE_CHANGES_AGENT" 0 st'
           services_missing_prompt "other"
         = st').
Proof.
  split.
  - apply (proj1 chain_is_built_once
             (fun _ _ _ _ _ => inr rag_example) 0 fresh services_with_prompts
             services_missing_prompt "user" "why does it crash" "proj" "other"
             "conv" [] "log" "trace").
    reflexivity.
  - apply (proj1 (proj2 chain_is_built_once)
             (fun _ _ _ _ => inr blast_example) 0 fresh services_with_prompts
             services_missing_prompt "user" "what changes" "proj" "other"
             "conv" []).
    reflexivity.
Defined.
